(** * Lana App: derived-state computations of the finance backend

    A shallow embedding of the computational core of the FastAPI backend:
    - [routers/fixed_payments.py]: [calculate_next_due_date],
      [get_payment_status] and the loop body of [get_fixed_payments];
    - [routers/budgets.py]: [calculate_budget_status], [create_budget],
      [update_budget];
    - [routers/analytics.py]: the monthly analysis and category breakdown
      of [get_dashboard_data], and [get_monthly_trend];
    - [routers/notifications.py]: [create_notification].

    Python [int]s are [Z].  The [Float] columns (amounts) are read as exact
    rationals [Q]: rounding of IEEE doubles is outside this model, and
    equalities between amounts are stated with [==].  The ambient clock
    [datetime.now()] is an explicit argument of every function that reads
    it.  SQL tables are lists of rows; a raised exception is a value of
    [result]. *)

From Stdlib Require Import ZArith QArith Qabs Lqa Lia.
From stdpp Require Import base option list strings pretty gmap.
From stdpp Require Import sorting.

(** ** Exceptions *)

Inductive exn : Type :=
| ValueError
| OverflowError.

Inductive result (A : Type) : Type :=
| Ok (a : A)
| Raise (e : exn).
Arguments Ok {A} a.
Arguments Raise {A} e.

Definition result_bind {A B} (r : result A) (k : A -> result B) : result B :=
  match r with
  | Ok a => k a
  | Raise e => Raise e
  end.

(** ** The parts of Python's [calendar] and [datetime] the routers use *)

Module Calendar.
Local Open Scope Z_scope.

(** [calendar.isleap] *)
Definition isleap (year : Z) : bool :=
  (year mod 4 =? 0) && (negb (year mod 100 =? 0) || (year mod 400 =? 0)).

(** [calendar.mdays], indexed by month; index 0 holds 0. *)
Definition mdays (month : Z) : Z :=
  match month with
  | 1 => 31 | 2 => 28 | 3 => 31 | 4 => 30 | 5 => 31 | 6 => 30
  | 7 => 31 | 8 => 31 | 9 => 30 | 10 => 31 | 11 => 30 | 12 => 31
  | _ => 0
  end.

Definition days_in_month (year month : Z) : Z :=
  mdays month + (if (month =? 2) && isleap year then 1 else 0).

(** [calendar.monthrange(year, month)[1]]; an illegal month raises
    [IllegalMonthError], a subclass of [ValueError].  The year is not
    restricted. *)
Definition monthrange_ndays (year month : Z) : result Z :=
  if (1 <=? month) && (month <=? 12) then Ok (days_in_month year month)
  else Raise ValueError.

Definition MINYEAR : Z := 1.
Definition MAXYEAR : Z := 9999.

(** A naive [datetime.datetime]. *)
Record datetime : Type := mk_datetime {
  dt_year : Z;
  dt_month : Z;
  dt_day : Z;
  dt_hour : Z;
  dt_minute : Z;
  dt_second : Z;
  dt_microsecond : Z
}.

(** The values the [datetime] class can hold. *)
Definition valid_date (y m d : Z) : bool :=
  (MINYEAR <=? y) && (y <=? MAXYEAR) &&
  (1 <=? m) && (m <=? 12) &&
  (1 <=? d) && (d <=? days_in_month y m).

Definition valid_datetime (t : datetime) : bool :=
  valid_date (dt_year t) (dt_month t) (dt_day t) &&
  (0 <=? dt_hour t) && (dt_hour t <? 24) &&
  (0 <=? dt_minute t) && (dt_minute t <? 60) &&
  (0 <=? dt_second t) && (dt_second t <? 60) &&
  (0 <=? dt_microsecond t) && (dt_microsecond t <? 1000000).

(** [datetime(year, month, day)]: midnight of that day, or [ValueError]
    when the fields are out of range. *)
Definition datetime_new (y m d : Z) : result datetime :=
  if valid_date y m d then Ok (mk_datetime y m d 0 0 0 0)
  else Raise ValueError.

(** Comparison of naive datetimes: lexicographic on the seven fields. *)
Definition dt_fields (t : datetime) : list Z :=
  [dt_year t; dt_month t; dt_day t; dt_hour t; dt_minute t; dt_second t;
   dt_microsecond t].

Fixpoint lex_compare (a b : list Z) : comparison :=
  match a, b with
  | [], [] => Eq
  | [], _ :: _ => Lt
  | _ :: _, [] => Gt
  | x :: a', y :: b' =>
      match x ?= y with
      | Eq => lex_compare a' b'
      | c => c
      end
  end.

Definition dt_compare (a b : datetime) : comparison :=
  lex_compare (dt_fields a) (dt_fields b).

(** [a <= b] and [a < b] on datetimes *)
Definition dt_leb (a b : datetime) : bool :=
  match dt_compare a b with Gt => false | _ => true end.
Definition dt_ltb (a b : datetime) : bool :=
  match dt_compare a b with Lt => true | _ => false end.

(** [datetime.date()] followed by [date.toordinal()]: the proleptic
    Gregorian ordinal, as [_ymd2ord] computes it. *)
Definition days_before_year (year : Z) : Z :=
  let y := year - 1 in
  y * 365 + y / 4 - y / 100 + y / 400.

Definition DAYS_BEFORE_MONTH (month : Z) : Z :=
  match month with
  | 1 => 0 | 2 => 31 | 3 => 59 | 4 => 90 | 5 => 120 | 6 => 151
  | 7 => 181 | 8 => 212 | 9 => 243 | 10 => 273 | 11 => 304 | 12 => 334
  | _ => 0
  end.

Definition days_before_month (year month : Z) : Z :=
  DAYS_BEFORE_MONTH month + (if (2 <? month) && isleap year then 1 else 0).

Definition ymd2ord (year month day : Z) : Z :=
  days_before_year year + days_before_month year month + day.

Definition toordinal (t : datetime) : Z :=
  ymd2ord (dt_year t) (dt_month t) (dt_day t).

(** [(a.date() - b.date()).days] *)
Definition date_diff_days (a b : datetime) : Z := toordinal a - toordinal b.

End Calendar.

(** ** routers/fixed_payments.py *)

Module FixedPayments.
Import Calendar.
Local Open Scope Z_scope.

(** The month after [(year, month)], as the [if month == 12] block
    computes it. *)
Definition advance_month (year month : Z) : Z * Z :=
  if month =? 12 then (year + 1, 1) else (year, month + 1).

(** [calculate_next_due_date], with the instant read by [datetime.now()]
    as the argument [now].  The first [monthrange] call is outside the
    [try]; every later raise is a [ValueError] and runs the handler
    [datetime(year, month, max_day)] on the variables as they are at that
    point. *)
Definition calculate_next_due_date (now : datetime) (due_day : Z)
  : result datetime :=
  let year := dt_year now in
  let month := dt_month now in
  result_bind (monthrange_ndays year month) (fun max_day =>
  let actual_due_day := Z.min due_day max_day in
  match datetime_new year month actual_due_day with
  | Raise _ => datetime_new year month max_day
  | Ok next_due =>
      if dt_leb next_due now then
        let '(year1, month1) := advance_month year month in
        match monthrange_ndays year1 month1 with
        | Raise _ => datetime_new year1 month1 max_day
        | Ok max_day1 =>
            let actual_due_day1 := Z.min due_day max_day1 in
            match datetime_new year1 month1 actual_due_day1 with
            | Raise _ => datetime_new year1 month1 max_day1
            | Ok next_due1 => Ok next_due1
            end
        end
      else Ok next_due
  end).

(** The columns of [FixedPayment] read by the status functions. *)
Record FixedPayment : Type := mk_FixedPayment {
  fp_id : Z;
  fp_user_id : Z;
  fp_due_day : Z;
  fp_is_active : bool
}.

(** [get_payment_status] *)
Definition get_payment_status (payment : FixedPayment) (days_until_due : Z)
  : string :=
  if negb (fp_is_active payment) then "inactive"
  else if days_until_due <? 0 then "overdue"
  else if days_until_due =? 0 then "due"
  else if days_until_due <=? 2 then "warning"
  else "upcoming".

(** One iteration of the loop of [get_fixed_payments]: [now1] is the
    instant read inside [calculate_next_due_date], [now2] the one read by
    the loop body for the subtraction. *)
Definition payment_with_status (now1 now2 : datetime) (payment : FixedPayment)
  : result (datetime * Z * string) :=
  result_bind (calculate_next_due_date now1 (fp_due_day payment))
    (fun next_due =>
       let days_until_due := date_diff_days next_due now2 in
       let status := get_payment_status payment days_until_due in
       Ok (next_due, days_until_due, status)).

(** Midnight of a day, without the range check of the constructor. *)
Definition midnight (y m d : Z) : datetime := mk_datetime y m d 0 0 0 0.

(** Steps 1 and 2 of the algorithm of the specification: the clamped
    day in the month of [now]. *)
Definition first_candidate (now : datetime) (due_day : Z) : datetime :=
  midnight (dt_year now) (dt_month now)
    (Z.min due_day (days_in_month (dt_year now) (dt_month now))).

(** The algorithm as the specification words it, on dates that are not
    bounded by [MAXYEAR]: clamp, compare, advance, clamp again. *)
Definition next_due_spec (now : datetime) (due_day : Z) : datetime :=
  let candidate := first_candidate now due_day in
  if dt_leb candidate now then
    let '(y, m) := advance_month (dt_year now) (dt_month now) in
    midnight y m (Z.min due_day (days_in_month y m))
  else candidate.

(** The one situation in which the advanced month cannot be represented:
    the candidate of December 9999 has passed. *)
Definition rollover_overflows (now : datetime) (due_day : Z) : bool :=
  (dt_year now =? MAXYEAR) && (dt_month now =? 12) &&
  dt_leb (first_candidate now due_day) now.

End FixedPayments.

(** ** models.py and schemas.py *)

Module Models.
Import Calendar.
Local Open Scope Z_scope.

Inductive TransactionType : Type := INCOME | EXPENSE.

Global Instance TransactionType_eq_dec : EqDecision TransactionType.
Proof. solve_decision. Defined.

Inductive NotificationType : Type :=
| BUDGET_WARNING
| BUDGET_EXCEEDED
| PAYMENT_REMINDER
| INSUFFICIENT_FUNDS
| REPORT.

(** Rows of the tables.  The server-maintained [created_at] and
    [updated_at] columns and the password hash are left out: no router
    modelled here reads them. *)
Record User : Type := mk_User {
  u_id : Z;
  u_email : string
}.

Record Transaction : Type := mk_Transaction {
  tx_id : Z;
  tx_user_id : Z;
  tx_amount : Q;
  tx_description : string;
  tx_category : string;
  tx_transaction_type : TransactionType;
  tx_date : datetime
}.

Record Budget : Type := mk_Budget {
  b_id : Z;
  b_user_id : Z;
  b_category : string;
  b_amount : Q;
  b_month : Z;
  b_year : Z
}.

Record Notification : Type := mk_Notification {
  n_id : Z;
  n_user_id : Z;
  n_title : string;
  n_message : string;
  n_notification_type : NotificationType;
  n_is_read : bool;
  n_sent_via_email : bool;
  n_sent_via_sms : bool
}.

(** The database: one list of rows per table.  [foreign_keys] tells
    whether the engine enforces [ForeignKey] constraints (PostgreSQL does,
    SQLite as configured in database.py does not). *)
Record DB : Type := mk_DB {
  users : list User;
  transactions : list Transaction;
  budgets : list Budget;
  notifications : list Notification;
  foreign_keys : bool
}.

(** The integer primary key given to a new row: one more than the largest
    key in the table. *)
Definition fresh_id (ids : list Z) : Z := 1 + foldr Z.max 0 ids.

(** Request bodies (schemas.py). *)
Record BudgetCreate : Type := mk_BudgetCreate {
  bc_category : string;
  bc_amount : Q;
  bc_month : Z;
  bc_year : Z
}.

(** A value a JSON body can give to a field. *)
Inductive pyval : Type :=
| VNone
| VFloat (q : Q)
| VInt (z : Z)
| VStr (s : string).

(** [BudgetUpdate] has the single field [amount: Optional[float] = None].
    [bu_amount] is [None] when the body does not set the field, [Some None]
    when it sets it to null and [Some (Some q)] when it sets it to [q]. *)
Record BudgetUpdate : Type := mk_BudgetUpdate {
  bu_amount : option (option Q)
}.

(** [budget_update.dict(exclude_unset=True).items()] *)
Definition BudgetUpdate_items (u : BudgetUpdate) : list (string * pyval) :=
  match bu_amount u with
  | None => []
  | Some None => [("amount"%string, VNone)]
  | Some (Some q) => [("amount"%string, VFloat q)]
  end.

Record NotificationCreate : Type := mk_NotificationCreate {
  nc_title : string;
  nc_message : string;
  nc_notification_type : NotificationType;
  nc_user_id : Z
}.

(** What a handler gives back: its return value, an [HTTPException] it
    raised, or an [IntegrityError] raised by [db.commit()]. *)
Inductive response (A : Type) : Type :=
| Success (a : A)
| HTTPException (status_code : Z) (detail : string)
| IntegrityError.
Arguments Success {A} a.
Arguments HTTPException {A} status_code detail.
Arguments IntegrityError {A}.

End Models.

(** ** Rational amounts and the SQL aggregates *)

Module Sql.
Import Models.

(** Python's [x > y] and [x >= y] on amounts *)
Definition Qgtb (x y : Q) : bool := negb (Qle_bool x y).
Definition Qgeb (x y : Q) : bool := Qle_bool y x.

Definition Qsum (l : list Q) : Q := foldr Qplus 0%Q l.
Global Arguments Qsum : simpl never.

(** [func.sum(column)]: NULL, read as [None], over no rows. *)
Definition sql_sum (l : list Q) : option Q :=
  match l with
  | [] => None
  | _ => Some (Qsum l)
  end.

(** [query.scalar() or 0]: [None] and a zero sum both give [0]. *)
Definition scalar_or_0 (x : option Q) : Q :=
  match x with
  | None => 0%Q
  | Some q => if Qeq_bool q 0 then 0%Q else q
  end.

(** [GROUP BY key]: one group per distinct key, with the rows that have
    it. *)
Definition group_by {A K : Type} `{EqDecision K} (key : A -> K)
  (rows : list A) : list (K * list A) :=
  map (fun k => (k, filter (fun r => key r = k) rows))
      (remove_dups (map key rows)).

End Sql.

(** ** routers/budgets.py *)

Module Budgets.
Import Calendar Models Sql.
Local Open Scope Z_scope.

(** The expression [(spent_amount / budget.amount) * 100 if
    budget.amount > 0 else 0], written out in [calculate_budget_status]
    and again in [get_budgets]. *)
Definition budget_percentage (budget : Budget) (spent_amount : Q) : Q :=
  if Qgtb (b_amount budget) 0 then (spent_amount / b_amount budget) * 100
  else 0.

(** [calculate_budget_status] *)
Definition calculate_budget_status (budget : Budget) (spent_amount : Q)
  : string :=
  let percentage := budget_percentage budget spent_amount in
  if Qgeb percentage 100 then "exceeded"
  else if Qgeb percentage 80 then "warning"
  else "normal".

(** The body of the loop of [get_budgets] for one budget: the spent
    amount, the percentage and the status. *)
Definition budget_with_spent (txs : list Transaction) (user_id month year : Z)
  (budget : Budget) : Q * Q * string :=
  let spent :=
    scalar_or_0 (sql_sum (map tx_amount
      (filter (fun t => tx_user_id t = user_id
                        /\ tx_category t = b_category budget
                        /\ tx_transaction_type t = EXPENSE
                        /\ dt_month (tx_date t) = month
                        /\ dt_year (tx_date t) = year) txs))) in
  let spent_amount := Qabs spent in
  let percentage := budget_percentage budget spent_amount in
  let status := calculate_budget_status budget spent_amount in
  (spent_amount, percentage, status).

(** The rows [create_budget] looks for. *)
Definition same_slot (user_id : Z) (category : string) (month year : Z)
  (b : Budget) : Prop :=
  b_user_id b = user_id /\ b_category b = category
  /\ b_month b = month /\ b_year b = year.

Global Instance same_slot_dec user_id category month year b :
  Decision (same_slot user_id category month year b).
Proof. unfold same_slot. apply _. Defined.

(** [create_budget].  The foreign key of the new row is the caller's own
    id, a row of [users]. *)
Definition create_budget (db : DB) (current_user : User)
  (budget : BudgetCreate) : response Budget * DB :=
  let existing_budget :=
    head (filter (same_slot (u_id current_user) (bc_category budget)
                    (bc_month budget) (bc_year budget)) (budgets db)) in
  match existing_budget with
  | Some _ =>
      (HTTPException 400
         "Ya existe un presupuesto para esta categoría en este mes", db)
  | None =>
      let db_budget :=
        mk_Budget (fresh_id (map b_id (budgets db))) (u_id current_user)
          (bc_category budget) (bc_amount budget) (bc_month budget)
          (bc_year budget) in
      (Success db_budget,
       mk_DB (users db) (transactions db) (budgets db ++ [db_budget])
         (notifications db) (foreign_keys db))
  end.

(** [setattr(budget, field, value)] on a row of [budgets], for the value
    a later [db.commit()] can store; [None] when the column rejects the
    value (a null or a value of another type in a NOT NULL typed column).
    A name that is no column changes nothing that is stored. *)
Definition setattr (b : Budget) (field : string) (value : pyval)
  : option Budget :=
  if decide (field = "amount"%string) then
    match value with
    | VFloat q => Some (mk_Budget (b_id b) (b_user_id b) (b_category b) q
                          (b_month b) (b_year b))
    | VInt z => Some (mk_Budget (b_id b) (b_user_id b) (b_category b)
                        (inject_Z z) (b_month b) (b_year b))
    | _ => None
    end
  else if decide (field = "category"%string) then
    match value with
    | VStr s => Some (mk_Budget (b_id b) (b_user_id b) s (b_amount b)
                        (b_month b) (b_year b))
    | _ => None
    end
  else if decide (field = "month"%string) then
    match value with
    | VInt z => Some (mk_Budget (b_id b) (b_user_id b) (b_category b)
                        (b_amount b) z (b_year b))
    | _ => None
    end
  else if decide (field = "year"%string) then
    match value with
    | VInt z => Some (mk_Budget (b_id b) (b_user_id b) (b_category b)
                        (b_amount b) (b_month b) z)
    | _ => None
    end
  else if decide (field = "user_id"%string) then
    match value with
    | VInt z => Some (mk_Budget (b_id b) z (b_category b) (b_amount b)
                        (b_month b) (b_year b))
    | _ => None
    end
  else if decide (field = "id"%string) then
    match value with
    | VInt z => Some (mk_Budget z (b_user_id b) (b_category b) (b_amount b)
                        (b_month b) (b_year b))
    | _ => None
    end
  else Some b.

(** The loop [for field, value in items: setattr(budget, field, value)] *)
Fixpoint apply_items (b : Budget) (items : list (string * pyval))
  : option Budget :=
  match items with
  | [] => Some b
  | (field, value) :: rest =>
      match setattr b field value with
      | Some b' => apply_items b' rest
      | None => None
      end
  end.

(** [UPDATE budgets SET ... WHERE id = budget_id] *)
Definition write_row (budget_id : Z) (b' : Budget) (rows : list Budget)
  : list Budget :=
  map (fun b => if decide (b_id b = budget_id) then b' else b) rows.

(** [update_budget] *)
Definition update_budget (db : DB) (current_user : User) (budget_id : Z)
  (budget_update : BudgetUpdate) : response Budget * DB :=
  let budget :=
    head (filter (fun b => b_id b = budget_id
                           /\ b_user_id b = u_id current_user)
            (budgets db)) in
  match budget with
  | None => (HTTPException 404 "Presupuesto no encontrado", db)
  | Some budget =>
      match apply_items budget (BudgetUpdate_items budget_update) with
      | None => (IntegrityError, db)
      | Some budget' =>
          (Success budget',
           mk_DB (users db) (transactions db)
             (write_row budget_id budget' (budgets db))
             (notifications db) (foreign_keys db))
      end
  end.

(** The key that is to be unique among budgets. *)
Definition budget_slot (b : Budget) : Z * string * Z * Z :=
  (b_user_id b, b_category b, b_month b, b_year b).

End Budgets.

(** ** routers/analytics.py *)

Module Analytics.
Import Calendar Models Sql.
Local Open Scope Z_scope.

Record MonthlyAnalysis : Type := mk_MonthlyAnalysis {
  total_income : Q;
  total_expenses : Q;
  balance : Q;
  transactions_count : Z
}.

Record CategoryAnalysis : Type := mk_CategoryAnalysis {
  ca_category : string;
  ca_amount : Q;
  ca_percentage : Q;
  ca_transaction_count : Z
}.

(** The filter shared by the queries of [get_dashboard_data]. *)
Definition of_type_in_period (user_id : Z) (ty : TransactionType)
  (month year : Z) (t : Transaction) : Prop :=
  tx_user_id t = user_id /\ tx_transaction_type t = ty
  /\ dt_month (tx_date t) = month /\ dt_year (tx_date t) = year.

Global Instance of_type_in_period_dec user_id ty month year t :
  Decision (of_type_in_period user_id ty month year t).
Proof. unfold of_type_in_period. apply _. Defined.

Definition in_period (user_id month year : Z) (t : Transaction) : Prop :=
  tx_user_id t = user_id
  /\ dt_month (tx_date t) = month /\ dt_year (tx_date t) = year.

Global Instance in_period_dec user_id month year t :
  Decision (in_period user_id month year t).
Proof. unfold in_period. apply _. Defined.

(** [expense_sum] of [get_dashboard_data], after [abs]. *)
Definition expense_total (txs : list Transaction) (user_id month year : Z)
  : Q :=
  let expense_sum :=
    scalar_or_0 (sql_sum (map tx_amount
      (filter (of_type_in_period user_id EXPENSE month year) txs))) in
  Qabs expense_sum.

(** The "Analisis mensual" block of [get_dashboard_data], for the period
    the handler has settled on. *)
Definition monthly_analysis (txs : list Transaction) (user_id month year : Z)
  : MonthlyAnalysis :=
  let income_sum :=
    scalar_or_0 (sql_sum (map tx_amount
      (filter (of_type_in_period user_id INCOME month year) txs))) in
  let expense_sum := expense_total txs user_id month year in
  let transactions_count :=
    Z.of_nat (length (filter (in_period user_id month year) txs)) in
  mk_MonthlyAnalysis income_sum expense_sum (income_sum - expense_sum)
    transactions_count.

(** The rows of the [group_by(Transaction.category)] query: category,
    [func.sum(amount)], [func.count(id)]. *)
Definition category_data (txs : list Transaction) (user_id month year : Z)
  : list (string * Q * Z) :=
  map (fun g : string * list Transaction =>
         (g.1, Qsum (map tx_amount g.2), Z.of_nat (length g.2)))
      (group_by tx_category
         (filter (of_type_in_period user_id EXPENSE month year) txs)).

(** The loop that builds [category_breakdown]. *)
Definition category_breakdown (txs : list Transaction)
  (user_id month year : Z) : list CategoryAnalysis :=
  let expense_sum := expense_total txs user_id month year in
  map (fun row : string * Q * Z =>
         let '(category, total, count) := row in
         let amount := Qabs total in
         let percentage :=
           if Qgtb expense_sum 0 then (amount / expense_sum * 100)%Q
           else 0%Q in
         mk_CategoryAnalysis category amount percentage count)
      (category_data txs user_id month year).

(** The sign convention of the stored amounts: no expense of the period
    has a positive amount. *)
Definition expenses_nonpositive (txs : list Transaction)
  (user_id month year : Z) : Prop :=
  Forall (fun t => of_type_in_period user_id EXPENSE month year t ->
                   (tx_amount t <= 0)%Q) txs.

(** [date.fromordinal], as [_ord2ymd] computes it. *)
Definition DI400Y : Z := 146097.
Definition DI100Y : Z := 36524.
Definition DI4Y : Z := 1461.
Definition MAXORDINAL : Z := 3652059.

Definition ord2ymd (ordinal : Z) : Z * Z * Z :=
  let n := ordinal - 1 in
  let n400 := n / DI400Y in
  let n := n mod DI400Y in
  let year := n400 * 400 + 1 in
  let n100 := n / DI100Y in
  let n := n mod DI100Y in
  let n4 := n / DI4Y in
  let n := n mod DI4Y in
  let n1 := n / 365 in
  let n := n mod 365 in
  let year := year + n100 * 100 + n4 * 4 + n1 in
  if (n1 =? 4) || (n100 =? 4) then (year - 1, 12, 31)
  else
    let leapyear := (n1 =? 3) && (negb (n4 =? 24) || (n100 =? 3)) in
    let month := Z.shiftr (n + 50) 5 in
    let preceding :=
      DAYS_BEFORE_MONTH month + (if (2 <? month) && leapyear then 1 else 0) in
    let '(month, preceding) :=
      if n <? preceding then
        (month - 1,
         preceding - (mdays (month - 1)
                      + (if (month - 1 =? 2) && leapyear then 1 else 0)))
      else (month, preceding) in
    (year, month, n - preceding + 1).

(** [t - timedelta(days=days)]: the time of day is kept, and a date
    outside years 1..9999 raises [OverflowError]. *)
Definition minus_days (t : datetime) (days : Z) : result datetime :=
  let ordinal := toordinal t - days in
  if (0 <? ordinal) && (ordinal <=? MAXORDINAL) then
    let '(y, m, d) := ord2ymd ordinal in
    Ok (mk_datetime y m d (dt_hour t) (dt_minute t) (dt_second t)
          (dt_microsecond t))
  else Raise OverflowError.

(** One value of the dictionary [get_monthly_trend] returns. *)
Record TrendEntry : Type := mk_TrendEntry {
  te_income : Q;
  te_expenses : Q
}.

(** [f"{int(month):02d}"] *)
Definition pad2 (n : Z) : string :=
  let s := pretty n in
  if (String.length s <? 2)%nat then ("0" +:+ s)%string else s.

(** [f"{int(year)}-{int(month):02d}"] *)
Definition trend_key (year month : Z) : string :=
  pretty year +:+ "-" +:+ pad2 month.

Definition in_window (user_id : Z) (start_date : datetime) (t : Transaction)
  : Prop :=
  tx_user_id t = user_id /\ dt_leb start_date (tx_date t) = true.

Global Instance in_window_dec user_id start_date t :
  Decision (in_window user_id start_date t).
Proof. unfold in_window. apply _. Defined.

Definition ymt (t : Transaction) : Z * Z * TransactionType :=
  (dt_year (tx_date t), dt_month (tx_date t), tx_transaction_type t).

(** The rows of the grouped query of [get_monthly_trend]: year, month,
    transaction type and [func.sum(amount)] of each group. *)
Definition monthly_data (txs : list Transaction) (user_id : Z)
  (start_date : datetime) : list (Z * Z * TransactionType * Q) :=
  map (fun g : Z * Z * TransactionType * list Transaction =>
         (g.1, Qsum (map tx_amount g.2)))
      (group_by ymt (filter (in_window user_id start_date) txs)).

(** The body of the loop over [monthly_data]. *)
Definition trend_step (trend_data : gmap string TrendEntry)
  (row : Z * Z * TransactionType * Q) : gmap string TrendEntry :=
  let '(year, month, transaction_type, total) := row in
  let key := trend_key year month in
  let trend_data :=
    match trend_data !! key with
    | None => <[key := mk_TrendEntry 0 0]> trend_data
    | Some _ => trend_data
    end in
  match transaction_type with
  | INCOME =>
      alter (fun e => mk_TrendEntry total (te_expenses e)) key trend_data
  | EXPENSE =>
      alter (fun e => mk_TrendEntry (te_income e) (Qabs total)) key trend_data
  end.

(** What the two branches of the loop body write into an entry. *)
Definition store (ty : TransactionType) (total : Q) (e : TrendEntry)
  : TrendEntry :=
  match ty with
  | INCOME => mk_TrendEntry total (te_expenses e)
  | EXPENSE => mk_TrendEntry (te_income e) (Qabs total)
  end.

(** [get_monthly_trend], with [now] for [datetime.now()]; [months] has
    passed the [Query(6, ge=1, le=24)] validation. *)
Definition get_monthly_trend (txs : list Transaction) (user_id : Z)
  (now : datetime) (months : Z) : result (gmap string TrendEntry) :=
  let end_date := now in
  result_bind (minus_days end_date (months * 30)) (fun start_date =>
  Ok (foldl trend_step ∅ (monthly_data txs user_id start_date))).

End Analytics.

(** ** routers/notifications.py *)

Module Notifications.
Import Models.
Local Open Scope Z_scope.

(** [create_notification]: the row is built from the fields of the
    request body alone, the flags at their column defaults.  [current_user] is resolved by the
    dependency and then not used. *)
Definition create_notification (db : DB) (current_user : User)
  (notification : NotificationCreate) : response Notification * DB :=
  let db_notification :=
    mk_Notification (fresh_id (map n_id (notifications db)))
      (nc_user_id notification) (nc_title notification)
      (nc_message notification) (nc_notification_type notification)
      false false false in
  if foreign_keys db
     && negb (bool_decide (nc_user_id notification ∈ map u_id (users db)))
  then (IntegrityError, db)
  else
    (Success db_notification,
     mk_DB (users db) (transactions db) (budgets db)
       (notifications db ++ [db_notification]) (foreign_keys db)).

End Notifications.

(** ** Concrete inputs of the examples *)

Module Scenarios.
Import Calendar Models FixedPayments.
Local Open Scope Z_scope.

Definition april_30_noon : datetime := mk_datetime 2024 4 30 12 0 0 0.
Definition last_day_9999 : datetime := mk_datetime 9999 12 31 0 0 0 0.
Definition december_20 : datetime := mk_datetime 2024 12 20 9 15 0 0.
Definition rent : FixedPayment := mk_FixedPayment 1 1 15 true.

(** The transactions of the scenario of the specification (user 1, May
    2024), and a set in which one expense is stored with a positive
    amount. *)
Definition may_2024 : list Transaction :=
  [ mk_Transaction 1 1 (-50) "lunch" "food" EXPENSE
      (mk_datetime 2024 5 2 13 0 0 0);
    mk_Transaction 2 1 (-30) "dinner" "food" EXPENSE
      (mk_datetime 2024 5 10 21 0 0 0);
    mk_Transaction 3 1 1000 "pay" "salary" INCOME
      (mk_datetime 2024 5 1 8 0 0 0) ].

Definition alice : User := mk_User 1 "alice@example.com".
Definition bob : User := mk_User 2 "bob@example.com".

Definition food_budget : Budget := mk_Budget 7 1 "food" 100 5 2024.

Definition small_db : DB :=
  mk_DB [alice; bob] may_2024 [food_budget] [] true.

Definition may_15_noon : datetime := mk_datetime 2024 5 15 12 0 0 0.

(** One income dated after [may_15_noon], and two incomes of April on
    either side of 15 April 12:00. *)
Definition future_income : list Transaction :=
  [ mk_Transaction 4 1 7 "gift" "gifts" INCOME
      (mk_datetime 2024 8 1 0 0 0 0) ].

Definition april_incomes : list Transaction :=
  [ mk_Transaction 5 1 100 "pay" "salary" INCOME
      (mk_datetime 2024 4 10 8 0 0 0);
    mk_Transaction 6 1 50 "bonus" "salary" INCOME
      (mk_datetime 2024 4 20 8 0 0 0) ].

Definition mixed_signs : list Transaction :=
  [ mk_Transaction 1 1 (-50) "lunch" "food" EXPENSE
      (mk_datetime 2024 5 2 13 0 0 0);
    mk_Transaction 2 1 20 "bus" "transport" EXPENSE
      (mk_datetime 2024 5 3 9 0 0 0) ].

End Scenarios.

(** ** routers/fixed_payments.py: the handlers *)

Module FixedPaymentHandlers.
Import Calendar Models FixedPayments.
Local Open Scope Z_scope.

(** [FixedPaymentBase.validate_due_day] (schemas.py): the validator of
    the creation schema.  [FixedPaymentUpdate] derives from [BaseModel]
    and has no validator. *)
Definition validate_due_day (v : Z) : result Z :=
  if (1 <=? v) && (v <=? 31) then Ok v else Raise ValueError.

(** A row of [fixed_payments] with all its columns; [is_active] and
    [auto_register] are nullable. *)
Record FixedPaymentRow : Type := mk_FixedPaymentRow {
  fpr_id : Z;
  fpr_user_id : Z;
  fpr_name : string;
  fpr_amount : Q;
  fpr_due_day : Z;
  fpr_is_active : option bool;
  fpr_auto_register : option bool
}.


Record FixedPaymentCreate : Type := mk_FixedPaymentCreate {
  fc_name : string;
  fc_amount : Q;
  fc_due_day : Z;
  fc_is_active : bool;
  fc_auto_register : bool
}.

(** [FixedPaymentUpdate]: five optional fields.  A field is [None] when
    the body does not set it, [Some None] when the body sets it to null. *)
Record FixedPaymentUpdate : Type := mk_FixedPaymentUpdate {
  fu_name : option (option string);
  fu_amount : option (option Q);
  fu_due_day : option (option Z);
  fu_is_active : option (option bool);
  fu_auto_register : option (option bool)
}.

(** [create_fixed_payment], on the table of fixed payments; the body has
    passed the validation of [FixedPaymentCreate]. *)
Definition create_fixed_payment (table : list FixedPaymentRow)
  (current_user : User) (payment : FixedPaymentCreate)
  : response FixedPaymentRow * list FixedPaymentRow :=
  let db_payment :=
    mk_FixedPaymentRow (fresh_id (map fpr_id table)) (u_id current_user)
      (fc_name payment) (fc_amount payment) (fc_due_day payment)
      (Some (fc_is_active payment)) (Some (fc_auto_register payment)) in
  (Success db_payment, table ++ [db_payment]).

(** [setattr] of one field of the update on a NOT NULL column: a null is
    refused when the row is written. *)
Definition set_required {A} (field : option (option A)) (old : A)
  : option A :=
  match field with
  | None => Some old
  | Some None => None
  | Some (Some v) => Some v
  end.

(** [setattr] of one field of the update on a nullable column. *)
Definition set_nullable {A} (field : option (option A)) (old : option A)
  : option A :=
  match field with
  | None => old
  | Some v => v
  end.

(** The loop [for field, value in
    payment_update.dict(exclude_unset=True).items(): setattr(...)]: the
    row [db.commit()] writes, or [None] when a NOT NULL column was given
    null. *)
Definition apply_update (p : FixedPaymentRow) (u : FixedPaymentUpdate)
  : option FixedPaymentRow :=
  match set_required (fu_name u) (fpr_name p),
        set_required (fu_amount u) (fpr_amount p),
        set_required (fu_due_day u) (fpr_due_day p) with
  | Some name, Some amount, Some due_day =>
      Some (mk_FixedPaymentRow (fpr_id p) (fpr_user_id p) name amount due_day
              (set_nullable (fu_is_active u) (fpr_is_active p))
              (set_nullable (fu_auto_register u) (fpr_auto_register p)))
  | _, _, _ => None
  end.

Definition owned_by (current_user : User) (payment_id : Z)
  (p : FixedPaymentRow) : Prop :=
  fpr_id p = payment_id /\ fpr_user_id p = u_id current_user.

Global Instance owned_by_dec current_user payment_id p :
  Decision (owned_by current_user payment_id p).
Proof. unfold owned_by. apply _. Defined.

(** [update_fixed_payment] *)
Definition update_fixed_payment (table : list FixedPaymentRow)
  (current_user : User) (payment_id : Z) (payment_update : FixedPaymentUpdate)
  : response FixedPaymentRow * list FixedPaymentRow :=
  match head (filter (owned_by current_user payment_id) table) with
  | None => (HTTPException 404 "Pago fijo no encontrado", table)
  | Some payment =>
      match apply_update payment payment_update with
      | None => (IntegrityError, table)
      | Some payment' =>
          (Success payment',
           map (fun p => if decide (fpr_id p = payment_id) then payment'
                         else p) table)
      end
  end.

(** [delete_fixed_payment] *)
Definition delete_fixed_payment (table : list FixedPaymentRow)
  (current_user : User) (payment_id : Z)
  : response string * list FixedPaymentRow :=
  match head (filter (owned_by current_user payment_id) table) with
  | None => (HTTPException 404 "Pago fijo no encontrado", table)
  | Some payment =>
      (Success "Pago fijo eliminado exitosamente"%string,
       filter (fun p => fpr_id p <> fpr_id payment) table)
  end.



Definition active_of (current_user : User) (p : FixedPaymentRow) : Prop :=
  fpr_user_id p = u_id current_user /\ fpr_is_active p = Some true.

Global Instance active_of_dec current_user p :
  Decision (active_of current_user p).
Proof. unfold active_of. apply _. Defined.

(** The loop of [get_upcoming_payments]. *)
Fixpoint upcoming_loop (now : datetime) (days : Z)
  (payments : list FixedPaymentRow)
  : result (list (FixedPaymentRow * datetime * Z)) :=
  match payments with
  | [] => Ok []
  | payment :: rest =>
      result_bind (calculate_next_due_date now (fpr_due_day payment))
        (fun next_due =>
      let days_until_due := date_diff_days next_due now in
      result_bind (upcoming_loop now days rest) (fun upcoming =>
      if (0 <=? days_until_due) && (days_until_due <=? days)
      then Ok ((payment, next_due, days_until_due) :: upcoming)
      else Ok upcoming))
  end.

(** [get_upcoming_payments] *)
Definition get_upcoming_payments (table : list FixedPaymentRow)
  (now : datetime) (current_user : User) (days : Z)
  : result (list (FixedPaymentRow * datetime * Z)) :=
  upcoming_loop now days (filter (active_of current_user) table).



(** The due days the creation schema lets through. *)
Definition due_days_validated (payments : list FixedPaymentRow) : Prop :=
  Forall (fun p => 1 <= fpr_due_day p <= 31) payments.

(** The days from [now] to the next due date of the clamp-then-compare
    algorithm. *)
Definition days_to_next_due (now : datetime) (p : FixedPaymentRow) : Z :=
  date_diff_days (next_due_spec now (fpr_due_day p)) now.

(** The entry of a payment in the list of upcoming payments. *)
Definition upcoming_entry (now : datetime) (p : FixedPaymentRow)
  : FixedPaymentRow * datetime * Z :=
  (p, next_due_spec now (fpr_due_day p), days_to_next_due now p).

(** The value of a column after an update: the value the body sets, or
    the old one. *)
Definition pick {A} (field : option (option A)) (old : A) : A :=
  match field with
  | Some (Some v) => v
  | _ => old
  end.

End FixedPaymentHandlers.

(** ** routers/budgets.py: listing and deleting *)

Module BudgetHandlers.
Import Calendar Models Sql Budgets.
Local Open Scope Z_scope.

(** [BudgetBase.validate_month] (schemas.py) *)
Definition validate_month (v : Z) : result Z :=
  if (1 <=? v) && (v <=? 12) then Ok v else Raise ValueError.

(** Python's [not x] and [x or d] on an optional integer parameter. *)
Definition falsy (x : option Z) : bool :=
  match x with
  | None => true
  | Some v => v =? 0
  end.

Definition or_else (x : option Z) (d : Z) : Z :=
  match x with
  | None => d
  | Some v => if v =? 0 then d else v
  end.

(** The block [if not month or not year: ...] that opens [get_budgets]
    and [get_dashboard_data]. *)
Definition resolve_period (month year : option Z) (now : datetime) : Z * Z :=
  if falsy month || falsy year
  then (or_else month (dt_month now), or_else year (dt_year now))
  else (default 0 month, default 0 year).

Definition budget_in_period (user_id month year : Z) (b : Budget) : Prop :=
  b_user_id b = user_id /\ b_month b = month /\ b_year b = year.

Global Instance budget_in_period_dec user_id month year b :
  Decision (budget_in_period user_id month year b).
Proof. unfold budget_in_period. apply _. Defined.

(** The loop shared by [get_budgets] and the "Estado de presupuestos"
    block of [get_dashboard_data]: each budget of the caller in the
    period with its spent amount, percentage and status. *)
Definition budgets_with_spent (db : DB) (user_id month year : Z)
  : list (Budget * (Q * Q * string)) :=
  map (fun budget =>
         (budget,
          budget_with_spent (transactions db) user_id month year budget))
      (filter (budget_in_period user_id month year) (budgets db)).

(** [get_budgets] *)
Definition get_budgets (db : DB) (now : datetime) (month year : option Z)
  (current_user : User) : list (Budget * (Q * Q * string)) :=
  let '(month, year) := resolve_period month year now in
  budgets_with_spent db (u_id current_user) month year.

(** [delete_budget] *)
Definition delete_budget (db : DB) (current_user : User) (budget_id : Z)
  : response string * DB :=
  let budget :=
    head (filter (fun b => b_id b = budget_id
                           /\ b_user_id b = u_id current_user)
            (budgets db)) in
  match budget with
  | None => (HTTPException 404 "Presupuesto no encontrado", db)
  | Some budget =>
      (Success "Presupuesto eliminado exitosamente"%string,
       mk_DB (users db) (transactions db)
         (filter (fun b => b_id b <> b_id budget) (budgets db))
         (notifications db) (foreign_keys db))
  end.

(** What the table of budgets is to keep: distinct primary keys and at
    most one budget per (user, category, month, year). *)
Definition budgets_wf (db : DB) : Prop :=
  NoDup (map b_id (budgets db)) /\ NoDup (map budget_slot (budgets db)).

(** The expenses [budget_with_spent] sums for a budget. *)
Definition spent_rows (txs : list Transaction) (user_id month year : Z)
  (category : string) : list Transaction :=
  filter (fun t => tx_user_id t = user_id
                   /\ tx_category t = category
                   /\ tx_transaction_type t = EXPENSE
                   /\ dt_month (tx_date t) = month
                   /\ dt_year (tx_date t) = year) txs.

End BudgetHandlers.

(** ** routers/notifications.py: reading, deleting, settings *)

Module NotificationHandlers.
Import Models Notifications.
Local Open Scope Z_scope.

Definition with_notifications (db : DB) (rows : list Notification) : DB :=
  mk_DB (users db) (transactions db) (budgets db) rows (foreign_keys db).

Definition mark_read (n : Notification) : Notification :=
  mk_Notification (n_id n) (n_user_id n) (n_title n) (n_message n)
    (n_notification_type n) true (n_sent_via_email n) (n_sent_via_sms n).

Definition notification_of (current_user : User) (notification_id : Z)
  (n : Notification) : Prop :=
  n_id n = notification_id /\ n_user_id n = u_id current_user.

Global Instance notification_of_dec current_user notification_id n :
  Decision (notification_of current_user notification_id n).
Proof. unfold notification_of. apply _. Defined.

(** [mark_notification_as_read] *)
Definition mark_notification_as_read (db : DB) (current_user : User)
  (notification_id : Z) : response string * DB :=
  match head (filter (notification_of current_user notification_id)
                (notifications db)) with
  | None => (HTTPException 404 "Notificación no encontrada", db)
  | Some notification =>
      (Success "Notificación marcada como leída"%string,
       with_notifications db
         (map (fun n => if decide (n_id n = n_id notification)
                        then mark_read notification else n)
            (notifications db)))
  end.

(** [mark_all_notifications_as_read]: one UPDATE over the unread
    notifications of the caller. *)
Definition mark_all_notifications_as_read (db : DB) (current_user : User)
  : response string * DB :=
  (Success "Todas las notificaciones marcadas como leídas"%string,
   with_notifications db
     (map (fun n => if decide (n_user_id n = u_id current_user
                               /\ n_is_read n = false)
                    then mark_read n else n)
        (notifications db))).

(** [delete_notification] *)
Definition delete_notification (db : DB) (current_user : User)
  (notification_id : Z) : response string * DB :=
  match head (filter (notification_of current_user notification_id)
                (notifications db)) with
  | None => (HTTPException 404 "Notificación no encontrada", db)
  | Some notification =>
      (Success "Notificación eliminada"%string,
       with_notifications db
         (filter (fun n => n_id n <> n_id notification) (notifications db)))
  end.

(** [clear_all_notifications]: one DELETE over the notifications of the
    caller. *)
Definition clear_all_notifications (db : DB) (current_user : User)
  : response string * DB :=
  (Success "Todas las notificaciones eliminadas"%string,
   with_notifications db
     (filter (fun n => n_user_id n <> u_id current_user) (notifications db))).

(** The notifications of everybody but [current_user]. *)
Definition of_others (current_user : User) (rows : list Notification)
  : list Notification :=
  filter (fun n => n_user_id n <> u_id current_user) rows.

(** The six preference flags of [NotificationSettingsBase]. *)
Record NotificationFlags : Type := mk_NotificationFlags {
  email_notifications : bool;
  sms_notifications : bool;
  budget_alerts : bool;
  payment_reminders : bool;
  weekly_reports : bool;
  monthly_reports : bool
}.

(** The column defaults of [NotificationSettings] (models.py). *)
Definition default_flags : NotificationFlags :=
  mk_NotificationFlags true true true true false true.

Record NotificationSettings : Type := mk_NotificationSettings {
  ns_id : Z;
  ns_user_id : Z;
  ns_flags : NotificationFlags
}.

(** [get_notification_settings], on the table of settings. *)
Definition get_notification_settings (table : list NotificationSettings)
  (current_user : User) : NotificationSettings * list NotificationSettings :=
  match head (filter (fun s => ns_user_id s = u_id current_user) table) with
  | Some settings => (settings, table)
  | None =>
      let settings :=
        mk_NotificationSettings (fresh_id (map ns_id table))
          (u_id current_user) default_flags in
      (settings, table ++ [settings])
  end.

(** [update_notification_settings]; [settings_update.dict()] holds all
    six flags, those the body left out at their schema defaults. *)
Definition update_notification_settings (table : list NotificationSettings)
  (current_user : User) (settings_update : NotificationFlags)
  : NotificationSettings * list NotificationSettings :=
  match head (filter (fun s => ns_user_id s = u_id current_user) table) with
  | None =>
      let settings :=
        mk_NotificationSettings (fresh_id (map ns_id table))
          (u_id current_user) settings_update in
      (settings, table ++ [settings])
  | Some settings =>
      let settings' :=
        mk_NotificationSettings (ns_id settings) (ns_user_id settings)
          settings_update in
      (settings',
       map (fun s => if decide (ns_id s = ns_id settings) then settings'
                     else s) table)
  end.

End NotificationHandlers.

(** ** routers/analytics.py: the category trend and the dashboard *)

Module Dashboard.
Import Calendar Models Sql Budgets Analytics FixedPayments
  FixedPaymentHandlers BudgetHandlers.
Local Open Scope Z_scope.

Definition in_category_window (user_id : Z) (category : string)
  (start_date : datetime) (t : Transaction) : Prop :=
  tx_user_id t = user_id /\ tx_category t = category
  /\ tx_transaction_type t = EXPENSE
  /\ dt_leb start_date (tx_date t) = true.

Global Instance in_category_window_dec user_id category start_date t :
  Decision (in_category_window user_id category start_date t).
Proof. unfold in_category_window. apply _. Defined.

Definition ym (t : Transaction) : Z * Z :=
  (dt_year (tx_date t), dt_month (tx_date t)).

(** The rows of the grouped query of [get_category_trend]: year, month
    and [func.sum(amount)] of each group. *)
Definition category_monthly_data (txs : list Transaction) (user_id : Z)
  (category : string) (start_date : datetime) : list (Z * Z * Q) :=
  map (fun g : Z * Z * list Transaction => (g.1, Qsum (map tx_amount g.2)))
      (group_by ym
         (filter (in_category_window user_id category start_date) txs)).

(** The body of the loop of [get_category_trend]. *)
Definition category_trend_step (trend_data : gmap string Q)
  (row : Z * Z * Q) : gmap string Q :=
  let '(year, month, total) := row in
  <[trend_key year month := Qabs total]> trend_data.

(** [get_category_trend]; [months] has passed the
    [Query(6, ge=1, le=12)] validation. *)
Definition get_category_trend (txs : list Transaction) (user_id : Z)
  (category : string) (now : datetime) (months : Z)
  : result (gmap string Q) :=
  let end_date := now in
  result_bind (minus_days end_date (months * 30)) (fun start_date =>
  Ok (foldl category_trend_step ∅
        (category_monthly_data txs user_id category start_date))).

(** [ORDER BY date DESC]: a later date first. *)
Definition later_first (a b : Transaction) : Prop :=
  dt_leb (tx_date b) (tx_date a) = true.

Global Instance later_first_dec a b : Decision (later_first a b).
Proof. unfold later_first. apply _. Defined.

(** The "Transacciones recientes" query of [get_dashboard_data]:
    [order_by(Transaction.date.desc()).limit(5)].  Rows of equal date
    come in the order the sort leaves them. *)
Definition recent_transactions (txs : list Transaction) (user_id : Z)
  : list Transaction :=
  take 5 (merge_sort later_first
            (filter (fun t => tx_user_id t = user_id) txs)).



End Dashboard.

(** ** More concrete inputs *)

Module MoreScenarios.
Import Calendar Models FixedPayments FixedPaymentHandlers NotificationHandlers
  Scenarios.
Local Open Scope Z_scope.

Definition may_31_noon : datetime := mk_datetime 2024 5 31 12 0 0 0.

Definition rent_row : FixedPaymentRow :=
  mk_FixedPaymentRow 1 1 "rent" 500 15 (Some true) (Some false).
Definition gym_row : FixedPaymentRow :=
  mk_FixedPaymentRow 2 1 "gym" 30 17 (Some true) (Some false).
Definition paused_row : FixedPaymentRow :=
  mk_FixedPaymentRow 3 1 "club" 10 16 (Some false) (Some false).
Definition bobs_row : FixedPaymentRow :=
  mk_FixedPaymentRow 4 2 "phone" 20 16 (Some true) (Some false).

Definition payments_table : list FixedPaymentRow :=
  [rent_row; gym_row; paused_row; bobs_row].

Definition reminder_for_bob : NotificationCreate :=
  mk_NotificationCreate "Alert" "Pay now" PAYMENT_REMINDER (u_id bob).

Definition settings_table : list NotificationSettings :=
  [mk_NotificationSettings 1 2 default_flags].

End MoreScenarios.

(** * Properties *)

(** ** Calendar facts *)

Module CalendarFacts.
Import Calendar.
Local Open Scope Z_scope.

Lemma valid_date_spec y m d :
  valid_date y m d = true <->
  1 <= y <= 9999 /\ 1 <= m <= 12 /\ 1 <= d <= days_in_month y m.
Proof.
  unfold valid_date, MINYEAR, MAXYEAR.
  rewrite !andb_true_iff, !Z.leb_le. lia.
Qed.

Lemma valid_datetime_spec t :
  valid_datetime t = true <->
  valid_date (dt_year t) (dt_month t) (dt_day t) = true
  /\ 0 <= dt_hour t < 24 /\ 0 <= dt_minute t < 60
  /\ 0 <= dt_second t < 60 /\ 0 <= dt_microsecond t < 1000000.
Proof.
  unfold valid_datetime.
  rewrite !andb_true_iff, !Z.leb_le, !Z.ltb_lt. tauto.
Qed.

Lemma days_in_month_bounds y m :
  1 <= m <= 12 -> 28 <= days_in_month y m <= 31.
Proof.
  intros Hm. unfold days_in_month.
  assert (m = 1 \/ m = 2 \/ m = 3 \/ m = 4 \/ m = 5 \/ m = 6 \/ m = 7
          \/ m = 8 \/ m = 9 \/ m = 10 \/ m = 11 \/ m = 12) as Hcases by lia.
  destruct (isleap y);
    repeat (destruct Hcases as [-> | Hcases]; [simpl; lia |]);
    subst; simpl; lia.
Qed.

Lemma monthrange_ndays_ok y m :
  1 <= m <= 12 -> monthrange_ndays y m = Ok (days_in_month y m).
Proof.
  intros Hm. unfold monthrange_ndays.
  replace (1 <=? m) with true by (symmetry; apply Z.leb_le; lia).
  replace (m <=? 12) with true by (symmetry; apply Z.leb_le; lia).
  reflexivity.
Qed.

Lemma datetime_new_ok y m d :
  valid_date y m d = true -> datetime_new y m d = Ok (mk_datetime y m d 0 0 0 0).
Proof. intros H. unfold datetime_new. now rewrite H. Qed.

Lemma datetime_new_raise y m d :
  valid_date y m d = false -> datetime_new y m d = Raise ValueError.
Proof. intros H. unfold datetime_new. now rewrite H. Qed.

(** The order on datetimes *)

Lemma lex_compare_antisym a b :
  lex_compare b a = CompOpp (lex_compare a b).
Proof.
  revert b. induction a as [|x a IH]; intros [|y b]; simpl; try reflexivity.
  rewrite (Z.compare_antisym x y).
  destruct (x ?= y); simpl; auto.
Qed.

Lemma dt_compare_antisym a b : dt_compare b a = CompOpp (dt_compare a b).
Proof. apply lex_compare_antisym. Qed.

Lemma dt_ltb_of_not_leb a b : dt_leb a b = false -> dt_ltb b a = true.
Proof.
  unfold dt_leb, dt_ltb. rewrite (dt_compare_antisym a b).
  destruct (dt_compare a b); simpl; congruence.
Qed.

Lemma dt_leb_of_not_ltb a b : dt_ltb b a = false -> dt_leb a b = true.
Proof.
  unfold dt_leb, dt_ltb. rewrite (dt_compare_antisym a b).
  destruct (dt_compare a b); simpl; congruence.
Qed.

Lemma dt_ltb_not_leb a b : dt_ltb b a = true -> dt_leb a b = false.
Proof.
  unfold dt_leb, dt_ltb. rewrite (dt_compare_antisym a b).
  destruct (dt_compare a b); simpl; congruence.
Qed.

(** A midnight of the month of [t] is at or before [t] exactly when its
    day is at or before the day of [t]. *)
Lemma midnight_leb_same_month t d :
  valid_datetime t = true ->
  dt_leb (mk_datetime (dt_year t) (dt_month t) d 0 0 0 0) t = (d <=? dt_day t).
Proof.
  intros Ht. apply valid_datetime_spec in Ht as (_ & Hh & Hmi & Hs & Hus).
  unfold dt_leb, dt_compare, dt_fields. simpl.
  rewrite !Z.compare_refl.
  destruct (Z.compare_spec d (dt_day t)) as [-> | Hlt | Hgt].
  - rewrite Z.leb_refl.
    destruct (dt_hour t); [| reflexivity | lia].
    destruct (dt_minute t); [| reflexivity | lia].
    destruct (dt_second t); [| reflexivity | lia].
    destruct (dt_microsecond t); [| | lia]; reflexivity.
  - symmetry. apply Z.leb_le. lia.
  - symmetry. apply Z.leb_gt. lia.
Qed.

(** A later (year, month) makes a later datetime. *)
Lemma dt_ltb_later_year a b : dt_year a < dt_year b -> dt_ltb a b = true.
Proof.
  intros H. unfold dt_ltb, dt_compare, dt_fields. simpl.
  now rewrite (proj2 (Z.compare_lt_iff _ _) H).
Qed.

Lemma dt_ltb_later_month a b :
  dt_year a = dt_year b -> dt_month a < dt_month b -> dt_ltb a b = true.
Proof.
  intros Hy H. unfold dt_ltb, dt_compare, dt_fields. simpl.
  rewrite Hy, Z.compare_refl.
  now rewrite (proj2 (Z.compare_lt_iff _ _) H).
Qed.

(** Ordinals *)

Lemma days_before_year_succ y :
  days_before_year (y + 1) - days_before_year y
  = 365 + (if isleap y then 1 else 0).
Proof.
  unfold days_before_year, isleap. cbv zeta.
  replace (y + 1 - 1) with y by lia.
  destruct (Z.eqb_spec (y mod 4) 0) as [H4 | H4];
  destruct (Z.eqb_spec (y mod 100) 0) as [H100 | H100];
  destruct (Z.eqb_spec (y mod 400) 0) as [H400 | H400];
  simpl; Z.div_mod_to_equations; lia.
Qed.

Lemma days_before_month_succ y m :
  1 <= m <= 11 ->
  days_before_month y (m + 1) - days_before_month y m = days_in_month y m.
Proof.
  intros Hm. unfold days_before_month, days_in_month.
  assert (m = 1 \/ m = 2 \/ m = 3 \/ m = 4 \/ m = 5 \/ m = 6 \/ m = 7
          \/ m = 8 \/ m = 9 \/ m = 10 \/ m = 11) as Hcases by lia.
  destruct (isleap y);
    repeat (destruct Hcases as [-> | Hcases]; [reflexivity |]);
    subst; reflexivity.
Qed.

Lemma days_before_month_december y :
  days_before_month y 12 = 334 + (if isleap y then 1 else 0).
Proof. unfold days_before_month. simpl. reflexivity. Qed.

End CalendarFacts.

(** ** The due date of a fixed payment *)

Module FixedPaymentsProofs.
Import Calendar CalendarFacts FixedPayments Scenarios.
Local Open Scope Z_scope.

Lemma clamp_bounds y m d :
  1 <= m <= 12 -> 1 <= d <= 31 ->
  1 <= Z.min d (days_in_month y m) <= days_in_month y m.
Proof. intros Hm Hd. pose proof (days_in_month_bounds y m Hm). lia. Qed.

Lemma advance_month_range y m :
  1 <= m <= 12 ->
  1 <= (advance_month y m).2 <= 12
  /\ ((advance_month y m).1 = y + 1 /\ (advance_month y m).2 = 1 /\ m = 12
      \/ (advance_month y m).1 = y /\ (advance_month y m).2 = m + 1 /\ m < 12).
Proof.
  intros Hm. unfold advance_month.
  destruct (Z.eqb_spec m 12); simpl; lia.
Qed.

(** What the function does on every instant a [datetime] can hold: it
    raises exactly when the month after December 9999 is needed, and
    otherwise returns the date of the clamp-then-compare algorithm. *)
Lemma calculate_next_due_date_total now d :
  valid_datetime now = true -> 1 <= d <= 31 ->
  calculate_next_due_date now d
  = if rollover_overflows now d then Raise ValueError
    else Ok (next_due_spec now d).
Proof.
  intros Hnow Hd.
  pose proof Hnow as Hv. apply valid_datetime_spec in Hv as (Hdate & _).
  apply valid_date_spec in Hdate as (Hy & Hm & Hday).
  unfold calculate_next_due_date, rollover_overflows, next_due_spec.
  rewrite (monthrange_ndays_ok _ _ Hm). cbn [result_bind].
  pose proof (clamp_bounds (dt_year now) (dt_month now) d Hm Hd) as Hc.
  rewrite datetime_new_ok by (apply valid_date_spec; lia).
  change (mk_datetime (dt_year now) (dt_month now)
            (Z.min d (days_in_month (dt_year now) (dt_month now))) 0 0 0 0)
    with (first_candidate now d).
  destruct (dt_leb (first_candidate now d) now) eqn:Hle.
  2: { now rewrite andb_false_r. }
  rewrite andb_true_r.
  destruct (advance_month_range (dt_year now) (dt_month now) Hm)
    as (Hm1 & Hadv).
  destruct (advance_month (dt_year now) (dt_month now)) as [y1 m1] eqn:Ha.
  simpl in Hm1, Hadv.
  rewrite (monthrange_ndays_ok _ _ Hm1).
  pose proof (clamp_bounds y1 m1 d Hm1 Hd) as Hc1.
  unfold MAXYEAR.
  destruct (Z.eqb_spec (dt_year now) 9999) as [Hy9 | Hy9];
    destruct (Z.eqb_spec (dt_month now) 12) as [Hm12 | Hm12]; simpl.
  - (* December 9999: both constructions raise *)
    rewrite (datetime_new_raise y1 m1 (Z.min d (days_in_month y1 m1))).
    2: { apply not_true_is_false. rewrite valid_date_spec. lia. }
    apply datetime_new_raise.
    apply not_true_is_false. rewrite valid_date_spec. lia.
  - rewrite datetime_new_ok by (apply valid_date_spec; lia). reflexivity.
  - rewrite datetime_new_ok by (apply valid_date_spec; lia). reflexivity.
  - rewrite datetime_new_ok by (apply valid_date_spec; lia). reflexivity.
Qed.

(** The returned date is after [now]. *)
Lemma next_due_spec_after now d :
  valid_datetime now = true -> 1 <= d <= 31 ->
  dt_ltb now (next_due_spec now d) = true.
Proof.
  intros Hnow Hd.
  pose proof Hnow as Hv. apply valid_datetime_spec in Hv as (Hdate & _).
  apply valid_date_spec in Hdate as (Hy & Hm & Hday).
  unfold next_due_spec.
  destruct (dt_leb (first_candidate now d) now) eqn:Hle.
  - destruct (advance_month_range (dt_year now) (dt_month now) Hm)
      as (_ & Hadv).
    destruct (advance_month (dt_year now) (dt_month now)) as [y1 m1].
    simpl in Hadv. unfold midnight.
    destruct Hadv as [(-> & -> & _) | (-> & -> & _)].
    + apply dt_ltb_later_year. simpl. lia.
    + apply dt_ltb_later_month; simpl; lia.
  - now apply dt_ltb_of_not_leb.
Qed.

(** The calendar days between [now] and the returned date. *)
Lemma next_due_spec_days now d :
  valid_datetime now = true -> 1 <= d <= 31 ->
  1 <= date_diff_days (next_due_spec now d) now.
Proof.
  intros Hnow Hd.
  pose proof Hnow as Hv. apply valid_datetime_spec in Hv as (Hdate & _).
  apply valid_date_spec in Hdate as (Hy & Hm & Hday).
  pose proof (days_in_month_bounds (dt_year now) (dt_month now) Hm) as Hdim.
  unfold next_due_spec, first_candidate, midnight.
  rewrite (midnight_leb_same_month now _ Hnow).
  unfold date_diff_days, toordinal, ymd2ord.
  destruct (Z.leb_spec (Z.min d (days_in_month (dt_year now) (dt_month now)))
              (dt_day now)) as [Hle | Hgt].
  - destruct (advance_month_range (dt_year now) (dt_month now) Hm)
      as (Hm1 & Hadv).
    destruct (advance_month (dt_year now) (dt_month now)) as [y1 m1].
    simpl in Hm1, Hadv. simpl.
    pose proof (clamp_bounds y1 m1 d Hm1 Hd) as Hc1.
    destruct Hadv as [(-> & -> & Hm12) | (-> & -> & Hm12)].
    + pose proof (days_before_year_succ (dt_year now)) as Hyear.
      rewrite Hm12 in *. rewrite days_before_month_december.
      change (days_before_month (dt_year now + 1) 1) with 0.
      destruct (isleap (dt_year now)); lia.
    + pose proof (days_before_month_succ (dt_year now) (dt_month now)) as Hs.
      lia.
  - simpl. lia.
Qed.

Lemma dt_ltb_asym a b : dt_ltb a b = true -> dt_ltb b a = false.
Proof.
  unfold dt_ltb. rewrite (dt_compare_antisym a b).
  destruct (dt_compare a b); simpl; congruence.
Qed.

(** C1, as amended.  For every due_day in 1..31 and every instant [now]
    a datetime can hold, except when the candidate of December 9999 has
    passed (the next month cannot be built and the call raises
    ValueError), [calculate_next_due_date] returns the date of the
    clamp-then-compare algorithm [next_due_spec]: the candidate of now's
    month if it is after [now], otherwise the clamped day of the next
    month.  With due_day = 31 the returned day is 30 whenever the returned
    date lies in a 30-day month, in particular when [now] is before the
    30th of a 30-day month; a December rollover yields month 1 of the next
    year. *)
Theorem calculate_next_due_date_clamp_then_compare now d :
  valid_datetime now = true -> 1 <= d <= 31 ->
  rollover_overflows now d = false ->
  exists r,
    calculate_next_due_date now d = Ok r
    /\ r = next_due_spec now d
    /\ (d = 31 -> days_in_month (dt_year r) (dt_month r) = 30 ->
        dt_day r = 30)
    /\ (d = 31 -> days_in_month (dt_year now) (dt_month now) = 30 ->
        dt_day now < 30 -> r = midnight (dt_year now) (dt_month now) 30)
    /\ (dt_month now = 12 -> dt_leb (first_candidate now d) now = true ->
        dt_year r = dt_year now + 1 /\ dt_month r = 1).
Proof.
  intros Hnow Hd Hno.
  exists (next_due_spec now d).
  split; [| split; [reflexivity |]].
  { rewrite (calculate_next_due_date_total now d Hnow Hd). now rewrite Hno. }
  unfold next_due_spec, first_candidate, midnight.
  rewrite (midnight_leb_same_month now _ Hnow).
  destruct (advance_month (dt_year now) (dt_month now)) as [y1 m1] eqn:Ha.
  split; [| split].
  - intros -> H30. revert H30.
    destruct (_ <=? dt_day now); simpl; lia.
  - intros -> H30 Hday. rewrite H30.
    replace (Z.min 31 30 <=? dt_day now) with false
      by (symmetry; apply Z.leb_gt; lia).
    reflexivity.
  - intros Hm12 Hle. rewrite Hle.
    unfold advance_month in Ha. rewrite Hm12 in Ha. simpl in Ha.
    inversion Ha. split; reflexivity.
Qed.

Lemma calculate_next_due_date_clamp_then_compare_witness :
  exists r,
    calculate_next_due_date december_20 15 = Ok r
    /\ r = next_due_spec december_20 15
    /\ (15 = 31 -> days_in_month (dt_year r) (dt_month r) = 30 ->
        dt_day r = 30)
    /\ (15 = 31 ->
        days_in_month (dt_year december_20) (dt_month december_20) = 30 ->
        dt_day december_20 < 30 ->
        r = midnight (dt_year december_20) (dt_month december_20) 30)
    /\ (dt_month december_20 = 12 ->
        dt_leb (first_candidate december_20 15) december_20 = true ->
        dt_year r = dt_year december_20 + 1 /\ dt_month r = 1).
Proof.
  apply (calculate_next_due_date_clamp_then_compare december_20 15);
    [reflexivity | lia | reflexivity].
Defined.

(** C1 as stated fails.  Evaluated at noon of 30 April (a 30-day month)
    with due_day = 31, the candidate 30 April 00:00 has passed and the
    function returns 31 May: the day is 31, not 30.  Evaluated on
    31 December 9999 with due_day = 15, the rollover needs January 10000
    and the function raises instead of returning month 1 of the next
    year. *)
Lemma calculate_next_due_date_counterexample :
  days_in_month (dt_year april_30_noon) (dt_month april_30_noon) = 30
  /\ calculate_next_due_date april_30_noon 31 = Ok (midnight 2024 5 31)
  /\ dt_day (midnight 2024 5 31) <> 30
  /\ valid_datetime last_day_9999 = true
  /\ calculate_next_due_date last_day_9999 15 = Raise ValueError.
Proof. repeat split; try reflexivity. simpl. lia. Qed.

(** C2.  For every due_day in 1..31 and every instant [now], a date
    returned by [calculate_next_due_date] is never before [now]: it is
    strictly after [now], and it is the first candidate whenever that
    candidate is still in the future.  A date is returned in every case
    but the one where the month after December 9999 would be needed. *)
Theorem next_due_never_before_now now d :
  valid_datetime now = true -> 1 <= d <= 31 ->
  match calculate_next_due_date now d with
  | Ok r =>
      dt_ltb r now = false
      /\ dt_ltb now r = true
      /\ (dt_ltb now (first_candidate now d) = true ->
          r = first_candidate now d)
  | Raise _ => rollover_overflows now d = true
  end.
Proof.
  intros Hnow Hd.
  rewrite (calculate_next_due_date_total now d Hnow Hd).
  destruct (rollover_overflows now d); [reflexivity |].
  pose proof (next_due_spec_after now d Hnow Hd) as Hafter.
  split; [now apply dt_ltb_asym |].
  split; [exact Hafter |].
  intros Hfut. unfold next_due_spec.
  now rewrite (dt_ltb_not_leb _ _ Hfut).
Qed.

Lemma next_due_never_before_now_witness :
  match calculate_next_due_date april_30_noon 31 with
  | Ok r =>
      dt_ltb r april_30_noon = false
      /\ dt_ltb april_30_noon r = true
      /\ (dt_ltb april_30_noon (first_candidate april_30_noon 31) = true ->
          r = first_candidate april_30_noon 31)
  | Raise _ => rollover_overflows april_30_noon 31 = true
  end.
Proof.
  apply (next_due_never_before_now april_30_noon 31); [reflexivity | lia].
Defined.

(** C8.  With one instant [now] used both by [calculate_next_due_date]
    and for the subtraction, and due_day in 1..31, the days_until_due the
    loop of [get_fixed_payments] computes is at least 1, so the status of
    an active payment is neither "due" nor "overdue"; the pipeline yields
    a value in every case but the one where the month after December 9999
    would be needed.  [get_payment_status] returns "due" only for
    days_until_due = 0 and "overdue" only for days_until_due < 0. *)
Theorem days_until_due_positive now payment :
  valid_datetime now = true -> 1 <= fp_due_day payment <= 31 ->
  match payment_with_status now now payment with
  | Ok (next_due, days_until_due, status) =>
      1 <= days_until_due
      /\ days_until_due = date_diff_days next_due now
      /\ status <> "due"%string /\ status <> "overdue"%string
  | Raise _ => rollover_overflows now (fp_due_day payment) = true
  end
  /\ (forall p k, get_payment_status p k = "due"%string ->
                  fp_is_active p = true /\ k = 0)
  /\ (forall p k, get_payment_status p k = "overdue"%string ->
                  fp_is_active p = true /\ k < 0).
Proof.
  intros Hnow Hd.
  assert (forall p k, get_payment_status p k = "due"%string ->
                      fp_is_active p = true /\ k = 0) as Hdue.
  { intros p k. unfold get_payment_status.
    destruct (fp_is_active p); simpl; [| discriminate].
    destruct (Z.ltb_spec k 0); [discriminate |].
    destruct (Z.eqb_spec k 0); [auto |].
    destruct (k <=? 2); discriminate. }
  assert (forall p k, get_payment_status p k = "overdue"%string ->
                      fp_is_active p = true /\ k < 0) as Hover.
  { intros p k. unfold get_payment_status.
    destruct (fp_is_active p); simpl; [| discriminate].
    destruct (Z.ltb_spec k 0); [auto |].
    destruct (Z.eqb_spec k 0); [discriminate |].
    destruct (k <=? 2); discriminate. }
  split; [| split; assumption].
  unfold payment_with_status.
  rewrite (calculate_next_due_date_total now _ Hnow Hd).
  destruct (rollover_overflows now (fp_due_day payment)); [reflexivity |].
  cbn [result_bind].
  pose proof (next_due_spec_days now _ Hnow Hd) as Hdays.
  split; [exact Hdays |]. split; [reflexivity |].
  split; intros Hst.
  - apply Hdue in Hst. lia.
  - apply Hover in Hst. lia.
Qed.

Lemma days_until_due_positive_witness :
  match payment_with_status december_20 december_20 rent with
  | Ok (next_due, days_until_due, status) =>
      1 <= days_until_due
      /\ days_until_due = date_diff_days next_due december_20
      /\ status <> "due"%string /\ status <> "overdue"%string
  | Raise _ => rollover_overflows december_20 (fp_due_day rent) = true
  end
  /\ (forall p k, get_payment_status p k = "due"%string ->
                  fp_is_active p = true /\ k = 0)
  /\ (forall p k, get_payment_status p k = "overdue"%string ->
                  fp_is_active p = true /\ k < 0).
Proof.
  apply (days_until_due_positive december_20 rent);
    [reflexivity | simpl; lia].
Defined.

(** The scenarios of the specification. *)
Example leap_year_clamp :
  payment_with_status (mk_datetime 2024 2 20 10 30 0 0)
    (mk_datetime 2024 2 20 10 30 0 0) (mk_FixedPayment 1 1 31 true)
  = Ok (midnight 2024 2 29, 9, "upcoming"%string).
Proof. reflexivity. Qed.

Example same_day_counts_as_passed :
  calculate_next_due_date (mk_datetime 2024 5 15 0 0 0 0) 15
  = Ok (midnight 2024 6 15).
Proof. reflexivity. Qed.

(** With two clock readings the subtraction can give 0: the claim needs
    the single instant. *)
Example two_clock_readings :
  payment_with_status (mk_datetime 2024 5 14 23 59 59 999999)
    (mk_datetime 2024 5 15 0 0 0 1) rent
  = Ok (midnight 2024 5 15, 0, "due"%string).
Proof. reflexivity. Qed.

End FixedPaymentsProofs.

(** ** Comparisons and sums of amounts *)

Module SqlFacts.
Import Sql.
Local Open Scope Q_scope.

Lemma Qgtb_true x y : Qgtb x y = true <-> y < x.
Proof.
  unfold Qgtb. rewrite negb_true_iff, <- not_true_iff_false, Qle_bool_iff.
  split; [apply Qnot_le_lt | apply Qlt_not_le].
Qed.

Lemma Qgtb_false x y : Qgtb x y = false <-> x <= y.
Proof. unfold Qgtb. rewrite negb_false_iff. apply Qle_bool_iff. Qed.



End SqlFacts.

(** ** The budget status *)

Module BudgetStatusProofs.
Import Models Sql SqlFacts Budgets Scenarios.
Local Open Scope Q_scope.




(** The scenario of the specification: 80 spent of a limit of 100. *)
Example food_budget_warning :
  calculate_budget_status (mk_Budget 1 1 "food" 100 5 2024) 80
  = "warning"%string
  /\ budget_percentage (mk_Budget 1 1 "food" 100 5 2024) 80 == 80.
Proof. split; reflexivity. Qed.

Example may_2024_food_budget :
  budget_with_spent may_2024 1 5 2024 food_budget
  = (80%Q, (8000 # 100)%Q, "warning"%string).
Proof. reflexivity. Qed.

Example just_below_exceeded :
  calculate_budget_status (mk_Budget 1 1 "food" 100000 5 2024) 99999
  = "warning"%string.
Proof. reflexivity. Qed.

Example zero_limit_is_normal :
  calculate_budget_status (mk_Budget 1 1 "food" 0 5 2024) 500
  = "normal"%string.
Proof. reflexivity. Qed.

End BudgetStatusProofs.

(** ** The monthly analysis and the category breakdown *)

Module AggregationProofs.
Import Calendar Models Sql SqlFacts Analytics Scenarios.
Local Open Scope Q_scope.

Lemma Qsum_cons x l : Qsum (x :: l) = x + Qsum l.
Proof. reflexivity. Qed.

Lemma Qsum_nil : Qsum [] = 0.
Proof. reflexivity. Qed.

Lemma Qsum_app l1 l2 : Qsum (l1 ++ l2) == Qsum l1 + Qsum l2.
Proof.
  induction l1 as [|x l1 IH].
  - rewrite app_nil_l, Qsum_nil. lra.
  - rewrite <- app_comm_cons, !Qsum_cons, IH. lra.
Qed.

Lemma scalar_or_0_sum l : scalar_or_0 (sql_sum l) == Qsum l.
Proof.
  destruct l as [|x l]; [reflexivity |].
  unfold sql_sum, scalar_or_0.
  destruct (Qeq_bool (Qsum (x :: l)) 0) eqn:E; [| reflexivity].
  apply Qeq_bool_iff in E. now rewrite E.
Qed.

Lemma Qsum_nonpos l : Forall (fun a => a <= 0) l -> Qsum l <= 0.
Proof.
  induction 1 as [|x l Hx _ IH]; [rewrite Qsum_nil; lra |].
  rewrite Qsum_cons. lra.
Qed.

Lemma Qsum_abs_nonpos l :
  Forall (fun a => a <= 0) l -> Qsum (map Qabs l) == - Qsum l.
Proof.
  induction 1 as [|x l Hx _ IH]; [simpl; rewrite Qsum_nil; lra |].
  simpl. rewrite !Qsum_cons, IH, (Qabs_neg x Hx). lra.
Qed.

(** The amounts of the expenses of a period are non-positive under the
    sign convention. *)
Lemma expense_amounts_nonpos txs user_id month year :
  expenses_nonpositive txs user_id month year ->
  Forall (fun a => a <= 0)
    (map tx_amount
       (filter (of_type_in_period user_id EXPENSE month year) txs)).
Proof.
  intros H. apply Forall_fmap, Forall_forall.
  intros t Ht. apply list_elem_of_filter in Ht as [Hp Hin].
  unfold expenses_nonpositive in H. rewrite Forall_forall in H.
  simpl. now apply H.
Qed.

Lemma expense_total_abs txs user_id month year :
  expense_total txs user_id month year
  == Qabs (Qsum (map tx_amount
       (filter (of_type_in_period user_id EXPENSE month year) txs))).
Proof. unfold expense_total. now rewrite scalar_or_0_sum. Qed.

(** Every transaction of the period is an income or an expense. *)
Lemma period_count_both_types txs user_id month year :
  length (filter (in_period user_id month year) txs)
  = (length (filter (of_type_in_period user_id INCOME month year) txs)
     + length (filter (of_type_in_period user_id EXPENSE month year) txs))%nat.
Proof.
  induction txs as [|t txs IH]; [reflexivity |].
  rewrite !filter_cons.
  destruct (decide (in_period user_id month year t)) as [Hp | Hp];
    destruct (decide (of_type_in_period user_id INCOME month year t))
      as [Hi | Hi];
    destruct (decide (of_type_in_period user_id EXPENSE month year t))
      as [He | He];
    simpl; rewrite ?IH; try lia; exfalso;
    unfold in_period, of_type_in_period in *;
    destruct (tx_transaction_type t); intuition congruence.
Qed.

(** C4.  For every user, period and transaction set whose expenses of
    the period are stored with non-positive amounts, the monthly analysis
    has total_expenses equal to the absolute value of the sum of the
    EXPENSE amounts of the period, which is the sum of their magnitudes
    and is >= 0; total_income equal to the sum of the INCOME amounts;
    balance equal to total_income - total_expenses; and
    transactions_count equal to the number of transactions of the period,
    incomes and expenses together. *)
Theorem monthly_analysis_totals txs user_id month year :
  expenses_nonpositive txs user_id month year ->
  let incomes :=
    map tx_amount
      (filter (of_type_in_period user_id INCOME month year) txs) in
  let expenses :=
    map tx_amount
      (filter (of_type_in_period user_id EXPENSE month year) txs) in
  let analysis := monthly_analysis txs user_id month year in
  total_expenses analysis == Qabs (Qsum expenses)
  /\ total_expenses analysis == Qsum (map Qabs expenses)
  /\ 0 <= total_expenses analysis
  /\ total_income analysis == Qsum incomes
  /\ balance analysis = total_income analysis - total_expenses analysis
  /\ transactions_count analysis
     = Z.of_nat (length (filter (in_period user_id month year) txs))
  /\ transactions_count analysis
     = Z.of_nat (length incomes + length expenses).
Proof.
  intros Hneg incomes expenses analysis.
  pose proof (expense_amounts_nonpos _ _ _ _ Hneg) as Hle.
  fold expenses in Hle.
  assert (total_expenses analysis == Qabs (Qsum expenses)) as Habs
    by apply expense_total_abs.
  split; [exact Habs |].
  split.
  { rewrite Habs, (Qsum_abs_nonpos _ Hle).
    apply Qabs_neg. now apply Qsum_nonpos. }
  split; [rewrite Habs; apply Qabs_nonneg |].
  split; [apply scalar_or_0_sum |].
  split; [reflexivity |].
  split; [reflexivity |].
  unfold analysis, monthly_analysis, transactions_count.
  rewrite period_count_both_types.
  unfold incomes, expenses. now rewrite !length_map.
Qed.

Lemma may_2024_nonpositive : expenses_nonpositive may_2024 1 5 2024.
Proof.
  unfold expenses_nonpositive, may_2024.
  repeat constructor; simpl; intros (_ & Hty & _);
    try discriminate; unfold Qle; simpl; lia.
Qed.

Lemma monthly_analysis_totals_witness :
  let incomes :=
    map tx_amount (filter (of_type_in_period 1 INCOME 5 2024) may_2024) in
  let expenses :=
    map tx_amount (filter (of_type_in_period 1 EXPENSE 5 2024) may_2024) in
  let analysis := monthly_analysis may_2024 1 5 2024 in
  total_expenses analysis == Qabs (Qsum expenses)
  /\ total_expenses analysis == Qsum (map Qabs expenses)
  /\ 0 <= total_expenses analysis
  /\ total_income analysis == Qsum incomes
  /\ balance analysis = total_income analysis - total_expenses analysis
  /\ transactions_count analysis
     = Z.of_nat (length (filter (in_period 1 5 2024) may_2024))
  /\ transactions_count analysis
     = Z.of_nat (length incomes + length expenses).
Proof.
  apply (monthly_analysis_totals may_2024 1 5 2024).
  exact may_2024_nonpositive.
Defined.

(** The scenario of the specification. *)
Example may_2024_analysis :
  monthly_analysis may_2024 1 5 2024 = mk_MonthlyAnalysis 1000 80 920 3.
Proof. reflexivity. Qed.

(** *** Grouping *)

Section Groups.
Context {A K : Type} `{EqDecision K} (key : A -> K) (f : A -> Q).

Lemma group_sum_step k ks rows :
  k ∉ ks ->
  Qsum (map f (filter (fun r => key r = k) rows))
  + Qsum (map f (filter (fun r => key r ∈ ks) rows))
  == Qsum (map f (filter (fun r => key r ∈ k :: ks) rows)).
Proof.
  intros Hk. induction rows as [|r rows IH]; [rewrite !filter_nil; simpl;
    rewrite Qsum_nil; lra |].
  rewrite !filter_cons.
  destruct (decide (key r = k)) as [He | He];
    destruct (decide (key r ∈ ks)) as [Hin | Hin];
    destruct (decide (key r ∈ k :: ks)) as [Hc | Hc];
    simpl; rewrite ?Qsum_cons; try lra; exfalso.
  - apply Hk. now rewrite <- He.
  - apply Hc. rewrite He. apply list_elem_of_here.
  - apply Hc. rewrite He. apply list_elem_of_here.
  - apply Hc. now apply list_elem_of_further.
  - apply elem_of_cons in Hc as [Hc | Hc]; [now apply He | now apply Hin].
Qed.

(** The sums of the groups of distinct keys add up to the sum over the
    rows that have one of these keys. *)
Lemma group_sums ks rows :
  NoDup ks ->
  Qsum (map (fun k => Qsum (map f (filter (fun r => key r = k) rows))) ks)
  == Qsum (map f (filter (fun r => key r ∈ ks) rows)).
Proof.
  induction 1 as [|k ks Hk Hnd IH].
  - simpl. rewrite Qsum_nil.
    assert (filter (fun r => key r ∈ []) rows = []) as ->.
    { induction rows as [|r rows IHr]; [reflexivity |].
      rewrite filter_cons_False; [exact IHr | apply not_elem_of_nil]. }
    reflexivity.
  - simpl. rewrite Qsum_cons, IH. now apply group_sum_step.
Qed.

Lemma filter_all (P : A -> Prop) `{forall x, Decision (P x)} rows :
  Forall P rows -> filter P rows = rows.
Proof.
  induction 1 as [|r rows Hr _ IH]; [reflexivity |].
  now rewrite filter_cons_True, IH.
Qed.

(** Grouping loses and repeats no row. *)
Lemma group_by_sums rows :
  Qsum (map (fun g : K * list A => Qsum (map f g.2)) (group_by key rows))
  == Qsum (map f rows).
Proof.
  unfold group_by. rewrite List.map_map. simpl.
  rewrite (group_sums _ rows (NoDup_remove_dups _)).
  rewrite filter_all; [reflexivity |].
  apply Forall_forall. intros r Hr.
  apply elem_of_remove_dups, list_elem_of_In, in_map, list_elem_of_In, Hr.
Qed.

End Groups.

(** *** The category breakdown *)

Lemma Qsum_shares l c :
  Qsum (map (fun x => x / c * 100) l) == Qsum l / c * 100.
Proof.
  induction l as [|x l IH]; simpl.
  - rewrite Qsum_nil. unfold Qdiv. ring.
  - rewrite !Qsum_cons, IH. unfold Qdiv. ring.
Qed.

(** The breakdown, one entry per distinct category of the expenses. *)
Lemma category_breakdown_rows txs user_id month year :
  let expenses :=
    filter (of_type_in_period user_id EXPENSE month year) txs in
  let total := expense_total txs user_id month year in
  category_breakdown txs user_id month year
  = map (fun k =>
           let group := filter (fun t => tx_category t = k) expenses in
           mk_CategoryAnalysis k (Qabs (Qsum (map tx_amount group)))
             (if Qgtb total 0
              then Qabs (Qsum (map tx_amount group)) / total * 100 else 0)
             (Z.of_nat (length group)))
        (remove_dups (map tx_category expenses)).
Proof.
  unfold category_breakdown, category_data, group_by.
  rewrite !List.map_map. reflexivity.
Qed.

Lemma group_amounts_nonpos txs user_id month year :
  expenses_nonpositive txs user_id month year ->
  Forall (fun s => s <= 0)
    (map (fun g : string * list Transaction => Qsum (map tx_amount g.2))
       (group_by tx_category
          (filter (of_type_in_period user_id EXPENSE month year) txs))).
Proof.
  intros Hneg. unfold group_by. rewrite List.map_map. simpl.
  apply Forall_forall. intros s Hs.
  apply list_elem_of_In, in_map_iff in Hs as (k & <- & _).
  apply Qsum_nonpos, Forall_forall. intros a Ha.
  apply list_elem_of_In, in_map_iff in Ha as (t & <- & Ht).
  apply list_elem_of_In, list_elem_of_filter in Ht as (_ & Ht).
  apply list_elem_of_filter in Ht as (Hp & Ht).
  unfold expenses_nonpositive in Hneg. rewrite Forall_forall in Hneg.
  now apply Hneg.
Qed.

(** C5, as amended.  For every user and period whose expenses are stored
    with non-positive amounts, the category breakdown has one entry per
    category of the EXPENSE transactions of the period, with amount the
    absolute value of the sum of the group, the count of the group, and
    percentage amount / total_expenses * 100, or 0 when total_expenses is
    0; the percentages sum to 100 when total_expenses > 0, and all are 0
    when total_expenses = 0. *)
Theorem category_breakdown_shares txs user_id month year :
  expenses_nonpositive txs user_id month year ->
  let expenses :=
    filter (of_type_in_period user_id EXPENSE month year) txs in
  let total := expense_total txs user_id month year in
  let breakdown := category_breakdown txs user_id month year in
  NoDup (map ca_category breakdown)
  /\ (forall c, c ∈ map ca_category breakdown
                <-> exists t, t ∈ expenses /\ tx_category t = c)
  /\ Forall (fun e =>
       let group :=
         filter (fun t => tx_category t = ca_category e) expenses in
       ca_amount e = Qabs (Qsum (map tx_amount group))
       /\ ca_transaction_count e = Z.of_nat (length group)
       /\ (0 < total -> ca_percentage e = ca_amount e / total * 100)
       /\ (total == 0 -> ca_percentage e = 0)) breakdown
  /\ (0 < total -> Qsum (map ca_percentage breakdown) == 100)
  /\ (total == 0 -> Forall (fun e => ca_percentage e = 0) breakdown).
Proof.
  intros Hneg expenses total breakdown.
  assert (map ca_category breakdown = remove_dups (map tx_category expenses))
    as Hcats.
  { unfold breakdown. rewrite category_breakdown_rows, List.map_map.
    simpl. apply List.map_id. }
  assert (Forall (fun e =>
       let group :=
         filter (fun t => tx_category t = ca_category e) expenses in
       ca_amount e = Qabs (Qsum (map tx_amount group))
       /\ ca_transaction_count e = Z.of_nat (length group)
       /\ (0 < total -> ca_percentage e = ca_amount e / total * 100)
       /\ (total == 0 -> ca_percentage e = 0)) breakdown) as Hrows.
  { unfold breakdown. rewrite category_breakdown_rows.
    apply Forall_forall. intros e He.
    apply list_elem_of_In, in_map_iff in He as (k & <- & _).
    fold expenses total. simpl.
    split; [reflexivity |]. split; [reflexivity |]. split.
    - intros Hpos. now rewrite (proj2 (Qgtb_true _ _) Hpos).
    - intros Hzero.
      rewrite (proj2 (Qgtb_false total 0)); [reflexivity | lra]. }
  split; [rewrite Hcats; apply NoDup_remove_dups |].
  split.
  { intros c. rewrite Hcats, elem_of_remove_dups, list_elem_of_In, in_map_iff.
    split; intros (t & Ht & Hin); exists t.
    - split; [now apply list_elem_of_In | exact Ht].
    - split; [exact Hin | now apply list_elem_of_In]. }
  split; [exact Hrows |].
  split.
  - intros Hpos.
    pose (sums := map (fun g : string * list Transaction =>
                         Qsum (map tx_amount g.2))
                    (group_by tx_category expenses)).
    assert (map ca_percentage breakdown
            = map (fun x => x / total * 100) (map Qabs sums)) as ->.
    { unfold breakdown, category_breakdown, category_data, sums.
      fold total expenses. rewrite (proj2 (Qgtb_true _ _) Hpos).
      rewrite !List.map_map. reflexivity. }
    rewrite Qsum_shares.
    rewrite (Qsum_abs_nonpos sums (group_amounts_nonpos _ _ _ _ Hneg)).
    unfold sums. rewrite (group_by_sums tx_category tx_amount expenses).
    pose proof (expense_total_abs txs user_id month year) as Htot.
    fold total expenses in Htot.
    rewrite Qabs_neg in Htot
      by (apply Qsum_nonpos, expense_amounts_nonpos, Hneg).
    rewrite <- Htot. field. lra.
  - intros Hzero. eapply Forall_impl; [exact Hrows |].
    intros e (_ & _ & _ & He). now apply He.
Qed.

Lemma category_breakdown_shares_witness :
  let expenses := filter (of_type_in_period 1 EXPENSE 5 2024) may_2024 in
  let total := expense_total may_2024 1 5 2024 in
  let breakdown := category_breakdown may_2024 1 5 2024 in
  NoDup (map ca_category breakdown)
  /\ (forall c, c ∈ map ca_category breakdown
                <-> exists t, t ∈ expenses /\ tx_category t = c)
  /\ Forall (fun e =>
       let group :=
         filter (fun t => tx_category t = ca_category e) expenses in
       ca_amount e = Qabs (Qsum (map tx_amount group))
       /\ ca_transaction_count e = Z.of_nat (length group)
       /\ (0 < total -> ca_percentage e = ca_amount e / total * 100)
       /\ (total == 0 -> ca_percentage e = 0)) breakdown
  /\ (0 < total -> Qsum (map ca_percentage breakdown) == 100)
  /\ (total == 0 -> Forall (fun e => ca_percentage e = 0) breakdown).
Proof.
  apply (category_breakdown_shares may_2024 1 5 2024).
  exact may_2024_nonpositive.
Defined.

(** C5 as stated fails: with an expense of -50 in one category and one
    stored as +20 in another, total_expenses is 30 and the two shares are
    500/3 and 200/3 percent, which sum to 700/3, not 100. *)
Lemma category_breakdown_counterexample :
  0 < expense_total mixed_signs 1 5 2024
  /\ map ca_percentage (category_breakdown mixed_signs 1 5 2024)
     = [5000 # 30; 2000 # 30]
  /\ ~ Qsum (map ca_percentage (category_breakdown mixed_signs 1 5 2024))
       == 100.
Proof.
  split; [reflexivity |]. split; [reflexivity |].
  vm_compute. discriminate.
Qed.

End AggregationProofs.

(** ** Creating and updating budgets *)

Module BudgetCrudProofs.
Import Models Sql Budgets Scenarios.
Local Open Scope Z_scope.

Lemma fresh_id_above ids x : x ∈ ids -> x < fresh_id ids.
Proof.
  unfold fresh_id. induction 1 as [x ids | x y ids _ IH]; simpl; lia.
Qed.

Lemma fresh_id_not_in ids : fresh_id ids ∉ ids.
Proof. intros H. apply fresh_id_above in H. lia. Qed.

Lemma head_filter_None {A} (P : A -> Prop) `{forall x, Decision (P x)} l :
  head (filter P l) = None <-> forall x, x ∈ l -> ~ P x.
Proof.
  split.
  - intros Hh x Hx HP.
    assert (x ∈ filter P l) as Hin by (apply list_elem_of_filter; auto).
    destruct (filter P l); [now apply elem_of_nil in Hin | discriminate].
  - intros Hno. destruct (filter P l) as [|x k] eqn:Hf; [reflexivity |].
    assert (x ∈ filter P l) as Hin by (rewrite Hf; apply list_elem_of_here).
    apply list_elem_of_filter in Hin as [HP Hx]. now destruct (Hno x Hx).
Qed.

Lemma head_filter_is_Some {A} (P : A -> Prop) `{forall x, Decision (P x)} l x :
  head (filter P l) = Some x -> P x /\ x ∈ l.
Proof.
  intros Hh. apply (proj1 (list_elem_of_filter P l x)).
  destruct (filter P l) as [|y k]; [discriminate |].
  simpl in Hh. inversion Hh. apply list_elem_of_here.
Qed.

(** C7.  For every caller and every budget-creation request: if the
    caller already has a budget with the same category, month and year,
    [create_budget] raises an HTTPException with status 400 and the
    database is left as it was (nothing stored, the existing budget not
    changed); otherwise it succeeds and appends exactly one budget, owned
    by the caller, with the requested category, amount, month and year
    and a key no other budget has. *)
Theorem create_budget_rejects_duplicates db current_user budget :
  let duplicate :=
    exists b, b ∈ budgets db
              /\ same_slot (u_id current_user) (bc_category budget)
                   (bc_month budget) (bc_year budget) b in
  (duplicate ->
   exists detail,
     create_budget db current_user budget = (HTTPException 400 detail, db))
  /\ (~ duplicate ->
      exists new,
        create_budget db current_user budget
        = (Success new,
           mk_DB (users db) (transactions db) (budgets db ++ [new])
             (notifications db) (foreign_keys db))
        /\ b_user_id new = u_id current_user
        /\ b_category new = bc_category budget
        /\ b_amount new = bc_amount budget
        /\ b_month new = bc_month budget
        /\ b_year new = bc_year budget
        /\ b_id new ∉ map b_id (budgets db)).
Proof.
  intros duplicate. unfold create_budget.
  destruct (head (filter _ (budgets db))) as [b |] eqn:Hh.
  - split.
    + intros _. eexists. reflexivity.
    + intros Hno. exfalso. apply Hno.
      apply head_filter_is_Some in Hh as [Hs Hin]. now exists b.
  - split.
    + intros (b & Hin & Hs).
      exfalso. exact (proj1 (head_filter_None _ _) Hh b Hin Hs).
    + intros _. eexists. split; [reflexivity |].
      simpl. repeat split. apply fresh_id_not_in.
Qed.

Example create_budget_duplicate :
  create_budget small_db alice (mk_BudgetCreate "food" 250 5 2024)
  = (HTTPException 400
       "Ya existe un presupuesto para esta categoría en este mes",
     small_db).
Proof. reflexivity. Qed.

Example create_budget_new :
  create_budget small_db bob (mk_BudgetCreate "food" 250 5 2024)
  = (Success (mk_Budget 8 2 "food" 250 5 2024),
     mk_DB [alice; bob] may_2024
       [food_budget; mk_Budget 8 2 "food" 250 5 2024] [] true).
Proof. reflexivity. Qed.

(** *** Updating a budget *)

Lemma setattr_amount_frame b value b' :
  setattr b "amount" value = Some b' ->
  b_id b' = b_id b /\ budget_slot b' = budget_slot b.
Proof.
  unfold setattr. simpl.
  destruct value; intros H; inversion H; split; reflexivity.
Qed.

(** Items that all name the field [amount] leave the key columns alone. *)
Lemma apply_items_frame items : forall b b',
  Forall (fun it : string * pyval => it.1 = "amount"%string) items ->
  apply_items b items = Some b' ->
  b_id b' = b_id b /\ budget_slot b' = budget_slot b.
Proof.
  induction items as [|[field value] items IH]; intros b b' Hall Happ.
  - inversion Happ. split; reflexivity.
  - inversion Hall as [|? ? Hfield Hrest]; subst. simpl in Hfield. subst field.
    simpl in Happ.
    destruct (setattr b "amount" value) as [b1 |] eqn:Hset; [| discriminate].
    apply setattr_amount_frame in Hset as [Hid Hslot].
    destruct (IH b1 b' Hrest Happ) as [Hid' Hslot'].
    split; congruence.
Qed.

(** The update schema carries the field [amount] and no other. *)
Lemma BudgetUpdate_items_only_amount u :
  Forall (fun it : string * pyval => it.1 = "amount"%string)
    (BudgetUpdate_items u).
Proof.
  unfold BudgetUpdate_items.
  destruct (bu_amount u) as [[q |] |]; repeat constructor.
Qed.

Lemma primary_key_unique (l : list Budget) b1 b2 :
  NoDup (map b_id l) -> b1 ∈ l -> b2 ∈ l -> b_id b1 = b_id b2 -> b1 = b2.
Proof.
  induction l as [|b l IH]; intros Hnd H1 H2 Heq.
  - now apply elem_of_nil in H1.
  - simpl in Hnd. apply NoDup_cons in Hnd as [Hb Hnd].
    apply elem_of_cons in H1 as [-> | H1];
      apply elem_of_cons in H2 as [-> | H2]; auto.
    + exfalso. apply Hb. rewrite Heq.
      apply list_elem_of_In, in_map, list_elem_of_In, H2.
    + exfalso. apply Hb. rewrite <- Heq.
      apply list_elem_of_In, in_map, list_elem_of_In, H1.
Qed.

Lemma write_row_frame budget_id b' rows :
  (forall b, b ∈ rows -> b_id b = budget_id ->
             b_id b' = b_id b /\ budget_slot b' = budget_slot b) ->
  map budget_slot (write_row budget_id b' rows) = map budget_slot rows
  /\ map b_id (write_row budget_id b' rows) = map b_id rows.
Proof.
  induction rows as [|b rows IH]; intros Hsame; [split; reflexivity |].
  destruct IH as [IHs IHi].
  { intros x Hx. apply Hsame. now apply list_elem_of_further. }
  unfold write_row in *. simpl.
  destruct (decide (b_id b = budget_id)) as [Hid | Hid].
  - destruct (Hsame b (list_elem_of_here _ _) Hid) as [Hi Hs].
    rewrite IHs, IHi, Hi, Hs. split; reflexivity.
  - rewrite IHs, IHi. split; reflexivity.
Qed.

Lemma write_row_others budget_id b' rows b :
  b ∈ rows -> b_id b <> budget_id -> b ∈ write_row budget_id b' rows.
Proof.
  intros Hin Hne. unfold write_row.
  apply list_elem_of_In, in_map_iff. exists b.
  split; [| now apply list_elem_of_In].
  destruct (decide (b_id b = budget_id)); [contradiction | reflexivity].
Qed.

(** Writing back a row that kept its id and its key. *)
Lemma write_row_update rows budget_id budget budget' :
  NoDup (map b_id rows) ->
  budget ∈ rows ->
  b_id budget = budget_id ->
  b_id budget' = b_id budget ->
  budget_slot budget' = budget_slot budget ->
  budget' ∈ write_row budget_id budget' rows
  /\ map budget_slot (write_row budget_id budget' rows)
     = map budget_slot rows
  /\ map b_id (write_row budget_id budget' rows) = map b_id rows
  /\ (forall b, b ∈ rows -> b_id b <> budget_id ->
                b ∈ write_row budget_id budget' rows)
  /\ (NoDup (map budget_slot rows) ->
      NoDup (map budget_slot (write_row budget_id budget' rows))).
Proof.
  intros Hpk Hin Hid Hid' Hslot'.
  destruct (write_row_frame budget_id budget' rows) as [Hslots Hids].
  { intros b Hb Hbid.
    assert (b = budget) as ->
      by (apply (primary_key_unique rows); auto; congruence).
    split; assumption. }
  split.
  { unfold write_row. apply list_elem_of_In, in_map_iff.
    exists budget. split; [| now apply list_elem_of_In].
    now rewrite decide_True by exact Hid. }
  split; [exact Hslots |]. split; [exact Hids |].
  split; [intros b Hb Hne; now apply write_row_others |].
  intros Hnd. now rewrite Hslots.
Qed.

(** C10.  For every budget of the caller and every update payload, with
    the ids of the budgets distinct (primary key): a payload that sets
    amount to null is refused by the NOT NULL column and nothing is
    stored; every other payload succeeds, and the updated budget has the
    id, user_id, category, month and year it had, its amount being the
    payload's amount when the payload sets one.  The (user, category,
    month, year) keys and the ids of the stored budgets are the same list
    as before, every other budget is still stored, and so a table whose
    keys were distinct keeps them distinct. *)
Theorem update_budget_changes_amount_only
  db current_user budget_id budget_update budget :
  NoDup (map b_id (budgets db)) ->
  budget ∈ budgets db ->
  b_id budget = budget_id ->
  b_user_id budget = u_id current_user ->
  match bu_amount budget_update with
  | Some None =>
      update_budget db current_user budget_id budget_update
      = (IntegrityError, db)
  | _ =>
      exists budget',
        let db' :=
          (update_budget db current_user budget_id budget_update).2 in
        update_budget db current_user budget_id budget_update
        = (Success budget',
           mk_DB (users db) (transactions db)
             (write_row budget_id budget' (budgets db))
             (notifications db) (foreign_keys db))
        /\ b_id budget' = b_id budget
        /\ b_user_id budget' = b_user_id budget
        /\ b_category budget' = b_category budget
        /\ b_month budget' = b_month budget
        /\ b_year budget' = b_year budget
        /\ b_amount budget'
           = match bu_amount budget_update with
             | Some (Some q) => q
             | _ => b_amount budget
             end
        /\ budget' ∈ budgets db'
        /\ map budget_slot (budgets db') = map budget_slot (budgets db)
        /\ map b_id (budgets db') = map b_id (budgets db)
        /\ (forall b, b ∈ budgets db -> b_id b <> budget_id ->
                      b ∈ budgets db')
        /\ (NoDup (map budget_slot (budgets db)) ->
            NoDup (map budget_slot (budgets db')))
  end.
Proof.
  intros Hpk Hin Hid Huser.
  assert (head (filter (fun b => b_id b = budget_id
                                 /\ b_user_id b = u_id current_user)
                  (budgets db)) = Some budget) as Hfound.
  { destruct (head (filter _ (budgets db))) as [b |] eqn:Hh.
    - apply head_filter_is_Some in Hh as [[Hbid _] Hbin].
      f_equal. apply (primary_key_unique (budgets db)); auto. congruence.
    - exfalso.
      exact (proj1 (head_filter_None _ _) Hh budget Hin (conj Hid Huser)). }
  pose proof (BudgetUpdate_items_only_amount budget_update) as Honly.
  unfold update_budget. rewrite Hfound.
  destruct (bu_amount budget_update) as [[q |] |] eqn:Hamount.
  2: { unfold BudgetUpdate_items. rewrite Hamount. reflexivity. }
  all: destruct (apply_items budget (BudgetUpdate_items budget_update))
         as [budget' |] eqn:Happ;
       [| unfold BudgetUpdate_items in Happ; rewrite Hamount in Happ;
          discriminate].
  all: destruct (apply_items_frame _ _ _ Honly Happ) as [Hid' Hslot'].
  all: exists budget'; cbn [snd budgets].
  all: split; [reflexivity |].
  all: pose proof Hslot' as Hkey; unfold budget_slot in Hkey.
  all: do 5 (split; [congruence |]).
  all: split;
       [ unfold BudgetUpdate_items in Happ; rewrite Hamount in Happ;
         simpl in Happ; inversion Happ; reflexivity |].
  all: now apply (write_row_update (budgets db) budget_id budget budget').
Qed.

Lemma update_budget_changes_amount_only_witness :
  exists budget',
    let db' :=
      (update_budget small_db alice 7 (mk_BudgetUpdate (Some (Some 150%Q)))).2
    in
    update_budget small_db alice 7 (mk_BudgetUpdate (Some (Some 150%Q)))
    = (Success budget',
       mk_DB (users small_db) (transactions small_db)
         (write_row 7 budget' (budgets small_db))
         (notifications small_db) (foreign_keys small_db))
    /\ b_id budget' = b_id food_budget
    /\ b_user_id budget' = b_user_id food_budget
    /\ b_category budget' = b_category food_budget
    /\ b_month budget' = b_month food_budget
    /\ b_year budget' = b_year food_budget
    /\ b_amount budget' = 150%Q
    /\ budget' ∈ budgets db'
    /\ map budget_slot (budgets db') = map budget_slot (budgets small_db)
    /\ map b_id (budgets db') = map b_id (budgets small_db)
    /\ (forall b, b ∈ budgets small_db -> b_id b <> 7 -> b ∈ budgets db')
    /\ (NoDup (map budget_slot (budgets small_db)) ->
        NoDup (map budget_slot (budgets db'))).
Proof.
  apply (update_budget_changes_amount_only small_db alice 7
           (mk_BudgetUpdate (Some (Some 150%Q))) food_budget).
  - simpl. apply NoDup_singleton.
  - simpl. apply list_elem_of_here.
  - reflexivity.
  - reflexivity.
Defined.

Example update_budget_amount :
  update_budget small_db alice 7 (mk_BudgetUpdate (Some (Some 150%Q)))
  = (Success (mk_Budget 7 1 "food" 150 5 2024),
     mk_DB [alice; bob] may_2024 [mk_Budget 7 1 "food" 150 5 2024] [] true).
Proof. reflexivity. Qed.

Example update_budget_null_amount :
  update_budget small_db alice 7 (mk_BudgetUpdate (Some None))
  = (IntegrityError, small_db).
Proof. reflexivity. Qed.

Example update_budget_of_another_user :
  update_budget small_db bob 7 (mk_BudgetUpdate (Some (Some 150%Q)))
  = (HTTPException 404 "Presupuesto no encontrado", small_db).
Proof. reflexivity. Qed.

End BudgetCrudProofs.

(** ** The owner of a created notification *)

Module NotificationProofs.
Import Models Notifications Scenarios.
Local Open Scope Z_scope.

(** C9.  For every database, every two authenticated callers and every
    payload, [create_notification] gives the same response and the same
    database under both callers; a stored notification has the user_id
    of the payload; and whenever the payload names a row of [users] (or
    foreign keys are not enforced) the notification is stored, whoever
    the caller is: a caller can create a notification owned by another
    user. *)
Theorem create_notification_owner_from_payload db caller1 caller2 notification :
  create_notification db caller1 notification
  = create_notification db caller2 notification
  /\ (forall n db',
        create_notification db caller1 notification = (Success n, db') ->
        n_user_id n = nc_user_id notification
        /\ notifications db' = notifications db ++ [n])
  /\ (foreign_keys db = false
      \/ nc_user_id notification ∈ map u_id (users db) ->
      exists n db',
        create_notification db caller1 notification = (Success n, db')
        /\ n_user_id n = nc_user_id notification
        /\ n ∈ notifications db').
Proof.
  split; [reflexivity |].
  unfold create_notification.
  destruct (foreign_keys db
            && negb (bool_decide (nc_user_id notification
                                  ∈ map u_id (users db)))) eqn:Hfk.
  - split; [intros n db' H; discriminate |].
    intros [Hoff | Hin]; exfalso.
    + rewrite Hoff in Hfk. discriminate.
    + rewrite (bool_decide_eq_true_2 _ Hin) in Hfk.
      rewrite andb_false_r in Hfk. discriminate.
  - split.
    + intros n db' H. inversion H. split; reflexivity.
    + intros _. eexists. eexists. split; [reflexivity |].
      split; [reflexivity |].
      simpl. apply elem_of_app. right. apply list_elem_of_here.
Qed.

(** Alice creates a notification that belongs to Bob. *)
Example alice_notifies_as_bob :
  create_notification small_db alice
    (mk_NotificationCreate "Alert" "Pay now" PAYMENT_REMINDER (u_id bob))
  = (Success (mk_Notification 1 2 "Alert" "Pay now" PAYMENT_REMINDER
                false false false),
     mk_DB [alice; bob] may_2024 [food_budget]
       [mk_Notification 1 2 "Alert" "Pay now" PAYMENT_REMINDER
          false false false] true).
Proof. reflexivity. Qed.

End NotificationProofs.

(** ** The monthly trend *)

Module TrendProofs.
Import Calendar CalendarFacts Models Sql SqlFacts Analytics Scenarios.
Local Open Scope Z_scope.

(** *** The keys *)

Lemma string_length_app (s t : string) :
  String.length (s +:+ t) = (String.length s + String.length t)%nat.
Proof. induction s as [|a s IH]; simpl; [reflexivity | now rewrite IH]. Qed.

Lemma string_app_inj_suffix (s1 s2 t1 t2 : string) :
  String.length t1 = String.length t2 ->
  s1 +:+ t1 = s2 +:+ t2 -> s1 = s2 /\ t1 = t2.
Proof.
  revert s2. induction s1 as [|a s1 IH]; intros [|b s2] Hlen Heq; simpl in Heq.
  - auto.
  - exfalso. apply (f_equal String.length) in Heq.
    simpl in Heq. rewrite !string_length_app in Heq. simpl in Heq. lia.
  - exfalso. apply (f_equal String.length) in Heq.
    simpl in Heq. rewrite !string_length_app in Heq. simpl in Heq. lia.
  - inversion Heq as [[Hab Hrest]].
    destruct (IH s2 Hlen Hrest) as [-> ->]. auto.
Qed.

Lemma month_cases m :
  1 <= m <= 12 ->
  m = 1 \/ m = 2 \/ m = 3 \/ m = 4 \/ m = 5 \/ m = 6 \/ m = 7
  \/ m = 8 \/ m = 9 \/ m = 10 \/ m = 11 \/ m = 12.
Proof. lia. Qed.

Lemma pad2_length m : 1 <= m <= 12 -> String.length (pad2 m) = 2%nat.
Proof.
  intros Hm. apply month_cases in Hm.
  repeat (destruct Hm as [-> | Hm]; [reflexivity |]). subst. reflexivity.
Qed.

Lemma pad2_inj m m' :
  1 <= m <= 12 -> 1 <= m' <= 12 -> pad2 m = pad2 m' -> m = m'.
Proof.
  intros Hm Hm'. apply month_cases in Hm. apply month_cases in Hm'.
  repeat (destruct Hm as [-> | Hm]);
  repeat (destruct Hm' as [-> | Hm']); subst;
  intros H; try reflexivity; vm_compute in H; discriminate.
Qed.

(** Two months of the calendar have different keys. *)
Lemma trend_key_inj y m y' m' :
  1 <= m <= 12 -> 1 <= m' <= 12 ->
  trend_key y m = trend_key y' m' -> y = y' /\ m = m'.
Proof.
  intros Hm Hm' Heq. unfold trend_key in Heq.
  apply string_app_inj_suffix in Heq as [Hy Hrest].
  - apply (inj pretty) in Hy. split; [exact Hy |].
    apply string_app_inj_suffix in Hrest as [_ Hp];
      [now apply pad2_inj | now rewrite !pad2_length].
  - now rewrite !string_length_app, !pad2_length.
Qed.

(** *** The loop over the grouped rows *)

Lemma trend_step_lookup (trend : gmap string TrendEntry) y m ty total k :
  trend_step trend (y, m, ty, total) !! k
  = if decide (k = trend_key y m)
    then Some (store ty total (default (mk_TrendEntry 0 0) (trend !! k)))
    else trend !! k.
Proof.
  unfold trend_step.
  destruct (decide (k = trend_key y m)) as [-> | Hne].
  - destruct (trend !! trend_key y m) as [e |] eqn:He; destruct ty;
      rewrite lookup_alter_eq, ?lookup_insert_eq, ?He; reflexivity.
  - destruct (trend !! trend_key y m) as [e |] eqn:He; destruct ty;
      rewrite lookup_alter_ne, ?lookup_insert_ne by congruence; reflexivity.
Qed.

Section Fold.
Variable g : Z * Z * TransactionType -> Q.

(** The keys of the dictionary are the keys of the rows. *)
Lemma trend_fold_dom ks k :
  is_Some (foldl trend_step ∅ (map (fun k => (k, g k)) ks) !! k)
  <-> exists y m ty, (y, m, ty) ∈ ks /\ k = trend_key y m.
Proof.
  induction ks as [|[[y m] ty] ks IH] using rev_ind.
  - simpl. rewrite lookup_empty. split; [intros [? ?]; discriminate |].
    intros (? & ? & ? & H & _). now apply elem_of_nil in H.
  - rewrite map_app. simpl map. rewrite foldl_snoc.
    rewrite trend_step_lookup.
    destruct (decide (k = trend_key y m)) as [-> | Hne].
    + split; [| intros _; eexists; reflexivity].
      intros _. exists y, m, ty. split; [| reflexivity].
      apply elem_of_app. right. apply list_elem_of_here.
    + rewrite IH. split; intros (y' & m' & ty' & Hin & Hk).
      * exists y', m', ty'. split; [| exact Hk].
        apply elem_of_app. now left.
      * apply elem_of_app in Hin as [Hin | Hin].
        -- exists y', m', ty'. auto.
        -- apply list_elem_of_singleton in Hin. inversion Hin; subst.
           contradiction.
Qed.

(** With one row per (year, month, type), the entry of a month holds
    the total of its income row and the absolute total of its expense
    row, and 0 for a row that is not there. *)
Lemma trend_fold_value ks :
  NoDup ks ->
  (forall y m ty, (y, m, ty) ∈ ks -> 1 <= m <= 12) ->
  forall y m, 1 <= m <= 12 ->
  foldl trend_step ∅ (map (fun k => (k, g k)) ks) !! trend_key y m
  = if decide ((y, m, INCOME) ∈ ks \/ (y, m, EXPENSE) ∈ ks)
    then Some (mk_TrendEntry
                 (if decide ((y, m, INCOME) ∈ ks)
                  then g (y, m, INCOME) else 0)
                 (if decide ((y, m, EXPENSE) ∈ ks)
                  then Qabs (g (y, m, EXPENSE)) else 0))
    else None.
Proof.
  induction ks as [|[[y' m'] ty'] ks IH] using rev_ind;
    intros Hnd Hval y m Hm.
  - simpl. rewrite lookup_empty. reflexivity.
  - apply NoDup_app in Hnd as (Hnd & Hfresh & _).
    assert ((y', m', ty') ∉ ks) as Hnew.
    { intros Hin. apply (Hfresh _ Hin). apply list_elem_of_here. }
    assert (1 <= m' <= 12) as Hm'.
    { apply (Hval y' m' ty'). apply elem_of_app. right.
      apply list_elem_of_here. }
    specialize (IH Hnd).
    assert (forall y m ty, (y, m, ty) ∈ ks -> 1 <= m <= 12) as Hval'.
    { intros ? ? ? Hin. eapply Hval. apply elem_of_app. left. exact Hin. }
    specialize (IH Hval' y m Hm).
    rewrite map_app. simpl map. rewrite foldl_snoc.
    rewrite trend_step_lookup, IH. clear IH.
    assert (forall ty, (y, m, ty) ∈ ks ++ [(y', m', ty')]
                       <-> (y, m, ty) ∈ ks
                           \/ (y = y' /\ m = m' /\ ty = ty')) as Hmem.
    { intros ty. rewrite elem_of_app, list_elem_of_singleton.
      split; intros [H | H]; auto.
      - inversion H. auto.
      - destruct H as (-> & -> & ->). auto. }
    destruct (decide (trend_key y m = trend_key y' m')) as [Hk | Hk].
    + apply trend_key_inj in Hk as [-> ->]; [| assumption ..].
      destruct ty'; simpl;
        repeat (case_decide; simpl); try reflexivity;
        rewrite ?Hmem in *; exfalso; intuition congruence.
    + assert (~ (y = y' /\ m = m')) as Hne by (intros [-> ->]; auto).
      repeat (case_decide; simpl); try reflexivity;
        rewrite ?Hmem in *; exfalso; intuition congruence.
Qed.
End Fold.

(** *** The start of the window *)

Lemma toordinal_upper t :
  valid_datetime t = true -> toordinal t <= MAXORDINAL + 3.
Proof.
  intros Ht. apply valid_datetime_spec in Ht as (Hd & _).
  apply valid_date_spec in Hd as (Hy & Hm & Hday).
  pose proof (days_in_month_bounds (dt_year t) (dt_month t) Hm) as Hdim.
  unfold toordinal, ymd2ord, MAXORDINAL, days_before_year, days_before_month.
  cbv zeta.
  assert (DAYS_BEFORE_MONTH (dt_month t) <= 334) as Hb.
  { apply month_cases in Hm.
    repeat (destruct Hm as [-> | Hm]; [simpl; lia |]). rewrite Hm. simpl. lia. }
  destruct (_ && _); Z.div_mod_to_equations; lia.
Qed.

Lemma minus_days_ok now days :
  valid_datetime now = true -> 3 <= days -> days < toordinal now ->
  exists start_date, minus_days now days = Ok start_date.
Proof.
  intros Hnow Hd Hlt. pose proof (toordinal_upper now Hnow) as Hup.
  unfold minus_days.
  replace (0 <? toordinal now - days) with true
    by (symmetry; apply Z.ltb_lt; lia).
  replace (toordinal now - days <=? MAXORDINAL) with true
    by (symmetry; apply Z.leb_le; lia).
  simpl. destruct (ord2ymd _) as [[y m] d]. eexists. reflexivity.
Qed.

(** *** The dictionary *)

Lemma filter_key_absent {A K} `{EqDecision K} (key : A -> K) (l : list A) k :
  k ∉ remove_dups (map key l) -> filter (fun x => key x = k) l = [].
Proof.
  intros Hk. rewrite elem_of_remove_dups in Hk.
  induction l as [|x l IH]; [reflexivity |].
  simpl in Hk. apply not_elem_of_cons in Hk as [Hne Hk].
  rewrite filter_cons_False; [auto | congruence].
Qed.

Lemma monthly_data_rows txs user_id start_date :
  let selected := filter (in_window user_id start_date) txs in
  monthly_data txs user_id start_date
  = map (fun k => (k, Qsum (map tx_amount
                              (filter (fun t => ymt t = k) selected))))
        (remove_dups (map ymt selected)).
Proof. unfold monthly_data, group_by. now rewrite List.map_map. Qed.

(** C6, as amended.  For every user, every N in 1..24, every instant
    [now] more than 30 N days after 1 January of year 1 and every
    transaction set with valid dates, the monthly trend query returns a
    dictionary whose keys are exactly the "YYYY-MM" keys of the months in
    which the user has a transaction dated at or after
    start = now - 30 N days; there is no upper bound, so a transaction
    dated after [now] has its month in the dictionary.  The entry of such
    a month holds the sum of its INCOME amounts and the absolute value of
    the sum of its EXPENSE amounts, over the transactions dated at or
    after start, and 0 for a side without transactions; a month without
    such a transaction has no entry. *)
Theorem monthly_trend_entries txs user_id now months :
  Forall (fun t => valid_datetime (tx_date t) = true) txs ->
  valid_datetime now = true ->
  1 <= months <= 24 ->
  months * 30 < toordinal now ->
  exists start_date trend,
    minus_days now (months * 30) = Ok start_date
    /\ get_monthly_trend txs user_id now months = Ok trend
    /\ let selected := filter (in_window user_id start_date) txs in
       (forall key,
          is_Some (trend !! key)
          <-> exists t, t ∈ selected
                        /\ key = trend_key (dt_year (tx_date t))
                                   (dt_month (tx_date t)))
       /\ (forall t, t ∈ selected ->
             let y := dt_year (tx_date t) in
             let m := dt_month (tx_date t) in
             trend !! trend_key y m
             = Some (mk_TrendEntry
                       (Qsum (map tx_amount
                                (filter (fun t' => ymt t' = (y, m, INCOME))
                                   selected)))
                       (Qabs (Qsum (map tx_amount
                                (filter (fun t' => ymt t' = (y, m, EXPENSE))
                                   selected)))))).
Proof.
  intros Hdates Hnow Hmonths Hord.
  destruct (minus_days_ok now (months * 30) Hnow) as [start_date Hstart];
    [lia | lia |].
  exists start_date. eexists. split; [exact Hstart |].
  unfold get_monthly_trend. rewrite Hstart. cbn [result_bind].
  split; [reflexivity |].
  rewrite monthly_data_rows. cbv zeta.
  set (selected := filter (in_window user_id start_date) txs).
  set (g := fun k => Qsum (map tx_amount (filter (fun t => ymt t = k) selected))).
  set (ks := remove_dups (map ymt selected)).
  assert (forall t, t ∈ selected -> ymt t ∈ ks) as Hks.
  { intros t Ht. unfold ks. rewrite elem_of_remove_dups.
    apply list_elem_of_In, in_map, list_elem_of_In, Ht. }
  assert (forall y m ty, (y, m, ty) ∈ ks ->
            exists t, t ∈ selected /\ ymt t = (y, m, ty)) as Hks'.
  { intros y m ty Hin. unfold ks in Hin. rewrite elem_of_remove_dups in Hin.
    apply list_elem_of_In, in_map_iff in Hin as (t & Ht & Hin).
    exists t. split; [now apply list_elem_of_In | exact Ht]. }
  assert (forall t, t ∈ selected -> 1 <= dt_month (tx_date t) <= 12) as Hval.
  { intros t Ht. apply list_elem_of_filter in Ht as [_ Ht].
    rewrite Forall_forall in Hdates. specialize (Hdates t Ht).
    apply valid_datetime_spec in Hdates as (Hd & _).
    apply valid_date_spec in Hd. tauto. }
  split.
  - intros key. pose proof (trend_fold_dom g ks key) as Hdom.
    unfold g in Hdom. cbv beta in Hdom. rewrite Hdom. clear Hdom. split.
    + intros (y & m & ty & Hin & ->).
      destruct (Hks' y m ty Hin) as (t & Ht & Heq).
      exists t. split; [exact Ht |]. unfold ymt in Heq. now inversion Heq.
    + intros (t & Ht & ->).
      exists (dt_year (tx_date t)), (dt_month (tx_date t)),
        (tx_transaction_type t).
      split; [apply (Hks t Ht) | reflexivity].
  - intros t Ht.
    set (y := dt_year (tx_date t)). set (m := dt_month (tx_date t)).
    pose proof (trend_fold_value g ks (NoDup_remove_dups _)) as Hvalue.
    unfold g in Hvalue at 1. cbv beta in Hvalue. rewrite Hvalue.
    + assert ((y, m, INCOME) ∈ ks \/ (y, m, EXPENSE) ∈ ks) as Hside.
      { pose proof (Hks t Ht) as Hin. unfold ymt in Hin. fold y m in Hin.
        destruct (tx_transaction_type t); auto. }
      rewrite decide_True by exact Hside.
      f_equal. f_equal.
      * case_decide as Hin; [reflexivity |].
        now rewrite (filter_key_absent ymt selected _ Hin).
      * case_decide as Hin; [reflexivity |].
        now rewrite (filter_key_absent ymt selected _ Hin).
    + intros y' m' ty' Hin. destruct (Hks' y' m' ty' Hin) as (t' & Ht' & Heq).
      unfold ymt in Heq. inversion Heq; subst. now apply Hval.
    + now apply Hval.
Qed.

Lemma monthly_trend_entries_witness :
  exists start_date trend,
    minus_days may_15_noon (1 * 30) = Ok start_date
    /\ get_monthly_trend may_2024 1 may_15_noon 1 = Ok trend
    /\ let selected := filter (in_window 1 start_date) may_2024 in
       (forall key,
          is_Some (trend !! key)
          <-> exists t, t ∈ selected
                        /\ key = trend_key (dt_year (tx_date t))
                                   (dt_month (tx_date t)))
       /\ (forall t, t ∈ selected ->
             let y := dt_year (tx_date t) in
             let m := dt_month (tx_date t) in
             trend !! trend_key y m
             = Some (mk_TrendEntry
                       (Qsum (map tx_amount
                                (filter (fun t' => ymt t' = (y, m, INCOME))
                                   selected)))
                       (Qabs (Qsum (map tx_amount
                                (filter (fun t' => ymt t' = (y, m, EXPENSE))
                                   selected)))))).
Proof.
  apply (monthly_trend_entries may_2024 1 may_15_noon 1).
  - repeat constructor.
  - reflexivity.
  - lia.
  - vm_compute. reflexivity.
Defined.

(** C6 as stated fails: on 15 May 2024 with N = 1, an income dated
    1 August 2024, after [now], gives the dictionary the entry
    "2024-08". *)
Lemma monthly_trend_counterexample :
  dt_ltb may_15_noon (mk_datetime 2024 8 1 0 0 0 0) = true
  /\ exists trend,
       get_monthly_trend future_income 1 may_15_noon 1 = Ok trend
       /\ trend !! "2024-08"%string = Some (mk_TrendEntry 7 0).
Proof.
  split; [reflexivity |].
  eexists. split; [reflexivity |]. vm_compute. reflexivity.
Qed.

(** The window starts 30 N days before [now], not at a month boundary:
    of the two incomes of April only the one after 15 April 12:00 is
    counted. *)
Example window_cuts_april :
  exists trend,
    get_monthly_trend april_incomes 1 may_15_noon 1 = Ok trend
    /\ minus_days may_15_noon 30 = Ok (mk_datetime 2024 4 15 12 0 0 0)
    /\ trend !! "2024-04"%string = Some (mk_TrendEntry 50 0).
Proof.
  eexists. split; [reflexivity |]. split; [reflexivity |].
  vm_compute. reflexivity.
Qed.

Example may_2024_trend :
  exists trend,
    get_monthly_trend may_2024 1 may_15_noon 6 = Ok trend
    /\ map_to_list trend = [("2024-05"%string, mk_TrendEntry 1000 80)].
Proof.
  eexists. split; [reflexivity |]. vm_compute. reflexivity.
Qed.

Example trend_before_year_3 :
  get_monthly_trend may_2024 1 (mk_datetime 1 6 1 0 0 0 0) 24
  = Raise OverflowError.
Proof. reflexivity. Qed.

End TrendProofs.

(** ** Due days the validator would refuse *)

Module DueDayEdgeProofs.
Import Calendar CalendarFacts FixedPayments FixedPaymentsProofs
  Models FixedPaymentHandlers Scenarios MoreScenarios.
Local Open Scope Z_scope.

Lemma clamp_large y m d :
  1 <= m <= 12 -> 31 <= d ->
  Z.min d (days_in_month y m) = Z.min 31 (days_in_month y m).
Proof. intros Hm Hd. pose proof (days_in_month_bounds y m Hm). lia. Qed.

Lemma large_due_day_clamped now d :
  valid_datetime now = true -> 31 <= d ->
  calculate_next_due_date now d = calculate_next_due_date now 31.
Proof.
  intros Hnow Hd.
  pose proof Hnow as Hv. apply valid_datetime_spec in Hv as (Hdate & _).
  apply valid_date_spec in Hdate as (Hy & Hm & Hday).
  unfold calculate_next_due_date.
  rewrite (monthrange_ndays_ok _ _ Hm). cbn [result_bind].
  rewrite (clamp_large _ _ d Hm Hd).
  destruct (datetime_new _ _ (Z.min 31 _)) as [next_due | e]; [| reflexivity].
  destruct (dt_leb next_due now); [| reflexivity].
  destruct (advance_month_range (dt_year now) (dt_month now) Hm) as (Hm1 & _).
  destruct (advance_month (dt_year now) (dt_month now)) as [y1 m1].
  simpl in Hm1. rewrite (monthrange_ndays_ok _ _ Hm1).
  now rewrite (clamp_large _ _ d Hm1 Hd).
Qed.

(** X1.  A due day above 31 behaves as 31: for every instant [now] and
    every due_day >= 31, [calculate_next_due_date] returns what it returns
    for due_day = 31, the clamp to the length of the month making the
    two equal. *)
Theorem due_day_above_31_is_31 now d :
  valid_datetime now = true -> 31 <= d ->
  calculate_next_due_date now d = calculate_next_due_date now 31.
Proof. apply large_due_day_clamped. Qed.

Lemma due_day_above_31_is_31_witness :
  calculate_next_due_date may_15_noon 45
  = calculate_next_due_date may_15_noon 31.
Proof.
  apply (due_day_above_31_is_31 may_15_noon 45); [reflexivity | lia].
Defined.









Example due_day_zero_is_due_today :
  payment_with_status may_31_noon may_31_noon (mk_FixedPayment 1 1 0 true)
  = Ok (midnight 2024 5 31, 0, "due"%string).
Proof. reflexivity. Qed.

End DueDayEdgeProofs.

(** ** The lists of upcoming payments *)

Module UpcomingProofs.
Import Calendar CalendarFacts FixedPayments FixedPaymentsProofs
  Models FixedPaymentHandlers Scenarios MoreScenarios.
Local Open Scope Z_scope.

Lemma validated_next_due now p :
  valid_datetime now = true -> dt_year now < 9999 ->
  1 <= fpr_due_day p <= 31 ->
  calculate_next_due_date now (fpr_due_day p)
  = Ok (next_due_spec now (fpr_due_day p))
  /\ 1 <= days_to_next_due now p
  /\ dt_ltb now (next_due_spec now (fpr_due_day p)) = true.
Proof.
  intros Hnow Hy Hd.
  rewrite (calculate_next_due_date_total now _ Hnow Hd).
  unfold rollover_overflows, MAXYEAR.
  rewrite (proj2 (Z.eqb_neq (dt_year now) 9999)) by lia. simpl.
  split; [reflexivity |].
  split; [now apply next_due_spec_days | now apply next_due_spec_after].
Qed.

Lemma upcoming_loop_spec now days payments :
  valid_datetime now = true -> dt_year now < 9999 ->
  due_days_validated payments ->
  upcoming_loop now days payments
  = Ok (map (upcoming_entry now)
          (filter (fun p => days_to_next_due now p <= days) payments)).
Proof.
  intros Hnow Hy Hval. induction Hval as [|p payments Hp _ IH].
  - reflexivity.
  - destruct (validated_next_due now p Hnow Hy Hp) as (Hcalc & Hpos & _).
    cbn [upcoming_loop]. rewrite Hcalc, IH. cbn [result_bind].
    fold (days_to_next_due now p).
    rewrite filter_cons.
    destruct (decide (days_to_next_due now p <= days)) as [Hle | Hgt].
    + replace (0 <=? days_to_next_due now p) with true
        by (symmetry; apply Z.leb_le; lia).
      replace (days_to_next_due now p <=? days) with true
        by (symmetry; apply Z.leb_le; lia).
      reflexivity.
    + replace (days_to_next_due now p <=? days) with false
        by (symmetry; apply Z.leb_gt; lia).
      now rewrite andb_false_r.
Qed.



(** X4.  With one clock reading before year 9999 and due days in
    1..31, [get_upcoming_payments] returns, in table order, exactly the
    active payments of the caller whose next due date is at most [days]
    days ahead, each with the date of the clamp-then-compare algorithm,
    which is after [now], and 1 <= days_until_due <= days; the lower
    bound 0 of the handler's test never excludes anything, and for
    days <= 0 the list is empty. *)
Theorem upcoming_payments_window table now current_user days :
  valid_datetime now = true -> dt_year now < 9999 ->
  due_days_validated (filter (active_of current_user) table) ->
  exists upcoming,
    get_upcoming_payments table now current_user days = Ok upcoming
    /\ map (fun e => e.1.1) upcoming
       = filter (fun p => days_to_next_due now p <= days)
           (filter (active_of current_user) table)
    /\ Forall (fun e =>
         e.1.2 = next_due_spec now (fpr_due_day e.1.1)
         /\ e.2 = date_diff_days e.1.2 now
         /\ 1 <= e.2 <= days
         /\ dt_ltb now e.1.2 = true) upcoming
    /\ (days <= 0 -> upcoming = []).
Proof.
  intros Hnow Hy Hval. unfold get_upcoming_payments.
  rewrite (upcoming_loop_spec now days _ Hnow Hy Hval).
  eexists. split; [reflexivity |].
  set (active := filter (active_of current_user) table) in *.
  assert (forall p, p ∈ filter (fun p => days_to_next_due now p <= days) active ->
            1 <= days_to_next_due now p <= days
            /\ dt_ltb now (next_due_spec now (fpr_due_day p)) = true) as Hin.
  { intros p Hp. apply list_elem_of_filter in Hp as [Hle Hp].
    unfold due_days_validated in Hval. rewrite Forall_forall in Hval.
    destruct (validated_next_due now p Hnow Hy (Hval p Hp)) as (_ & Hpos & Hlt).
    auto. }
  split; [| split].
  - rewrite List.map_map. simpl. apply List.map_id.
  - apply Forall_forall. intros e He.
    apply list_elem_of_In, in_map_iff in He as (p & <- & Hp).
    apply list_elem_of_In in Hp. destruct (Hin p Hp) as [Hrange Hlt].
    simpl. auto.
  - intros Hdays.
    destruct (filter _ active) as [|p rest]; [reflexivity |].
    exfalso. destruct (Hin p (list_elem_of_here _ _)) as [Hrange _]. lia.
Qed.

Lemma payments_table_validated :
  due_days_validated (filter (active_of alice) payments_table).
Proof. repeat constructor; simpl; lia. Qed.

Lemma upcoming_payments_window_witness :
  exists upcoming,
    get_upcoming_payments payments_table may_15_noon alice 7 = Ok upcoming
    /\ map (fun e => e.1.1) upcoming
       = filter (fun p => days_to_next_due may_15_noon p <= 7)
           (filter (active_of alice) payments_table)
    /\ Forall (fun e =>
         e.1.2 = next_due_spec may_15_noon (fpr_due_day e.1.1)
         /\ e.2 = date_diff_days e.1.2 may_15_noon
         /\ 1 <= e.2 <= 7
         /\ dt_ltb may_15_noon e.1.2 = true) upcoming
    /\ (7 <= 0 -> upcoming = []).
Proof.
  apply (upcoming_payments_window payments_table may_15_noon alice 7);
    [reflexivity | simpl; lia | exact payments_table_validated].
Defined.



End UpcomingProofs.

(** ** Rows found, replaced and deleted by primary key *)

Module TableFacts.
Import Models BudgetCrudProofs.
Local Open Scope Z_scope.

Lemma filter_keeps_all {A} (P : A -> Prop) `{forall x, Decision (P x)}
  (l : list A) :
  Forall P l -> filter P l = l.
Proof.
  induction 1 as [|x l Hx _ IH]; [reflexivity |].
  now rewrite filter_cons_True, IH.
Qed.

Section ById.
Context {A : Type} (id : A -> Z).

Lemma unique_by_id (l : list A) a b :
  NoDup (map id l) -> a ∈ l -> b ∈ l -> id a = id b -> a = b.
Proof.
  induction l as [|x l IH]; intros Hnd Ha Hb Heq.
  - now apply elem_of_nil in Ha.
  - simpl in Hnd. apply NoDup_cons in Hnd as [Hx Hnd].
    apply elem_of_cons in Ha as [-> | Ha];
      apply elem_of_cons in Hb as [-> | Hb]; auto.
    + exfalso. apply Hx. rewrite Heq.
      apply list_elem_of_In, in_map, list_elem_of_In, Hb.
    + exfalso. apply Hx. rewrite <- Heq.
      apply list_elem_of_In, in_map, list_elem_of_In, Ha.
Qed.

(** [query.filter(id == k, ...).first()] finds the row with key [k]. *)
Lemma first_by_id (P : A -> Prop) `{forall x, Decision (P x)} (l : list A) a :
  NoDup (map id l) -> a ∈ l -> P a -> (forall x, P x -> id x = id a) ->
  head (filter P l) = Some a.
Proof.
  intros Hnd Ha HP Hid.
  destruct (head (filter P l)) as [b |] eqn:Hh.
  - apply head_filter_is_Some in Hh as [HPb Hb].
    f_equal. apply (unique_by_id l); auto.
  - exfalso. exact (proj1 (head_filter_None _ _) Hh a Ha HP).
Qed.

(** [UPDATE ... WHERE id = k] with a row that keeps the key. *)
Lemma replace_by_id (l : list A) k a a' :
  NoDup (map id l) -> a ∈ l -> id a = k -> id a' = k ->
  let l' := map (fun x => if decide (id x = k) then a' else x) l in
  a' ∈ l'
  /\ map id l' = map id l
  /\ length l' = length l
  /\ (forall x, x ∈ l -> id x <> k -> x ∈ l')
  /\ (forall x, x ∈ l' -> x = a' \/ (x ∈ l /\ id x <> k)).
Proof.
  intros Hnd Ha Hk Hk' l'. unfold l'.
  split; [| split; [| split; [| split]]].
  - apply list_elem_of_In, in_map_iff. exists a.
    split; [| now apply list_elem_of_In]. now rewrite decide_True.
  - rewrite List.map_map. apply List.map_ext. intros x.
    destruct (decide (id x = k)); congruence.
  - apply length_map.
  - intros x Hx Hne. apply list_elem_of_In, in_map_iff. exists x.
    split; [| now apply list_elem_of_In]. now rewrite decide_False.
  - intros x Hx. apply list_elem_of_In, in_map_iff in Hx as (y & Hy & Hin).
    destruct (decide (id y = k)); [now left |].
    right. subst x. split; [now apply list_elem_of_In | assumption].
Qed.

(** [DELETE ... WHERE id = k] *)
Lemma delete_by_id (l : list A) a :
  NoDup (map id l) -> a ∈ l ->
  let l' := filter (fun x => id x <> id a) l in
  (a ∉ l')
  /\ (forall x, x ∈ l' <-> x ∈ l /\ x <> a)
  /\ S (length l') = length l
  /\ NoDup (map id l').
Proof.
  intros Hnd Ha l'. unfold l'.
  split; [| split; [| split]].
  - intros Hin. apply list_elem_of_filter in Hin as [Hne _]. now apply Hne.
  - intros x. rewrite list_elem_of_filter. split.
    + intros [Hne Hx]. split; [exact Hx | congruence].
    + intros [Hx Hne]. split; [| exact Hx].
      intros Heq. apply Hne. now apply (unique_by_id l).
  - clear l'. induction l as [|x l IH]; [now apply elem_of_nil in Ha |].
    simpl in Hnd. apply NoDup_cons in Hnd as [Hx Hnd].
    rewrite filter_cons.
    apply elem_of_cons in Ha as [-> | Ha].
    + rewrite decide_False by auto. simpl. f_equal.
      apply (f_equal length). apply filter_keeps_all.
      apply Forall_forall. intros y Hy Heq. apply Hx. rewrite <- Heq.
      apply list_elem_of_In, in_map, list_elem_of_In, Hy.
    + rewrite decide_True.
      * simpl. f_equal. now apply IH.
      * intros Heq. apply Hx. rewrite Heq.
        apply list_elem_of_In, in_map, list_elem_of_In, Ha.
  - clear Ha. induction l as [|x l IH]; [constructor |].
    simpl in Hnd. apply NoDup_cons in Hnd as [Hx Hnd].
    rewrite filter_cons. destruct (decide (id x <> id a)); [| now apply IH].
    simpl. apply NoDup_cons. split; [| now apply IH].
    intros Hin. apply Hx.
    apply list_elem_of_In, in_map_iff in Hin as (y & Hy & Hin).
    apply list_elem_of_In, list_elem_of_filter in Hin as [_ Hin].
    rewrite <- Hy. apply list_elem_of_In, in_map, list_elem_of_In, Hin.
Qed.

(** A new row with a fresh key keeps the keys distinct, and deleting it
    gives the table back. *)
Lemma append_fresh (l : list A) a :
  NoDup (map id l) -> id a = fresh_id (map id l) ->
  NoDup (map id (l ++ [a]))
  /\ filter (fun x => id x <> id a) (l ++ [a]) = l.
Proof.
  intros Hnd Hid. split.
  - rewrite map_app. apply NoDup_app. split; [exact Hnd |].
    split; [| apply NoDup_singleton].
    intros k Hk Hin. apply list_elem_of_singleton in Hin. subst k.
    rewrite Hid in Hk. now apply fresh_id_not_in in Hk.
  - rewrite filter_app, filter_cons_False, filter_nil, app_nil_r by auto.
    apply filter_keeps_all. apply Forall_forall. intros x Hx Heq.
    apply (fresh_id_not_in (map id l)). rewrite <- Hid, <- Heq.
    apply list_elem_of_In, in_map, list_elem_of_In, Hx.
Qed.

End ById.

End TableFacts.

(** ** Updating and deleting fixed payments *)

Module FixedPaymentCrudProofs.
Import Calendar Models FixedPayments FixedPaymentHandlers BudgetCrudProofs
  TableFacts Scenarios MoreScenarios.
Local Open Scope Z_scope.

Lemma owned_first table current_user payment_id p :
  NoDup (map fpr_id table) -> p ∈ table -> owned_by current_user payment_id p ->
  head (filter (owned_by current_user payment_id) table) = Some p.
Proof.
  intros Hnd Hin Hown. apply (first_by_id fpr_id); auto.
  intros x [Hx _]. destruct Hown as [Hp _]. congruence.
Qed.

Lemma apply_update_null p u :
  fu_name u = Some None \/ fu_amount u = Some None
  \/ fu_due_day u = Some None ->
  apply_update p u = None.
Proof.
  unfold apply_update. intros [H | [H | H]]; rewrite H; simpl;
    repeat case_match; reflexivity.
Qed.

Lemma apply_update_ok p u :
  ~ (fu_name u = Some None \/ fu_amount u = Some None
     \/ fu_due_day u = Some None) ->
  apply_update p u
  = Some (mk_FixedPaymentRow (fpr_id p) (fpr_user_id p)
            (pick (fu_name u) (fpr_name p))
            (pick (fu_amount u) (fpr_amount p))
            (pick (fu_due_day u) (fpr_due_day p))
            (set_nullable (fu_is_active u) (fpr_is_active p))
            (set_nullable (fu_auto_register u) (fpr_auto_register p))).
Proof.
  unfold apply_update. intros H.
  destruct (fu_name u) as [[?|]|], (fu_amount u) as [[?|]|],
    (fu_due_day u) as [[?|]|]; simpl; try reflexivity;
    exfalso; apply H; auto.
Qed.

(** X6.  [update_fixed_payment] on a payment of the caller (ids
    distinct): a body that sets name, amount or due_day to null fails at
    commit and changes nothing; any other body succeeds, the row keeps
    its id and user_id, every field the body sets takes the body's value
    and every other field keeps its own; no other row changes.  The new
    due_day is any integer: the update schema has no validator, so a
    value [validate_due_day] refuses is stored. *)
Theorem update_fixed_payment_sets_given_fields
  table current_user payment_id payment_update p :
  NoDup (map fpr_id table) ->
  p ∈ table ->
  owned_by current_user payment_id p ->
  let null_in_required :=
    fu_name payment_update = Some None
    \/ fu_amount payment_update = Some None
    \/ fu_due_day payment_update = Some None in
  let p' :=
    mk_FixedPaymentRow (fpr_id p) (fpr_user_id p)
      (pick (fu_name payment_update) (fpr_name p))
      (pick (fu_amount payment_update) (fpr_amount p))
      (pick (fu_due_day payment_update) (fpr_due_day p))
      (set_nullable (fu_is_active payment_update) (fpr_is_active p))
      (set_nullable (fu_auto_register payment_update) (fpr_auto_register p))
  in
  (null_in_required ->
   update_fixed_payment table current_user payment_id payment_update
   = (IntegrityError, table))
  /\ (~ null_in_required ->
      exists table',
        update_fixed_payment table current_user payment_id payment_update
        = (Success p', table')
        /\ p' ∈ table'
        /\ map fpr_id table' = map fpr_id table
        /\ length table' = length table
        /\ (forall q, q ∈ table -> fpr_id q <> payment_id -> q ∈ table')
        /\ (forall q, q ∈ table' ->
              q = p' \/ (q ∈ table /\ fpr_id q <> payment_id))).
Proof.
  intros Hnd Hin Hown null_in_required p'.
  unfold update_fixed_payment.
  rewrite (owned_first _ _ _ _ Hnd Hin Hown).
  split; intros Hnull.
  - now rewrite (apply_update_null p payment_update Hnull).
  - rewrite (apply_update_ok p payment_update Hnull). fold p'.
    eexists. split; [reflexivity |].
    destruct Hown as [Hid _].
    apply (replace_by_id fpr_id table payment_id p p'); auto.
Qed.

Lemma update_fixed_payment_sets_given_fields_witness :
  let payment_update :=
    mk_FixedPaymentUpdate None None (Some (Some 45)) None (Some None) in
  let null_in_required :=
    fu_name payment_update = Some None
    \/ fu_amount payment_update = Some None
    \/ fu_due_day payment_update = Some None in
  let p' :=
    mk_FixedPaymentRow (fpr_id rent_row) (fpr_user_id rent_row)
      (pick (fu_name payment_update) (fpr_name rent_row))
      (pick (fu_amount payment_update) (fpr_amount rent_row))
      (pick (fu_due_day payment_update) (fpr_due_day rent_row))
      (set_nullable (fu_is_active payment_update) (fpr_is_active rent_row))
      (set_nullable (fu_auto_register payment_update)
         (fpr_auto_register rent_row))
  in
  (null_in_required ->
   update_fixed_payment payments_table alice 1 payment_update
   = (IntegrityError, payments_table))
  /\ (~ null_in_required ->
      exists table',
        update_fixed_payment payments_table alice 1 payment_update
        = (Success p', table')
        /\ p' ∈ table'
        /\ map fpr_id table' = map fpr_id payments_table
        /\ length table' = length payments_table
        /\ (forall q, q ∈ payments_table -> fpr_id q <> 1 -> q ∈ table')
        /\ (forall q, q ∈ table' ->
              q = p' \/ (q ∈ payments_table /\ fpr_id q <> 1))).
Proof.
  apply (update_fixed_payment_sets_given_fields payments_table alice 1
           (mk_FixedPaymentUpdate None None (Some (Some 45)) None (Some None))
           rent_row).
  - apply (bool_decide_unpack _). reflexivity.
  - apply list_elem_of_here.
  - split; reflexivity.
Defined.

Example update_stores_due_day_45 :
  update_fixed_payment payments_table alice 1
    (mk_FixedPaymentUpdate None None (Some (Some 45)) None None)
  = (Success (mk_FixedPaymentRow 1 1 "rent" 500 45 (Some true) (Some false)),
     [mk_FixedPaymentRow 1 1 "rent" 500 45 (Some true) (Some false);
      gym_row; paused_row; bobs_row])
  /\ validate_due_day 45 = Raise ValueError.
Proof. split; reflexivity. Qed.

(** X7.  [delete_fixed_payment] (ids distinct): when the caller has no
    payment with that id the answer is 404 and the table is unchanged;
    otherwise exactly that row is removed, every other row stays, and
    the ids stay distinct. *)
Theorem delete_fixed_payment_removes_one table current_user payment_id :
  NoDup (map fpr_id table) ->
  let found :=
    exists p, p ∈ table /\ owned_by current_user payment_id p in
  (~ found ->
   delete_fixed_payment table current_user payment_id
   = (HTTPException 404 "Pago fijo no encontrado", table))
  /\ (found ->
      exists p table',
        p ∈ table /\ owned_by current_user payment_id p
        /\ delete_fixed_payment table current_user payment_id
           = (Success "Pago fijo eliminado exitosamente"%string, table')
        /\ (forall q, q ∈ table' <-> q ∈ table /\ q <> p)
        /\ S (length table') = length table
        /\ NoDup (map fpr_id table')).
Proof.
  intros Hnd found. unfold delete_fixed_payment. split.
  - intros Hno.
    rewrite (proj2 (head_filter_None (owned_by current_user payment_id) table));
      [reflexivity |].
    intros x Hx Hown. apply Hno. now exists x.
  - intros (p & Hin & Hown).
    rewrite (owned_first _ _ _ _ Hnd Hin Hown).
    exists p. eexists. split; [exact Hin |]. split; [exact Hown |].
    split; [reflexivity |].
    destruct (delete_by_id fpr_id table p Hnd Hin) as (_ & Hiff & Hlen & Hnd').
    auto.
Qed.

Lemma payments_table_keys : NoDup (map fpr_id payments_table).
Proof. apply (bool_decide_unpack _). reflexivity. Qed.

Lemma delete_fixed_payment_removes_one_witness :
  let found :=
    exists p, p ∈ payments_table /\ owned_by alice 2 p in
  (~ found ->
   delete_fixed_payment payments_table alice 2
   = (HTTPException 404 "Pago fijo no encontrado", payments_table))
  /\ (found ->
      exists p table',
        p ∈ payments_table /\ owned_by alice 2 p
        /\ delete_fixed_payment payments_table alice 2
           = (Success "Pago fijo eliminado exitosamente"%string, table')
        /\ (forall q, q ∈ table' <-> q ∈ payments_table /\ q <> p)
        /\ S (length table') = length payments_table
        /\ NoDup (map fpr_id table')).
Proof.
  apply (delete_fixed_payment_removes_one payments_table alice 2).
  exact payments_table_keys.
Defined.

(** X8.  [create_fixed_payment] appends one row owned by the caller with
    the due_day of the body and a fresh id; deleting that id as the same
    caller gives back the table as it was. *)
Theorem create_then_delete_fixed_payment table current_user payment :
  NoDup (map fpr_id table) ->
  exists new,
    create_fixed_payment table current_user payment
    = (Success new, table ++ [new])
    /\ fpr_user_id new = u_id current_user
    /\ fpr_due_day new = fc_due_day payment
    /\ NoDup (map fpr_id (table ++ [new]))
    /\ delete_fixed_payment (table ++ [new]) current_user (fpr_id new)
       = (Success "Pago fijo eliminado exitosamente"%string, table).
Proof.
  intros Hnd. unfold create_fixed_payment.
  eexists. split; [reflexivity |].
  set (new := mk_FixedPaymentRow _ _ _ _ _ _ _).
  destruct (append_fresh fpr_id table new Hnd eq_refl) as [Hnd' Hdel].
  split; [reflexivity |]. split; [reflexivity |]. split; [exact Hnd' |].
  unfold delete_fixed_payment.
  rewrite (owned_first (table ++ [new]) current_user (fpr_id new) new Hnd').
  - now rewrite Hdel.
  - apply elem_of_app. right. apply list_elem_of_here.
  - split; reflexivity.
Qed.

Lemma create_then_delete_fixed_payment_witness :
  exists new,
    create_fixed_payment payments_table bob
      (mk_FixedPaymentCreate "water" 12 28 true false)
    = (Success new, payments_table ++ [new])
    /\ fpr_user_id new = u_id bob
    /\ fpr_due_day new
       = fc_due_day (mk_FixedPaymentCreate "water" 12 28 true false)
    /\ NoDup (map fpr_id (payments_table ++ [new]))
    /\ delete_fixed_payment (payments_table ++ [new]) bob (fpr_id new)
       = (Success "Pago fijo eliminado exitosamente"%string, payments_table).
Proof.
  apply (create_then_delete_fixed_payment payments_table bob
           (mk_FixedPaymentCreate "water" 12 28 true false)).
  exact payments_table_keys.
Defined.

End FixedPaymentCrudProofs.

(** ** Listing and deleting budgets *)

Module BudgetHandlerProofs.
Import Calendar Models Sql SqlFacts Budgets Analytics BudgetHandlers
  AggregationProofs BudgetCrudProofs TableFacts Scenarios MoreScenarios.
Local Open Scope Z_scope.

Lemma NoDup_map_filter {A B} (f : A -> B) (P : A -> Prop)
  `{forall x, Decision (P x)} (l : list A) :
  NoDup (map f l) -> NoDup (map f (filter P l)).
Proof.
  induction l as [|x l IH]; intros Hnd; [constructor |].
  simpl in Hnd. apply NoDup_cons in Hnd as [Hx Hnd].
  rewrite filter_cons. destruct (decide (P x)); [| now apply IH].
  simpl. apply NoDup_cons. split; [| now apply IH].
  intros Hin. apply Hx.
  apply list_elem_of_In, in_map_iff in Hin as (y & Hy & Hin).
  apply list_elem_of_In, list_elem_of_filter in Hin as [_ Hin].
  rewrite <- Hy. apply list_elem_of_In, in_map, list_elem_of_In, Hin.
Qed.

Lemma budget_first db current_user budget_id b :
  NoDup (map b_id (budgets db)) -> b ∈ budgets db ->
  b_id b = budget_id -> b_user_id b = u_id current_user ->
  head (filter (fun b => b_id b = budget_id
                         /\ b_user_id b = u_id current_user) (budgets db))
  = Some b.
Proof.
  intros Hnd Hin Hid Hu. apply (first_by_id b_id); auto.
  intros x [Hx _]. congruence.
Qed.

(** X9.  [delete_budget] (ids distinct): when the caller has no budget
    with that id the answer is 404 and the database is unchanged;
    otherwise exactly that budget is removed and every other budget and
    every other table stays. *)
Theorem delete_budget_removes_one db current_user budget_id :
  NoDup (map b_id (budgets db)) ->
  let found :=
    exists b, b ∈ budgets db /\ b_id b = budget_id
              /\ b_user_id b = u_id current_user in
  (~ found ->
   delete_budget db current_user budget_id
   = (HTTPException 404 "Presupuesto no encontrado", db))
  /\ (found ->
      exists b rows,
        b ∈ budgets db /\ b_id b = budget_id
        /\ b_user_id b = u_id current_user
        /\ delete_budget db current_user budget_id
           = (Success "Presupuesto eliminado exitosamente"%string,
              mk_DB (users db) (transactions db) rows (notifications db)
                (foreign_keys db))
        /\ (forall q, q ∈ rows <-> q ∈ budgets db /\ q <> b)
        /\ S (length rows) = length (budgets db)).
Proof.
  intros Hnd found. unfold delete_budget. split.
  - intros Hno.
    rewrite (proj2 (head_filter_None _ (budgets db))); [reflexivity |].
    intros x Hx [Hid Hu]. apply Hno. now exists x.
  - intros (b & Hin & Hid & Hu).
    rewrite (budget_first db current_user budget_id b Hnd Hin Hid Hu).
    exists b. eexists. split; [exact Hin |]. split; [exact Hid |].
    split; [exact Hu |]. split; [reflexivity |].
    destruct (delete_by_id b_id (budgets db) b Hnd Hin) as (_ & Hiff & Hlen & _).
    auto.
Qed.

Lemma delete_budget_removes_one_witness :
  let found :=
    exists b, b ∈ budgets small_db /\ b_id b = 7
              /\ b_user_id b = u_id alice in
  (~ found ->
   delete_budget small_db alice 7
   = (HTTPException 404 "Presupuesto no encontrado", small_db))
  /\ (found ->
      exists b rows,
        b ∈ budgets small_db /\ b_id b = 7
        /\ b_user_id b = u_id alice
        /\ delete_budget small_db alice 7
           = (Success "Presupuesto eliminado exitosamente"%string,
              mk_DB (users small_db) (transactions small_db) rows
                (notifications small_db) (foreign_keys small_db))
        /\ (forall q, q ∈ rows <-> q ∈ budgets small_db /\ q <> b)
        /\ S (length rows) = length (budgets small_db)).
Proof.
  apply (delete_budget_removes_one small_db alice 7).
  apply (bool_decide_unpack _). reflexivity.
Defined.

Example bob_cannot_delete_alices_budget :
  delete_budget small_db bob 7
  = (HTTPException 404 "Presupuesto no encontrado", small_db).
Proof. reflexivity. Qed.

(** X10.  The three writing handlers of budgets keep the table well
    formed: if the ids are distinct and no two budgets share
    (user, category, month, year), the same holds after [create_budget],
    [update_budget] and [delete_budget], whatever their arguments and
    outcome. *)
Theorem budget_handlers_keep_keys_distinct db current_user :
  budgets_wf db ->
  (forall budget, budgets_wf (create_budget db current_user budget).2)
  /\ (forall budget_id budget_update,
        budgets_wf
          (update_budget db current_user budget_id budget_update).2)
  /\ (forall budget_id,
        budgets_wf (delete_budget db current_user budget_id).2).
Proof.
  intros [Hids Hslots]. split; [| split].
  - intros budget. unfold create_budget.
    destruct (head (filter _ (budgets db))) as [b |] eqn:Hh; [now split |].
    set (new := mk_Budget _ _ _ _ _ _).
    unfold budgets_wf. cbn [snd budgets]. split.
    + apply (append_fresh b_id (budgets db) new Hids eq_refl).
    + rewrite map_app. apply NoDup_app. split; [exact Hslots |].
      split; [| apply NoDup_singleton].
      intros slot Hslot Hnew. apply list_elem_of_singleton in Hnew. subst slot.
      apply list_elem_of_In, in_map_iff in Hslot as (b & Hb & Hin).
      apply (proj1 (head_filter_None _ _) Hh b); [now apply list_elem_of_In |].
      unfold budget_slot, new in Hb. simpl in Hb. inversion Hb.
      unfold same_slot. auto.
  - intros budget_id budget_update. unfold update_budget.
    destruct (head (filter _ (budgets db))) as [b |] eqn:Hh; [| now split].
    destruct (apply_items b (BudgetUpdate_items budget_update))
      as [b' |] eqn:Happ; [| now split].
    apply head_filter_is_Some in Hh as [[Hid Hu] Hin].
    destruct (apply_items_frame _ _ _
                (BudgetUpdate_items_only_amount budget_update) Happ)
      as [Hid' Hslot'].
    destruct (write_row_update (budgets db) budget_id b b'
                Hids Hin Hid Hid' Hslot')
      as (_ & _ & Hsame & _ & Hkeep).
    unfold budgets_wf. cbn [snd budgets]. split.
    + now rewrite Hsame.
    + now apply Hkeep.
  - intros budget_id. unfold delete_budget.
    destruct (head (filter _ (budgets db))) as [b |] eqn:Hh; [| now split].
    unfold budgets_wf. cbn [snd budgets].
    split; now apply NoDup_map_filter.
Qed.

Lemma small_db_wf : budgets_wf small_db.
Proof. split; apply (bool_decide_unpack _); reflexivity. Qed.

Lemma budget_handlers_keep_keys_distinct_witness :
  (forall budget, budgets_wf (create_budget small_db alice budget).2)
  /\ (forall budget_id budget_update,
        budgets_wf (update_budget small_db alice budget_id budget_update).2)
  /\ (forall budget_id, budgets_wf (delete_budget small_db alice budget_id).2).
Proof.
  apply (budget_handlers_keep_keys_distinct small_db alice).
  exact small_db_wf.
Defined.

(** X11.  After a successful [create_budget] the same request is
    rejected with status 400, and deleting the created budget as the
    same caller restores the table of budgets. *)
Theorem created_budget_blocks_and_deletes
  db current_user budget new db1 :
  NoDup (map b_id (budgets db)) ->
  create_budget db current_user budget = (Success new, db1) ->
  (exists detail,
     create_budget db1 current_user budget = (HTTPException 400 detail, db1))
  /\ delete_budget db1 current_user (b_id new)
     = (Success "Presupuesto eliminado exitosamente"%string,
        mk_DB (users db) (transactions db) (budgets db) (notifications db)
          (foreign_keys db)).
Proof.
  intros Hids Hcreate. unfold create_budget in Hcreate.
  destruct (head (filter _ (budgets db))) as [b |] eqn:Hh; [discriminate |].
  inversion Hcreate as [[Hnew Hdb1]]. clear Hcreate.
  set (new0 := mk_Budget _ _ _ _ _ _) in *.
  destruct (append_fresh b_id (budgets db) new0 Hids eq_refl) as [Hnd' Hdel].
  assert (new0 ∈ budgets db ++ [new0]) as Hin
    by (apply elem_of_app; right; apply list_elem_of_here).
  split.
  - unfold create_budget. cbn [budgets].
    destruct (head (filter _ (budgets db ++ [new0]))) as [b |] eqn:Hh';
      [eexists; reflexivity |].
    exfalso. apply (proj1 (head_filter_None _ _) Hh' new0 Hin).
    unfold same_slot, new0. simpl. auto.
  - unfold delete_budget. cbn [budgets users transactions notifications
                                 foreign_keys].
    rewrite (first_by_id b_id _ (budgets db ++ [new0]) new0 Hnd' Hin).
    + now rewrite Hdel.
    + split; reflexivity.
    + intros x [Hx _]. exact Hx.
Qed.

Lemma created_budget_blocks_and_deletes_witness :
  (exists detail,
     create_budget
       (create_budget small_db bob (mk_BudgetCreate "food" 250 5 2024)).2
       bob (mk_BudgetCreate "food" 250 5 2024)
     = (HTTPException 400 detail,
        (create_budget small_db bob (mk_BudgetCreate "food" 250 5 2024)).2))
  /\ delete_budget
       (create_budget small_db bob (mk_BudgetCreate "food" 250 5 2024)).2
       bob (b_id (mk_Budget 8 2 "food" 250 5 2024))
     = (Success "Presupuesto eliminado exitosamente"%string,
        mk_DB (users small_db) (transactions small_db) (budgets small_db)
          (notifications small_db) (foreign_keys small_db)).
Proof.
  apply (created_budget_blocks_and_deletes small_db bob
           (mk_BudgetCreate "food" 250 5 2024)
           (mk_Budget 8 2 "food" 250 5 2024)).
  - apply (bool_decide_unpack _). reflexivity.
  - reflexivity.
Defined.

End BudgetHandlerProofs.

(** ** The budgets with their spent amounts *)

Module BudgetListProofs.
Import Calendar Models Sql SqlFacts Budgets Analytics BudgetHandlers
  AggregationProofs Scenarios MoreScenarios.
Local Open Scope Z_scope.

Lemma budget_with_spent_rows txs user_id month year b :
  budget_with_spent txs user_id month year b
  = (let spent_amount :=
       Qabs (scalar_or_0 (sql_sum (map tx_amount
               (spent_rows txs user_id month year (b_category b))))) in
     (spent_amount, budget_percentage b spent_amount,
      calculate_budget_status b spent_amount)).
Proof. reflexivity. Qed.



Example get_budgets_defaults_to_now :
  get_budgets small_db may_15_noon None None alice
  = [(food_budget, (80%Q, (8000 # 100)%Q, "warning"%string))]
  /\ get_budgets small_db may_15_noon (Some 4) None alice = []
  /\ get_budgets small_db may_15_noon (Some 5) (Some 2024) bob = [].
Proof. repeat split. Qed.

(** X13.  The spent amount [get_budgets] shows for a budget is the
    amount the category breakdown of the same user and period shows for
    the budget's category, and 0 when the breakdown has no entry for
    it. *)
Theorem spent_matches_category_breakdown txs user_id month year budget :
  let spent := (budget_with_spent txs user_id month year budget).1.1 in
  let breakdown := category_breakdown txs user_id month year in
  (forall e, e ∈ breakdown -> ca_category e = b_category budget ->
             (spent == ca_amount e)%Q)
  /\ (b_category budget ∉ map ca_category breakdown -> (spent == 0)%Q).
Proof.
  intros spent breakdown.
  assert (forall k,
            filter (fun t => tx_category t = k)
              (filter (of_type_in_period user_id EXPENSE month year) txs)
            = spent_rows txs user_id month year k) as Hgroup.
  { intros k. unfold spent_rows. rewrite list_filter_filter.
    apply list_filter_iff. unfold of_type_in_period. tauto. }
  assert (spent == Qabs (Qsum (map tx_amount
            (spent_rows txs user_id month year (b_category budget)))))%Q
    as Hspent.
  { unfold spent. rewrite budget_with_spent_rows. cbn [fst].
    now rewrite scalar_or_0_sum. }
  split.
  - intros e He Hcat. unfold breakdown in He.
    rewrite category_breakdown_rows in He.
    apply list_elem_of_In, in_map_iff in He as (k & <- & _).
    simpl in Hcat. subst k. simpl. now rewrite Hgroup.
  - intros Hnot. rewrite Hspent.
    assert (spent_rows txs user_id month year (b_category budget) = [])
      as ->; [| reflexivity].
    rewrite <- Hgroup.
    destruct (filter _ (filter _ txs)) as [|t rest] eqn:Hf; [reflexivity |].
    exfalso. apply Hnot.
    assert (t ∈ filter (fun t => tx_category t = b_category budget)
                  (filter (of_type_in_period user_id EXPENSE month year) txs))
      as Ht by (rewrite Hf; apply list_elem_of_here).
    apply list_elem_of_filter in Ht as [Hcat Ht].
    unfold breakdown. rewrite category_breakdown_rows, List.map_map. simpl.
    rewrite List.map_id. apply elem_of_remove_dups. rewrite <- Hcat.
    apply list_elem_of_In, in_map, list_elem_of_In, Ht.
Qed.

End BudgetListProofs.

(** ** Reading and deleting notifications *)

Module NotificationHandlerProofs.
Import Models Notifications NotificationHandlers BudgetCrudProofs TableFacts
  Scenarios MoreScenarios.
Local Open Scope Z_scope.

Lemma filter_ext_in {A} (P Q : A -> Prop) `{forall x, Decision (P x)}
  `{forall x, Decision (Q x)} (l : list A) :
  (forall x, x ∈ l -> P x <-> Q x) -> filter P l = filter Q l.
Proof.
  induction l as [|x l IH]; intros Hext; [reflexivity |].
  rewrite !filter_cons.
  assert (filter P l = filter Q l) as ->.
  { apply IH. intros y Hy. apply Hext. now apply list_elem_of_further. }
  pose proof (Hext x (list_elem_of_here _ _)) as Hx.
  destruct (decide (P x)), (decide (Q x)); tauto.
Qed.

Lemma filter_map_fixed {A} (P : A -> Prop) `{forall x, Decision (P x)}
  (g : A -> A) (l : list A) :
  (forall x, x ∈ l -> (P x -> g x = x) /\ (~ P x -> ~ P (g x))) ->
  filter P (map g l) = filter P l.
Proof.
  induction l as [|x l IH]; intros Hg; [reflexivity |].
  simpl. rewrite !filter_cons.
  rewrite IH by (intros y Hy; apply Hg; now apply list_elem_of_further).
  destruct (Hg x (list_elem_of_here _ _)) as [Hfix Hnot].
  destruct (decide (P x)) as [HP | HP].
  - rewrite (Hfix HP). now rewrite decide_True.
  - now rewrite decide_False by auto.
Qed.

Lemma own_first db current_user notification_id n :
  NoDup (map n_id (notifications db)) -> n ∈ notifications db ->
  notification_of current_user notification_id n ->
  head (filter (notification_of current_user notification_id)
          (notifications db)) = Some n.
Proof.
  intros Hnd Hin Hown. apply (first_by_id n_id); auto.
  intros x [Hx _]. destruct Hown as [Hn _]. congruence.
Qed.

Lemma mark_read_twice n : mark_read (mark_read n) = mark_read n.
Proof. reflexivity. Qed.

(** X14.  [mark_notification_as_read] (ids distinct): 404 and no change
    when the caller has no notification with that id; otherwise the
    notification is stored with is_read set, the ids and every other
    notification are unchanged, and marking it again changes nothing. *)
Theorem mark_as_read_marks_own db current_user notification_id :
  NoDup (map n_id (notifications db)) ->
  let found :=
    exists n, n ∈ notifications db
              /\ notification_of current_user notification_id n in
  (~ found ->
   mark_notification_as_read db current_user notification_id
   = (HTTPException 404 "Notificación no encontrada", db))
  /\ (found ->
      exists n rows,
        n ∈ notifications db
        /\ notification_of current_user notification_id n
        /\ mark_notification_as_read db current_user notification_id
           = (Success "Notificación marcada como leída"%string,
              with_notifications db rows)
        /\ mark_read n ∈ rows
        /\ map n_id rows = map n_id (notifications db)
        /\ (forall x, x ∈ notifications db -> x <> n -> x ∈ rows)
        /\ mark_notification_as_read (with_notifications db rows)
             current_user notification_id
           = (Success "Notificación marcada como leída"%string,
              with_notifications db rows)).
Proof.
  intros Hnd found. split.
  - intros Hno. unfold mark_notification_as_read.
    rewrite (proj2 (head_filter_None _ (notifications db))); [reflexivity |].
    intros x Hx Hown. apply Hno. now exists x.
  - intros (n & Hin & Hown).
    unfold mark_notification_as_read at 1.
    rewrite (own_first _ _ _ _ Hnd Hin Hown).
    exists n. eexists. split; [exact Hin |]. split; [exact Hown |].
    split; [reflexivity |].
    destruct (replace_by_id n_id (notifications db) (n_id n) n (mark_read n)
                Hnd Hin eq_refl eq_refl)
      as (Hnew & Hids & _ & Hothers & _).
    split; [exact Hnew |]. split; [exact Hids |].
    split.
    { intros x Hx Hne. apply Hothers; [exact Hx |].
      intros Heq. apply Hne. now apply (unique_by_id n_id (notifications db)). }
    unfold mark_notification_as_read.
    cbn [with_notifications notifications].
    rewrite (first_by_id n_id _ _ (mark_read n)).
    + unfold with_notifications. cbn [users transactions budgets
                                       notifications foreign_keys].
      do 2 f_equal. rewrite List.map_map. apply List.map_ext_in.
      intros x Hx. cbn [mark_read n_id].
      destruct (decide (n_id x = n_id n)) as [Heq | Hne].
      * now rewrite decide_True.
      * now rewrite decide_False.
    + now rewrite Hids.
    + exact Hnew.
    + destruct Hown as [Hid Hu]. split; assumption.
    + intros x [Hx _]. destruct Hown as [Hid _]. simpl. congruence.
Qed.

Lemma notifications_n1 :
  NoDup (map n_id (notifications
    (create_notification small_db alice reminder_for_bob).2)).
Proof. apply (bool_decide_unpack _). reflexivity. Qed.

Lemma mark_as_read_marks_own_witness :
  let db := (create_notification small_db alice reminder_for_bob).2 in
  let found :=
    exists n, n ∈ notifications db /\ notification_of bob 1 n in
  (~ found ->
   mark_notification_as_read db bob 1
   = (HTTPException 404 "Notificación no encontrada", db))
  /\ (found ->
      exists n rows,
        n ∈ notifications db
        /\ notification_of bob 1 n
        /\ mark_notification_as_read db bob 1
           = (Success "Notificación marcada como leída"%string,
              with_notifications db rows)
        /\ mark_read n ∈ rows
        /\ map n_id rows = map n_id (notifications db)
        /\ (forall x, x ∈ notifications db -> x <> n -> x ∈ rows)
        /\ mark_notification_as_read (with_notifications db rows) bob 1
           = (Success "Notificación marcada como leída"%string,
              with_notifications db rows)).
Proof.
  apply (mark_as_read_marks_own
           (create_notification small_db alice reminder_for_bob).2 bob 1).
  exact notifications_n1.
Defined.

Lemma mark_all_spec db current_user :
  let db' := (mark_all_notifications_as_read db current_user).2 in
  (forall n, n ∈ notifications db' -> n_user_id n = u_id current_user ->
             n_is_read n = true)
  /\ map n_id (notifications db') = map n_id (notifications db)
  /\ of_others current_user (notifications db')
     = of_others current_user (notifications db)
  /\ (forall n, n ∈ notifications db' ->
        n ∈ notifications db
        \/ exists m, m ∈ notifications db /\ n = mark_read m
                     /\ n_user_id m = u_id current_user
                     /\ n_is_read m = false)
  /\ mark_all_notifications_as_read db' current_user
     = (Success "Todas las notificaciones marcadas como leídas"%string, db').
Proof.
  intros db'. unfold db', mark_all_notifications_as_read.
  cbn [snd with_notifications notifications users transactions budgets
       foreign_keys].
  set (g := fun n => if decide (n_user_id n = u_id current_user
                                /\ n_is_read n = false)
                     then mark_read n else n).
  assert (forall x, n_id (g x) = n_id x /\ n_user_id (g x) = n_user_id x)
    as Hkeep.
  { intros x. unfold g. destruct (decide _); split; reflexivity. }
  assert (forall x, g (g x) = g x) as Hidem.
  { intros x. unfold g.
    destruct (decide (n_user_id x = u_id current_user /\ n_is_read x = false))
      as [Hc | Hc].
    - rewrite decide_False; [reflexivity |]. simpl. intros [_ H]. discriminate.
    - now rewrite decide_False. }
  split; [| split; [| split; [| split]]].
  - intros n Hn Hu.
    apply list_elem_of_In, in_map_iff in Hn as (m & <- & _).
    unfold g in *. destruct (decide _) as [Hc | Hc]; [reflexivity |].
    destruct (n_is_read m) eqn:Hr; [reflexivity |].
    exfalso. apply Hc. auto.
  - rewrite List.map_map. apply List.map_ext. intros x. apply Hkeep.
  - unfold of_others. apply filter_map_fixed. intros x _. split.
    + intros Hx. unfold g. rewrite decide_False; [reflexivity | tauto].
    + intros Hx. now rewrite (proj2 (Hkeep x)).
  - intros n Hn.
    apply list_elem_of_In, in_map_iff in Hn as (m & <- & Hm).
    apply list_elem_of_In in Hm. unfold g.
    destruct (decide _) as [[Hu Hr] | Hc]; [| now left].
    right. exists m. auto.
  - do 2 f_equal. rewrite List.map_map. apply List.map_ext. exact Hidem.
Qed.

(** X15.  After [mark_all_notifications_as_read] every notification of
    the caller is read; the ids are the same list, the notifications of
    other users are unchanged, every stored row is an old row or an old
    unread row of the caller with is_read set, and a second call changes
    nothing. *)
Theorem mark_all_reads_own_only db current_user :
  let db' := (mark_all_notifications_as_read db current_user).2 in
  (forall n, n ∈ notifications db' -> n_user_id n = u_id current_user ->
             n_is_read n = true)
  /\ map n_id (notifications db') = map n_id (notifications db)
  /\ of_others current_user (notifications db')
     = of_others current_user (notifications db)
  /\ (forall n, n ∈ notifications db' ->
        n ∈ notifications db
        \/ exists m, m ∈ notifications db /\ n = mark_read m
                     /\ n_user_id m = u_id current_user
                     /\ n_is_read m = false)
  /\ mark_all_notifications_as_read db' current_user
     = (Success "Todas las notificaciones marcadas como leídas"%string, db').
Proof. apply mark_all_spec. Qed.

Lemma others_kept_by_update rows current_user n (n' : Notification) :
  NoDup (map n_id rows) -> n ∈ rows ->
  n_user_id n = u_id current_user -> n_user_id n' = u_id current_user ->
  of_others current_user
    (map (fun x => if decide (n_id x = n_id n) then n' else x) rows)
  = of_others current_user rows.
Proof.
  intros Hnd Hin Hu Hu'. unfold of_others. apply filter_map_fixed.
  intros x Hx. split.
  - intros Hother. rewrite decide_False; [reflexivity |].
    intros Heq. apply Hother.
    now rewrite (unique_by_id n_id rows x n Hnd Hx Hin Heq).
  - intros Hown. destruct (decide _); [| exact Hown]. tauto.
Qed.

Lemma others_kept_by_delete rows current_user n :
  NoDup (map n_id rows) -> n ∈ rows ->
  n_user_id n = u_id current_user ->
  of_others current_user (filter (fun x => n_id x <> n_id n) rows)
  = of_others current_user rows.
Proof.
  intros Hnd Hin Hu. unfold of_others. rewrite list_filter_filter.
  apply filter_ext_in. intros x Hx. split; [tauto |].
  intros Hother. split; [exact Hother |].
  intros Heq. apply Hother.
  now rewrite (unique_by_id n_id rows x n Hnd Hx Hin Heq).
Qed.

(** X16.  No handler that reads or deletes notifications touches
    another user's data (ids distinct): after
    [mark_notification_as_read], [mark_all_notifications_as_read],
    [delete_notification] and [clear_all_notifications] the
    notifications of everybody but the caller, and the users,
    transactions and budgets, are what they were; after
    [clear_all_notifications] none of the caller's notifications is
    left. *)
Theorem notification_handlers_leave_others db current_user notification_id :
  NoDup (map n_id (notifications db)) ->
  let untouched db' :=
    of_others current_user (notifications db')
    = of_others current_user (notifications db)
    /\ users db' = users db /\ transactions db' = transactions db
    /\ budgets db' = budgets db in
  untouched (mark_notification_as_read db current_user notification_id).2
  /\ untouched (mark_all_notifications_as_read db current_user).2
  /\ untouched (delete_notification db current_user notification_id).2
  /\ untouched (clear_all_notifications db current_user).2
  /\ (forall n,
        n ∈ notifications (clear_all_notifications db current_user).2 ->
        n_user_id n <> u_id current_user).
Proof.
  intros Hnd untouched. unfold untouched.
  split; [| split; [| split; [| split]]].
  - unfold mark_notification_as_read.
    destruct (head (filter _ (notifications db))) as [n |] eqn:Hh;
      [| repeat split].
    apply head_filter_is_Some in Hh as [[_ Hu] Hin].
    cbn [snd with_notifications notifications users transactions budgets].
    split; [| repeat split].
    now apply others_kept_by_update.
  - split; [| repeat split].
    apply (mark_all_spec db current_user).
  - unfold delete_notification.
    destruct (head (filter _ (notifications db))) as [n |] eqn:Hh;
      [| repeat split].
    apply head_filter_is_Some in Hh as [[_ Hu] Hin].
    cbn [snd with_notifications notifications users transactions budgets].
    split; [| repeat split].
    now apply others_kept_by_delete.
  - cbn [snd clear_all_notifications with_notifications notifications users
         transactions budgets].
    split; [| repeat split].
    unfold of_others. apply list_filter_filter_r. tauto.
  - intros n Hn.
    cbn [snd clear_all_notifications with_notifications notifications] in Hn.
    now apply list_elem_of_filter in Hn as [Hn _].
Qed.

Lemma notification_handlers_leave_others_witness :
  let db := (create_notification small_db alice reminder_for_bob).2 in
  let untouched db' :=
    of_others bob (notifications db') = of_others bob (notifications db)
    /\ users db' = users db /\ transactions db' = transactions db
    /\ budgets db' = budgets db in
  untouched (mark_notification_as_read db bob 1).2
  /\ untouched (mark_all_notifications_as_read db bob).2
  /\ untouched (delete_notification db bob 1).2
  /\ untouched (clear_all_notifications db bob).2
  /\ (forall n,
        n ∈ notifications (clear_all_notifications db bob).2 ->
        n_user_id n <> u_id bob).
Proof.
  apply (notification_handlers_leave_others
           (create_notification small_db alice reminder_for_bob).2 bob 1).
  exact notifications_n1.
Defined.

(** X17.  A notification created for another user is out of its
    creator's reach: when [create_notification] stores a notification
    whose user_id is not the caller's, the caller's
    [mark_notification_as_read] and [delete_notification] on its id
    answer 404 and the caller's [clear_all_notifications] leaves it,
    while its owner can delete it, which restores the table. *)
Theorem creator_cannot_manage_notification db caller notification n db1 :
  NoDup (map n_id (notifications db)) ->
  create_notification db caller notification = (Success n, db1) ->
  nc_user_id notification <> u_id caller ->
  mark_notification_as_read db1 caller (n_id n)
  = (HTTPException 404 "Notificación no encontrada", db1)
  /\ delete_notification db1 caller (n_id n)
     = (HTTPException 404 "Notificación no encontrada", db1)
  /\ n ∈ notifications (clear_all_notifications db1 caller).2
  /\ (forall owner, u_id owner = nc_user_id notification ->
        delete_notification db1 owner (n_id n)
        = (Success "Notificación eliminada"%string,
           with_notifications db1 (notifications db))).
Proof.
  intros Hnd Hcreate Hother. unfold create_notification in Hcreate.
  destruct (foreign_keys db && _); [discriminate |].
  inversion Hcreate as [[Hn Hdb1]]. clear Hcreate.
  set (n0 := mk_Notification _ _ _ _ _ _ _ _) in *.
  destruct (append_fresh n_id (notifications db) n0 Hnd eq_refl)
    as [Hnd' Hdel].
  assert (n0 ∈ notifications db ++ [n0]) as Hin
    by (apply elem_of_app; right; apply list_elem_of_here).
  assert (head (filter (notification_of caller (n_id n0))
                  (notifications db ++ [n0])) = None) as Hnone.
  { apply head_filter_None. intros x Hx [Hid Hu].
    assert (x = n0) as -> by now apply (unique_by_id n_id (notifications db ++ [n0])).
    simpl in Hu. contradiction. }
  split; [| split; [| split]].
  - unfold mark_notification_as_read. cbn [notifications]. now rewrite Hnone.
  - unfold delete_notification. cbn [notifications]. now rewrite Hnone.
  - cbn [snd clear_all_notifications with_notifications notifications].
    apply list_elem_of_filter. split; [exact Hother | exact Hin].
  - intros owner Howner. unfold delete_notification. cbn [notifications].
    rewrite (first_by_id n_id _ (notifications db ++ [n0]) n0 Hnd' Hin).
    + now rewrite Hdel.
    + split; [reflexivity | now rewrite Howner].
    + intros x [Hx _]. exact Hx.
Qed.

Lemma creator_cannot_manage_notification_witness :
  let n := mk_Notification 1 2 "Alert" "Pay now" PAYMENT_REMINDER
             false false false in
  let db1 := (create_notification small_db alice reminder_for_bob).2 in
  mark_notification_as_read db1 alice (n_id n)
  = (HTTPException 404 "Notificación no encontrada", db1)
  /\ delete_notification db1 alice (n_id n)
     = (HTTPException 404 "Notificación no encontrada", db1)
  /\ n ∈ notifications (clear_all_notifications db1 alice).2
  /\ (forall owner, u_id owner = nc_user_id reminder_for_bob ->
        delete_notification db1 owner (n_id n)
        = (Success "Notificación eliminada"%string,
           with_notifications db1 (notifications small_db))).
Proof.
  apply (creator_cannot_manage_notification small_db alice reminder_for_bob).
  - apply NoDup_nil_2.
  - reflexivity.
  - simpl. lia.
Defined.

End NotificationHandlerProofs.

(** ** Notification settings *)

Module NotificationSettingsProofs.
Import Models NotificationHandlers BudgetCrudProofs TableFacts
  Scenarios MoreScenarios.
Local Open Scope Z_scope.

Lemma first_of_user_after_append (table : list NotificationSettings) user_id s :
  head (filter (fun x => ns_user_id x = user_id) table) = None ->
  ns_user_id s = user_id ->
  head (filter (fun x => ns_user_id x = user_id) (table ++ [s])) = Some s.
Proof.
  intros Hnone Hs. rewrite filter_app.
  destruct (filter _ table) as [|y rest]; [| discriminate].
  now rewrite filter_cons_True.
Qed.

Lemma first_of_user_after_update (table : list NotificationSettings)
  user_id s s' :
  head (filter (fun x => ns_user_id x = user_id) table) = Some s ->
  ns_user_id s' = user_id ->
  head (filter (fun x => ns_user_id x = user_id)
          (map (fun x => if decide (ns_id x = ns_id s) then s' else x) table))
  = Some s'.
Proof.
  intros Hfirst Hs'. induction table as [|x table IH]; [discriminate |].
  simpl. rewrite filter_cons in Hfirst.
  destruct (decide (ns_user_id x = user_id)) as [Hx | Hx].
  - simpl in Hfirst. inversion Hfirst; subst x.
    rewrite decide_True by reflexivity. now rewrite filter_cons_True.
  - destruct (decide (ns_id x = ns_id s)).
    + now rewrite filter_cons_True.
    + rewrite filter_cons_False by exact Hx. now apply IH.
Qed.

(** X18.  [get_notification_settings] is get-or-create: it returns a
    row of the caller that is in the resulting table; with a row present
    the table is unchanged, without one a row with the default flags is
    appended; a second call returns the same row and changes nothing;
    one row per user and distinct ids are preserved. *)
Theorem settings_are_created_once table current_user :
  let r := get_notification_settings table current_user in
  ns_user_id r.1 = u_id current_user
  /\ r.1 ∈ r.2
  /\ ((exists s, s ∈ table /\ ns_user_id s = u_id current_user) ->
      r.2 = table)
  /\ ((forall s, s ∈ table -> ns_user_id s <> u_id current_user) ->
      r.2 = table ++ [r.1] /\ ns_flags r.1 = default_flags)
  /\ get_notification_settings r.2 current_user = r
  /\ (NoDup (map ns_user_id table) -> NoDup (map ns_user_id r.2))
  /\ (NoDup (map ns_id table) -> NoDup (map ns_id r.2)).
Proof.
  intros r. unfold r, get_notification_settings.
  destruct (head (filter _ table)) as [s |] eqn:Hh.
  - pose proof Hh as Hs. apply head_filter_is_Some in Hs as [Hu Hin].
    cbn [fst snd]. rewrite Hh.
    split; [exact Hu |]. split; [exact Hin |]. split; [reflexivity |].
    split; [intros Hno; exfalso; now apply (Hno s) |].
    split; [reflexivity |]. split; auto.
  - cbn [fst snd].
    set (s := mk_NotificationSettings _ _ _).
    rewrite (first_of_user_after_append table (u_id current_user) s Hh eq_refl).
    split; [reflexivity |].
    split; [apply elem_of_app; right; apply list_elem_of_here |].
    split.
    { intros (x & Hx & Hu). exfalso.
      exact (proj1 (head_filter_None _ _) Hh x Hx Hu). }
    split; [auto |]. split; [reflexivity |]. split.
    + intros Hnd. rewrite map_app. apply NoDup_app. split; [exact Hnd |].
      split; [| apply NoDup_singleton].
      intros k Hk Hnew. apply list_elem_of_singleton in Hnew. subst k.
      apply list_elem_of_In, in_map_iff in Hk as (x & Hx & Hin).
      exact (proj1 (head_filter_None _ _) Hh x
               (proj2 (list_elem_of_In _ _) Hin) Hx).
    + intros Hnd. now apply (append_fresh ns_id table s Hnd eq_refl).
Qed.

(** X19.  [update_notification_settings] (ids distinct) stores exactly
    the six flags of the body for the caller, whatever the flags were:
    [get_notification_settings] then returns that row and changes
    nothing; the rows of other users are the same, and one row per user
    and distinct ids are preserved. *)
Theorem settings_update_overwrites_flags table current_user settings_update :
  NoDup (map ns_id table) ->
  let r := update_notification_settings table current_user settings_update in
  ns_user_id r.1 = u_id current_user
  /\ ns_flags r.1 = settings_update
  /\ get_notification_settings r.2 current_user = (r.1, r.2)
  /\ (forall s, s ∈ table -> ns_user_id s <> u_id current_user -> s ∈ r.2)
  /\ (forall s, s ∈ r.2 -> ns_user_id s <> u_id current_user -> s ∈ table)
  /\ (NoDup (map ns_user_id table) -> NoDup (map ns_user_id r.2))
  /\ NoDup (map ns_id r.2).
Proof.
  intros Hnd r. unfold r, update_notification_settings.
  destruct (head (filter _ table)) as [s |] eqn:Hh.
  - pose proof Hh as Hs. apply head_filter_is_Some in Hs as [Hu Hin].
    cbn [fst snd].
    set (s' := mk_NotificationSettings (ns_id s) (ns_user_id s) settings_update).
    destruct (replace_by_id ns_id table (ns_id s) s s' Hnd Hin eq_refl eq_refl)
      as (Hnew & Hids & _ & Hothers & Hfrom).
    split; [exact Hu |]. split; [reflexivity |]. split.
    { unfold get_notification_settings.
      now rewrite (first_of_user_after_update table (u_id current_user) s s' Hh Hu). }
    split.
    { intros x Hx Hne. apply Hothers; [exact Hx |].
      intros Heq. apply Hne.
      now rewrite (unique_by_id ns_id table x s Hnd Hx Hin Heq). }
    split.
    { intros x Hx Hne. destruct (Hfrom x Hx) as [-> | [Hx' _]]; [| exact Hx'].
      exfalso. now apply Hne. }
    split; [| now rewrite Hids].
    intros Husers.
    assert (map ns_user_id
              (map (fun x => if decide (ns_id x = ns_id s) then s' else x) table)
            = map ns_user_id table) as ->; [| exact Husers].
    rewrite List.map_map. apply List.map_ext_in. intros x Hx.
    destruct (decide (ns_id x = ns_id s)) as [Heq | Hne]; [| reflexivity].
    apply list_elem_of_In in Hx.
    now rewrite (unique_by_id ns_id table x s Hnd Hx Hin Heq).
  - cbn [fst snd].
    set (s := mk_NotificationSettings _ _ _).
    split; [reflexivity |]. split; [reflexivity |]. split.
    { unfold get_notification_settings.
      now rewrite (first_of_user_after_append table (u_id current_user) s Hh eq_refl). }
    split; [intros x Hx _; apply elem_of_app; now left |].
    split.
    { intros x Hx Hne. apply elem_of_app in Hx as [Hx | Hx]; [exact Hx |].
      apply list_elem_of_singleton in Hx. subst x. now destruct Hne. }
    split.
    + intros Husers. rewrite map_app. apply NoDup_app. split; [exact Husers |].
      split; [| apply NoDup_singleton].
      intros k Hk Hnew. apply list_elem_of_singleton in Hnew. subst k.
      apply list_elem_of_In, in_map_iff in Hk as (x & Hx & Hin).
      exact (proj1 (head_filter_None _ _) Hh x
               (proj2 (list_elem_of_In _ _) Hin) Hx).
    + now apply (append_fresh ns_id table s Hnd eq_refl).
Qed.

Lemma settings_update_overwrites_flags_witness :
  let flags := mk_NotificationFlags false true true false true true in
  let r := update_notification_settings settings_table bob flags in
  ns_user_id r.1 = u_id bob
  /\ ns_flags r.1 = flags
  /\ get_notification_settings r.2 bob = (r.1, r.2)
  /\ (forall s, s ∈ settings_table -> ns_user_id s <> u_id bob -> s ∈ r.2)
  /\ (forall s, s ∈ r.2 -> ns_user_id s <> u_id bob -> s ∈ settings_table)
  /\ (NoDup (map ns_user_id settings_table) -> NoDup (map ns_user_id r.2))
  /\ NoDup (map ns_id r.2).
Proof.
  apply (settings_update_overwrites_flags settings_table bob
           (mk_NotificationFlags false true true false true true)).
  apply NoDup_singleton.
Defined.

Example settings_created_with_defaults :
  get_notification_settings settings_table alice
  = (mk_NotificationSettings 2 1 default_flags,
     settings_table ++ [mk_NotificationSettings 2 1 default_flags]).
Proof. reflexivity. Qed.

End NotificationSettingsProofs.

(** ** The dashboard's lists *)

Module DashboardProofs.
Import Calendar CalendarFacts Models Sql SqlFacts Budgets Analytics
  FixedPayments FixedPaymentHandlers BudgetHandlers Dashboard
  AggregationProofs Scenarios MoreScenarios.
Local Open Scope Z_scope.

(** *** The order on datetimes *)

Lemma lex_compare_le_trans a : forall b c,
  lex_compare a b <> Gt -> lex_compare b c <> Gt -> lex_compare a c <> Gt.
Proof.
  induction a as [|x a IH]; intros [|y b] [|z c] Hab Hbc; simpl in *;
    try congruence.
  destruct (Z.compare_spec x y) as [-> | Hxy | Hxy]; [| | congruence].
  - destruct (Z.compare_spec y z) as [-> | Hyz | Hyz]; [| congruence | congruence].
    now apply (IH b c).
  - destruct (Z.compare_spec y z) as [-> | Hyz | Hyz]; [| | congruence].
    + now rewrite (proj2 (Z.compare_lt_iff x z)) by lia.
    + now rewrite (proj2 (Z.compare_lt_iff x z)) by lia.
Qed.

Lemma dt_leb_trans a b c :
  dt_leb a b = true -> dt_leb b c = true -> dt_leb a c = true.
Proof.
  unfold dt_leb, dt_compare. intros Hab Hbc.
  pose proof (lex_compare_le_trans (dt_fields a) (dt_fields b) (dt_fields c))
    as Htrans.
  destruct (lex_compare (dt_fields a) (dt_fields b));
    destruct (lex_compare (dt_fields b) (dt_fields c));
    destruct (lex_compare (dt_fields a) (dt_fields c));
    try reflexivity; try discriminate; exfalso; apply Htrans; congruence.
Qed.

Lemma dt_leb_total a b : dt_leb a b = true \/ dt_leb b a = true.
Proof.
  unfold dt_leb. rewrite (dt_compare_antisym a b).
  destruct (dt_compare a b); simpl; auto.
Qed.

Local Instance later_first_total : Total later_first.
Proof. intros a b. unfold later_first. apply dt_leb_total. Qed.

Local Instance later_first_trans : Transitive later_first.
Proof.
  intros a b c Hab Hbc. unfold later_first in *.
  now apply (dt_leb_trans _ (tx_date b)).
Qed.

(** X22.  The recent transactions of the dashboard are
    min(5, number of the user's transactions) transactions of the user,
    latest date first, and every transaction of the user that is left
    out is dated at or before each of them. *)
Theorem recent_transactions_are_latest txs user_id :
  let own := filter (fun t => tx_user_id t = user_id) txs in
  let recent := recent_transactions txs user_id in
  length recent = Nat.min 5 (length own)
  /\ StronglySorted later_first recent
  /\ exists older,
       recent ++ older ≡ₚ own
       /\ forall t t', t ∈ recent -> t' ∈ older ->
                       dt_leb (tx_date t') (tx_date t) = true.
Proof.
  intros own recent. unfold recent, recent_transactions. fold own.
  pose proof (StronglySorted_merge_sort later_first own) as Hsorted.
  pose proof (merge_sort_Permutation later_first own) as Hperm.
  rewrite <- (take_drop 5 (merge_sort later_first own)) in Hsorted.
  split; [| split].
  - rewrite length_take. now rewrite Hperm.
  - now apply StronglySorted_app_1_l in Hsorted.
  - exists (drop 5 (merge_sort later_first own)).
    split; [now rewrite take_drop |].
    intros t t' Ht Ht'.
    exact (StronglySorted_app_1_elem_of _ _ _ t t' Hsorted Ht Ht').
Qed.

(** *** Other users' transactions *)

Lemma of_type_in_period_own (txs : list Transaction) user_id ty month year :
  filter (of_type_in_period user_id ty month year)
    (filter (fun t => tx_user_id t = user_id) txs)
  = filter (of_type_in_period user_id ty month year) txs.
Proof. apply list_filter_filter_l. unfold of_type_in_period. tauto. Qed.

Lemma in_period_own (txs : list Transaction) user_id month year :
  filter (in_period user_id month year)
    (filter (fun t => tx_user_id t = user_id) txs)
  = filter (in_period user_id month year) txs.
Proof. apply list_filter_filter_l. unfold in_period. tauto. Qed.

Lemma in_window_own (txs : list Transaction) user_id start_date :
  filter (in_window user_id start_date)
    (filter (fun t => tx_user_id t = user_id) txs)
  = filter (in_window user_id start_date) txs.
Proof. apply list_filter_filter_l. unfold in_window. tauto. Qed.

Lemma in_category_window_own (txs : list Transaction) user_id category
  start_date :
  filter (in_category_window user_id category start_date)
    (filter (fun t => tx_user_id t = user_id) txs)
  = filter (in_category_window user_id category start_date) txs.
Proof. apply list_filter_filter_l. unfold in_category_window. tauto. Qed.

Lemma analytics_read_own_rows (txs : list Transaction) user_id :
  let own := filter (fun t => tx_user_id t = user_id) txs in
  (forall month year,
     monthly_analysis own user_id month year
     = monthly_analysis txs user_id month year)
  /\ (forall month year,
        category_breakdown own user_id month year
        = category_breakdown txs user_id month year)
  /\ (forall now months,
        get_monthly_trend own user_id now months
        = get_monthly_trend txs user_id now months)
  /\ (forall category now months,
        get_category_trend own user_id category now months
        = get_category_trend txs user_id category now months)
  /\ recent_transactions own user_id = recent_transactions txs user_id.
Proof.
  intros own. unfold own.
  split; [| split; [| split; [| split]]].
  - intros month year. unfold monthly_analysis, expense_total.
    now rewrite !of_type_in_period_own, in_period_own.
  - intros month year.
    unfold category_breakdown, category_data, expense_total.
    now rewrite !of_type_in_period_own.
  - intros now months. unfold get_monthly_trend, monthly_data.
    destruct (minus_days now (months * 30)) as [start_date | e];
      [| reflexivity].
    cbn [result_bind]. now rewrite in_window_own.
  - intros category now months.
    unfold get_category_trend, category_monthly_data.
    destruct (minus_days now (months * 30)) as [start_date | e];
      [| reflexivity].
    cbn [result_bind]. now rewrite in_category_window_own.
  - unfold recent_transactions. f_equal. f_equal.
    apply list_filter_filter_l. tauto.
Qed.

(** X23.  The analytics of a user read that user's transactions only:
    two transaction sets with the same transactions of the user give the
    same monthly analysis, category breakdown, monthly trend, category
    trend and recent transactions. *)
Theorem analytics_ignore_other_users (txs txs' : list Transaction) user_id :
  filter (fun t => tx_user_id t = user_id) txs'
  = filter (fun t => tx_user_id t = user_id) txs ->
  (forall month year,
     monthly_analysis txs' user_id month year
     = monthly_analysis txs user_id month year)
  /\ (forall month year,
        category_breakdown txs' user_id month year
        = category_breakdown txs user_id month year)
  /\ (forall now months,
        get_monthly_trend txs' user_id now months
        = get_monthly_trend txs user_id now months)
  /\ (forall category now months,
        get_category_trend txs' user_id category now months
        = get_category_trend txs user_id category now months)
  /\ recent_transactions txs' user_id = recent_transactions txs user_id.
Proof.
  intros Hown.
  destruct (analytics_read_own_rows txs user_id) as (H1 & H2 & H3 & H4 & H5).
  destruct (analytics_read_own_rows txs' user_id)
    as (H1' & H2' & H3' & H4' & H5').
  rewrite Hown in H1', H2', H3', H4', H5'.
  split; [| split; [| split; [| split]]]; intros; congruence.
Qed.

Lemma analytics_ignore_other_users_witness :
  let bobs := mk_Transaction 9 2 (-999) "car" "transport" EXPENSE
                (mk_datetime 2024 5 3 9 0 0 0) in
  (forall month year,
     monthly_analysis (bobs :: may_2024) 1 month year
     = monthly_analysis may_2024 1 month year)
  /\ (forall month year,
        category_breakdown (bobs :: may_2024) 1 month year
        = category_breakdown may_2024 1 month year)
  /\ (forall now months,
        get_monthly_trend (bobs :: may_2024) 1 now months
        = get_monthly_trend may_2024 1 now months)
  /\ (forall category now months,
        get_category_trend (bobs :: may_2024) 1 category now months
        = get_category_trend may_2024 1 category now months)
  /\ recent_transactions (bobs :: may_2024) 1
     = recent_transactions may_2024 1.
Proof.
  apply (analytics_ignore_other_users may_2024
           (mk_Transaction 9 2 (-999) "car" "transport" EXPENSE
              (mk_datetime 2024 5 3 9 0 0 0) :: may_2024) 1).
  reflexivity.
Defined.

(** *** No transaction is counted twice *)

Lemma Qsum_ones {A} (l : list A) :
  (Qsum (map (fun _ => 1%Q) l) == inject_Z (Z.of_nat (length l)))%Q.
Proof.
  induction l as [|x l IH]; [reflexivity |].
  simpl map. rewrite Qsum_cons, IH. simpl length.
  rewrite Nat2Z.inj_succ. unfold Z.succ. rewrite inject_Z_plus. ring.
Qed.

Lemma Qsum_inject_Z (l : list Z) :
  (Qsum (map inject_Z l) == inject_Z (foldr Z.add 0%Z l))%Q.
Proof.
  induction l as [|x l IH]; [reflexivity |].
  simpl map. rewrite Qsum_cons, IH. simpl foldr.
  now rewrite inject_Z_plus.
Qed.

(** X24.  The category breakdown counts every EXPENSE transaction of
    the period once: its transaction counts add up to the number of
    these transactions, which is at most the transactions_count of the
    monthly analysis, and every entry counts at least one. *)
Theorem category_counts_add_up txs user_id month year :
  let expenses :=
    filter (of_type_in_period user_id EXPENSE month year) txs in
  foldr Z.add 0
    (map ca_transaction_count (category_breakdown txs user_id month year))
  = Z.of_nat (length expenses)
  /\ Z.of_nat (length expenses)
     <= transactions_count (monthly_analysis txs user_id month year)
  /\ Forall (fun e => 1 <= ca_transaction_count e)
       (category_breakdown txs user_id month year).
Proof.
  intros expenses. split; [| split].
  - apply inject_Z_injective.
    rewrite <- Qsum_inject_Z, <- Qsum_ones.
    rewrite <- (group_by_sums tx_category (fun _ => 1%Q) expenses).
    unfold category_breakdown, category_data. fold expenses.
    rewrite !List.map_map.
    assert (forall l1 l2 : list Q, Forall2 Qeq l1 l2 -> (Qsum l1 == Qsum l2)%Q)
      as Hsum.
    { induction 1 as [|a b l1 l2 Hab _ IH]; [reflexivity |].
      now rewrite !Qsum_cons, Hab, IH. }
    apply Hsum. apply Forall2_fmap, Forall_Forall2_diag, Forall_forall.
    intros g _. simpl. symmetry. apply Qsum_ones.
  - unfold monthly_analysis, transactions_count.
    rewrite period_count_both_types. fold expenses. lia.
  - rewrite category_breakdown_rows. fold expenses.
    apply Forall_forall. intros e He.
    apply list_elem_of_In, in_map_iff in He as (k & <- & Hk).
    simpl.
    apply list_elem_of_In in Hk. rewrite elem_of_remove_dups in Hk.
    apply list_elem_of_In, in_map_iff in Hk as (t & Ht & Hin).
    assert (t ∈ filter (fun t => tx_category t = k) expenses) as Hmem
      by (apply list_elem_of_filter; split; [exact Ht | now apply list_elem_of_In]).
    destruct (filter _ expenses); [now apply elem_of_nil in Hmem |].
    simpl. lia.
Qed.

End DashboardProofs.

(** ** The category trend *)

Module CategoryTrendProofs.
Import Calendar CalendarFacts Models Sql SqlFacts Analytics Dashboard
  AggregationProofs TrendProofs Scenarios MoreScenarios.
Local Open Scope Z_scope.

Lemma category_trend_step_lookup (trend : gmap string Q) y m total k :
  category_trend_step trend (y, m, total) !! k
  = if decide (k = trend_key y m) then Some (Qabs total) else trend !! k.
Proof.
  unfold category_trend_step.
  destruct (decide (k = trend_key y m)) as [-> | Hne].
  - apply lookup_insert_eq.
  - now apply lookup_insert_ne.
Qed.

Section CategoryFold.
Variable g : Z * Z -> Q.

Lemma category_fold_dom ks k :
  is_Some (foldl category_trend_step ∅ (map (fun k => (k, g k)) ks) !! k)
  <-> exists y m, (y, m) ∈ ks /\ k = trend_key y m.
Proof.
  induction ks as [|[y m] ks IH] using rev_ind.
  - simpl. rewrite lookup_empty. split; [intros [? ?]; discriminate |].
    intros (? & ? & H & _). now apply elem_of_nil in H.
  - rewrite map_app. simpl map. rewrite foldl_snoc.
    rewrite category_trend_step_lookup.
    destruct (decide (k = trend_key y m)) as [-> | Hne].
    + split; [| intros _; eexists; reflexivity].
      intros _. exists y, m. split; [| reflexivity].
      apply elem_of_app. right. apply list_elem_of_here.
    + rewrite IH. split; intros (y' & m' & Hin & Hk).
      * exists y', m'. split; [| exact Hk]. apply elem_of_app. now left.
      * apply elem_of_app in Hin as [Hin | Hin].
        -- exists y', m'. auto.
        -- apply list_elem_of_singleton in Hin. inversion Hin; subst.
           contradiction.
Qed.

Lemma category_fold_value ks :
  NoDup ks ->
  (forall y m, (y, m) ∈ ks -> 1 <= m <= 12) ->
  forall y m, 1 <= m <= 12 ->
  foldl category_trend_step ∅ (map (fun k => (k, g k)) ks) !! trend_key y m
  = if decide ((y, m) ∈ ks) then Some (Qabs (g (y, m))) else None.
Proof.
  induction ks as [|[y' m'] ks IH] using rev_ind; intros Hnd Hval y m Hm.
  - simpl. rewrite lookup_empty. reflexivity.
  - apply NoDup_app in Hnd as (Hnd & Hfresh & _).
    assert ((y', m') ∉ ks) as Hnew.
    { intros Hin. apply (Hfresh _ Hin). apply list_elem_of_here. }
    assert (1 <= m' <= 12) as Hm'.
    { apply (Hval y' m'). apply elem_of_app. right. apply list_elem_of_here. }
    assert (forall y m, (y, m) ∈ ks -> 1 <= m <= 12) as Hval'.
    { intros ? ? Hin. eapply Hval. apply elem_of_app. left. exact Hin. }
    specialize (IH Hnd Hval' y m Hm).
    rewrite map_app. simpl map. rewrite foldl_snoc.
    rewrite category_trend_step_lookup, IH. clear IH.
    destruct (decide (trend_key y m = trend_key y' m')) as [Hk | Hk].
    + apply trend_key_inj in Hk as [-> ->]; [| assumption ..].
      rewrite decide_True; [reflexivity |].
      apply elem_of_app. right. apply list_elem_of_here.
    + destruct (decide ((y, m) ∈ ks)) as [Hin | Hin].
      * rewrite decide_True; [reflexivity |]. apply elem_of_app. now left.
      * rewrite decide_False; [reflexivity |].
        intros Hin'. apply elem_of_app in Hin' as [Hin' | Hin'];
          [contradiction |].
        apply list_elem_of_singleton in Hin'. inversion Hin'; subst.
        now apply Hk.
Qed.
End CategoryFold.

Lemma category_monthly_data_rows txs user_id category start_date :
  let selected :=
    filter (in_category_window user_id category start_date) txs in
  category_monthly_data txs user_id category start_date
  = map (fun k => (k, Qsum (map tx_amount
                              (filter (fun t => ym t = k) selected))))
        (remove_dups (map ym selected)).
Proof. unfold category_monthly_data, group_by. now rewrite List.map_map. Qed.

(** What the loop of [get_category_trend] builds from the transactions
    at or after [start_date]. *)
Lemma category_trend_lookup txs user_id category start_date :
  Forall (fun t => valid_datetime (tx_date t) = true) txs ->
  let selected :=
    filter (in_category_window user_id category start_date) txs in
  let trend :=
    foldl category_trend_step ∅
      (category_monthly_data txs user_id category start_date) in
  (forall key,
     is_Some (trend !! key)
     <-> exists t, t ∈ selected
                   /\ key = trend_key (dt_year (tx_date t))
                              (dt_month (tx_date t)))
  /\ (forall t, t ∈ selected ->
        trend !! trend_key (dt_year (tx_date t)) (dt_month (tx_date t))
        = Some (Qabs (Qsum (map tx_amount
                  (filter (fun t' => ym t' = ym t) selected))))).
Proof.
  intros Hdates selected trend. unfold trend.
  rewrite category_monthly_data_rows. fold selected.
  set (g := fun k => Qsum (map tx_amount (filter (fun t => ym t = k) selected))).
  set (ks := remove_dups (map ym selected)).
  assert (forall t, t ∈ selected -> ym t ∈ ks) as Hks.
  { intros t Ht. unfold ks. rewrite elem_of_remove_dups.
    apply list_elem_of_In, in_map, list_elem_of_In, Ht. }
  assert (forall y m, (y, m) ∈ ks ->
            exists t, t ∈ selected /\ ym t = (y, m)) as Hks'.
  { intros y m Hin. unfold ks in Hin. rewrite elem_of_remove_dups in Hin.
    apply list_elem_of_In, in_map_iff in Hin as (t & Ht & Hin).
    exists t. split; [now apply list_elem_of_In | exact Ht]. }
  assert (forall t, t ∈ selected -> 1 <= dt_month (tx_date t) <= 12) as Hval.
  { intros t Ht. apply list_elem_of_filter in Ht as [_ Ht].
    rewrite Forall_forall in Hdates. specialize (Hdates t Ht).
    apply valid_datetime_spec in Hdates as (Hd & _).
    apply valid_date_spec in Hd. tauto. }
  split.
  - intros key. pose proof (category_fold_dom g ks key) as Hdom.
    unfold g in Hdom. cbv beta in Hdom. rewrite Hdom. clear Hdom. split.
    + intros (y & m & Hin & ->).
      destruct (Hks' y m Hin) as (t & Ht & Heq).
      exists t. split; [exact Ht |]. unfold ym in Heq. now inversion Heq.
    + intros (t & Ht & ->).
      exists (dt_year (tx_date t)), (dt_month (tx_date t)).
      split; [apply (Hks t Ht) | reflexivity].
  - intros t Ht.
    pose proof (category_fold_value g ks (NoDup_remove_dups _)) as Hvalue.
    unfold g in Hvalue at 1. cbv beta in Hvalue. rewrite Hvalue.
    + rewrite decide_True by apply (Hks t Ht). reflexivity.
    + intros y' m' Hin. destruct (Hks' y' m' Hin) as (t' & Ht' & Heq).
      unfold ym in Heq. inversion Heq; subst. now apply Hval.
    + now apply Hval.
Qed.

(** X20.  For N in 1..12, an instant [now] more than 30 N days after
    1 January of year 1 and transactions with valid dates,
    [get_category_trend] returns a dictionary whose keys are exactly the
    months in which the user has an EXPENSE transaction of the category
    dated at or after now - 30 N days (no upper bound), each with the
    absolute value of the sum of these transactions of the month. *)
Theorem category_trend_entries txs user_id category now months :
  Forall (fun t => valid_datetime (tx_date t) = true) txs ->
  valid_datetime now = true ->
  1 <= months <= 12 ->
  months * 30 < toordinal now ->
  exists start_date trend,
    minus_days now (months * 30) = Ok start_date
    /\ get_category_trend txs user_id category now months = Ok trend
    /\ let selected :=
         filter (in_category_window user_id category start_date) txs in
       (forall key,
          is_Some (trend !! key)
          <-> exists t, t ∈ selected
                        /\ key = trend_key (dt_year (tx_date t))
                                   (dt_month (tx_date t)))
       /\ (forall t, t ∈ selected ->
             trend !! trend_key (dt_year (tx_date t)) (dt_month (tx_date t))
             = Some (Qabs (Qsum (map tx_amount
                       (filter (fun t' => ym t' = ym t) selected))))).
Proof.
  intros Hdates Hnow Hmonths Hord.
  destruct (minus_days_ok now (months * 30) Hnow) as [start_date Hstart];
    [lia | lia |].
  exists start_date. eexists. split; [exact Hstart |].
  unfold get_category_trend. rewrite Hstart. cbn [result_bind].
  split; [reflexivity |].
  apply (category_trend_lookup txs user_id category start_date Hdates).
Qed.

Lemma may_2024_dates :
  Forall (fun t => valid_datetime (tx_date t) = true) may_2024.
Proof. repeat constructor. Qed.

Lemma category_trend_entries_witness :
  exists start_date trend,
    minus_days may_15_noon (6 * 30) = Ok start_date
    /\ get_category_trend may_2024 1 "food" may_15_noon 6 = Ok trend
    /\ let selected :=
         filter (in_category_window 1 "food" start_date) may_2024 in
       (forall key,
          is_Some (trend !! key)
          <-> exists t, t ∈ selected
                        /\ key = trend_key (dt_year (tx_date t))
                                   (dt_month (tx_date t)))
       /\ (forall t, t ∈ selected ->
             trend !! trend_key (dt_year (tx_date t)) (dt_month (tx_date t))
             = Some (Qabs (Qsum (map tx_amount
                       (filter (fun t' => ym t' = ym t) selected))))).
Proof.
  apply (category_trend_entries may_2024 1 "food" may_15_noon 6).
  - exact may_2024_dates.
  - reflexivity.
  - lia.
  - vm_compute. reflexivity.
Defined.

Example food_trend :
  exists trend,
    get_category_trend may_2024 1 "food" may_15_noon 6 = Ok trend
    /\ map_to_list trend = [("2024-05"%string, 80%Q)].
Proof. eexists. split; [reflexivity |]. vm_compute. reflexivity. Qed.

(** *** The category trend inside the monthly trend *)

Lemma monthly_trend_lookup txs user_id start_date :
  Forall (fun t => valid_datetime (tx_date t) = true) txs ->
  let selected := filter (in_window user_id start_date) txs in
  forall t, t ∈ selected ->
    foldl trend_step ∅ (monthly_data txs user_id start_date)
      !! trend_key (dt_year (tx_date t)) (dt_month (tx_date t))
    = Some (mk_TrendEntry
              (Qsum (map tx_amount
                 (filter (fun t' => ymt t' = (dt_year (tx_date t),
                                              dt_month (tx_date t), INCOME))
                    selected)))
              (Qabs (Qsum (map tx_amount
                 (filter (fun t' => ymt t' = (dt_year (tx_date t),
                                              dt_month (tx_date t), EXPENSE))
                    selected))))).
Proof.
  intros Hdates selected t Ht.
  rewrite monthly_data_rows. fold selected.
  set (g := fun k => Qsum (map tx_amount (filter (fun t => ymt t = k) selected))).
  set (ks := remove_dups (map ymt selected)).
  set (y := dt_year (tx_date t)). set (m := dt_month (tx_date t)).
  assert (forall t, t ∈ selected -> ymt t ∈ ks) as Hks.
  { intros t0 Ht0. unfold ks. rewrite elem_of_remove_dups.
    apply list_elem_of_In, in_map, list_elem_of_In, Ht0. }
  assert (forall t, t ∈ selected -> 1 <= dt_month (tx_date t) <= 12) as Hval.
  { intros t0 Ht0. apply list_elem_of_filter in Ht0 as [_ Ht0].
    rewrite Forall_forall in Hdates. specialize (Hdates t0 Ht0).
    apply valid_datetime_spec in Hdates as (Hd & _).
    apply valid_date_spec in Hd. tauto. }
  pose proof (trend_fold_value g ks (NoDup_remove_dups _)) as Hvalue.
  unfold g in Hvalue at 1. cbv beta in Hvalue. rewrite Hvalue.
  - assert ((y, m, INCOME) ∈ ks \/ (y, m, EXPENSE) ∈ ks) as Hside.
    { pose proof (Hks t Ht) as Hin. unfold ymt in Hin. fold y m in Hin.
      destruct (tx_transaction_type t); auto. }
    rewrite decide_True by exact Hside.
    f_equal. f_equal.
    + case_decide as Hin; [reflexivity |].
      now rewrite (filter_key_absent ymt selected _ Hin).
    + case_decide as Hin; [reflexivity |].
      now rewrite (filter_key_absent ymt selected _ Hin).
  - intros y' m' ty' Hin. unfold ks in Hin.
    rewrite elem_of_remove_dups in Hin.
    apply list_elem_of_In, in_map_iff in Hin as (t' & Heq & Hin).
    unfold ymt in Heq. inversion Heq; subst.
    apply Hval. now apply list_elem_of_In.
  - now apply Hval.
Qed.

Lemma Qsum_filter_nonpos {A} (f : A -> Q) (P : A -> Prop)
  `{forall x, Decision (P x)} (l : list A) :
  Forall (fun x => (f x <= 0)%Q) l ->
  (Qsum (map f l) <= Qsum (map f (filter P l)))%Q
  /\ (Qsum (map f (filter P l)) <= 0)%Q.
Proof.
  induction 1 as [|x l Hx _ [IH1 IH2]].
  - rewrite filter_nil. simpl. rewrite Qsum_nil. split; lra.
  - rewrite filter_cons. simpl map at 1. rewrite Qsum_cons.
    destruct (decide (P x)); [simpl map; rewrite Qsum_cons |]; split; lra.
Qed.

(** X21.  Under the same conditions every key of the category trend is
    a key of the monthly trend for the same [now] and N, and when the
    user's expenses are stored with non-positive amounts the category's
    value of a month is between 0 and the expenses the monthly trend
    shows for that month. *)
Theorem category_trend_within_monthly_trend
  txs user_id category now months :
  Forall (fun t => valid_datetime (tx_date t) = true) txs ->
  valid_datetime now = true ->
  1 <= months <= 12 ->
  months * 30 < toordinal now ->
  exists category_trend monthly_trend,
    get_category_trend txs user_id category now months = Ok category_trend
    /\ get_monthly_trend txs user_id now months = Ok monthly_trend
    /\ (forall key, is_Some (category_trend !! key) ->
                    is_Some (monthly_trend !! key))
    /\ (Forall (fun t => tx_user_id t = user_id ->
                         tx_transaction_type t = EXPENSE ->
                         (tx_amount t <= 0)%Q) txs ->
        forall key v e,
          category_trend !! key = Some v ->
          monthly_trend !! key = Some e ->
          (0 <= v <= te_expenses e)%Q).
Proof.
  intros Hdates Hnow Hmonths Hord.
  destruct (minus_days_ok now (months * 30) Hnow) as [start_date Hstart];
    [lia | lia |].
  unfold get_category_trend, get_monthly_trend. rewrite Hstart.
  cbn [result_bind]. do 2 eexists.
  split; [reflexivity |]. split; [reflexivity |].
  destruct (category_trend_lookup txs user_id category start_date Hdates)
    as [Hdom Hvalue].
  assert (forall t,
            t ∈ filter (in_category_window user_id category start_date) txs ->
            t ∈ filter (in_window user_id start_date) txs) as Hsub.
  { intros t Ht. apply list_elem_of_filter in Ht as [(Hu & _ & _ & Hs) Ht].
    apply list_elem_of_filter. split; [split; assumption | exact Ht]. }
  split.
  - intros key Hsome. apply Hdom in Hsome as (t & Ht & ->).
    rewrite (monthly_trend_lookup txs user_id start_date Hdates t (Hsub t Ht)).
    eexists. reflexivity.
  - intros Hsign key v e Hv He.
    assert (is_Some (foldl category_trend_step ∅
                       (category_monthly_data txs user_id category start_date)
                     !! key)) as Hsome by (rewrite Hv; eexists; reflexivity).
    apply (proj1 (Hdom key)) in Hsome as (t & Ht & Hkey). subst key.
    rewrite (Hvalue t Ht) in Hv.
    rewrite (monthly_trend_lookup txs user_id start_date Hdates t (Hsub t Ht))
      in He.
    injection Hv as <-. injection He as <-. cbn [te_expenses].
    set (month_expenses :=
           filter (fun t' => ymt t' = (dt_year (tx_date t),
                                       dt_month (tx_date t), EXPENSE))
             (filter (in_window user_id start_date) txs)).
    assert (filter (fun t' => ym t' = ym t)
              (filter (in_category_window user_id category start_date) txs)
            = filter (fun t' => tx_category t' = category) month_expenses)
      as ->.
    { unfold month_expenses. rewrite !list_filter_filter.
      apply list_filter_iff. intros x.
      unfold in_category_window, in_window, ym, ymt.
      split; intros Hx;
        repeat match goal with
               | H : _ /\ _ |- _ => destruct H
               end;
        repeat match goal with
               | H : (_, _) = (_, _) |- _ => inversion H; clear H
               end;
        repeat split; congruence. }
    assert (Forall (fun x => (tx_amount x <= 0)%Q) month_expenses) as Hneg.
    { apply Forall_forall. intros x Hx. unfold month_expenses in Hx.
      apply list_elem_of_filter in Hx as [Hymt Hx].
      apply list_elem_of_filter in Hx as [[Hu _] Hx].
      rewrite Forall_forall in Hsign. apply (Hsign x Hx Hu).
      unfold ymt in Hymt. now inversion Hymt. }
    destruct (Qsum_filter_nonpos tx_amount
                (fun t' => tx_category t' = category) month_expenses Hneg)
      as [Hle Hle0].
    assert (Qsum (map tx_amount month_expenses) <= 0)%Q as Hall
      by now apply Qsum_nonpos, Forall_fmap.
    split; [apply Qabs_nonneg |].
    rewrite (Qabs_neg _ Hle0), (Qabs_neg _ Hall). lra.
Qed.

Lemma category_trend_within_monthly_trend_witness :
  exists category_trend monthly_trend,
    get_category_trend may_2024 1 "food" may_15_noon 6 = Ok category_trend
    /\ get_monthly_trend may_2024 1 may_15_noon 6 = Ok monthly_trend
    /\ (forall key, is_Some (category_trend !! key) ->
                    is_Some (monthly_trend !! key))
    /\ (Forall (fun t => tx_user_id t = 1 ->
                         tx_transaction_type t = EXPENSE ->
                         (tx_amount t <= 0)%Q) may_2024 ->
        forall key v e,
          category_trend !! key = Some v ->
          monthly_trend !! key = Some e ->
          (0 <= v <= te_expenses e)%Q).
Proof.
  apply (category_trend_within_monthly_trend may_2024 1 "food" may_15_noon 6).
  - exact may_2024_dates.
  - reflexivity.
  - lia.
  - vm_compute. reflexivity.
Defined.

End CategoryTrendProofs.

(** ** The list of fixed payments and the dashboard *)

Module PaymentListProofs.
Import Calendar CalendarFacts FixedPayments FixedPaymentsProofs
  Models Sql Budgets Analytics FixedPaymentHandlers BudgetHandlers Dashboard
  DueDayEdgeProofs UpcomingProofs DashboardProofs Scenarios MoreScenarios.
Local Open Scope Z_scope.






End PaymentListProofs.
